(** * Tutor-AI: fallback providers, study-material heuristics and the
      persistence service, embedded and verified

    The development follows the Python sources:
    - [api/main.py]: [FallbackContentSystem.get_python_content] and the
      fallback branch of [evaluate_quiz]; [get_python_questions], the
      fallback branch of [generate_questions] and
      [extract_key_concepts_from_content];
    - [agents/content_generator.py]: [_assess_source_quality],
      [_create_bullet_notes], [_suggest_diagrams]; the retrieval and
      context functions and [_create_study_materials];
    - [models/mongodb_models.py] and [services/mongodb_service.py]: the
      document constructors and the [MongoDBService] methods.

    Conventions.  A Python [str] is a [string] whose characters are code
    points below 256; [lower] and [strip] follow CPython on that range.
    A Python [float] is a binary64 number, computed with the operations of
    [SpecFloat] at precision 53 and maximal exponent 1024.  A Python
    [dict] is a [gmap] with string keys.  Code that can raise returns a
    [result]. *)

From Stdlib Require Import ZArith NArith Ascii String List Bool Lia.
From Stdlib Require Import Floats.SpecFloat.
From stdpp Require Import base option list gmap strings pretty.

Set Default Proof Using "Type".
Set Warnings "-register-all".
Local Open Scope Z_scope.

(** ** Python exceptions and fallible code *)

Inductive exn :=
  | IndexError
  | AttributeError
  | TypeError
  | ValueError
  | OverflowError
  | DateOverflowError (msg : string)
  | ZeroDivisionError
  | KeyError
  | InvalidId
  | StoreError (msg : string).

Inductive result (A : Type) :=
  | Ok (a : A)
  | Raise (e : exn).
Arguments Ok {A} a.
Arguments Raise {A} e.

Definition rbind {A B} (r : result A) (k : A -> result B) : result B :=
  match r with
  | Ok a => k a
  | Raise e => Raise e
  end.

Declare Scope py_scope.
Delimit Scope py_scope with py.
Notation "x <- c1 ;;; c2" := (rbind c1 (fun x => c2))
  (at level 100, c1 at next level, right associativity) : py_scope.

(** ** binary64 arithmetic (Python [float]) *)

Module Float64.

Definition prec : Z := 53.
Definition emax : Z := 1024.

Definition float := spec_float.

Definition add : float -> float -> float := SFadd prec emax.
Definition mul : float -> float -> float := SFmul prec emax.
Definition div : float -> float -> float := SFdiv prec emax.
Definition ltb : float -> float -> bool := SFltb.
Definition leb : float -> float -> bool := SFleb.

(** [float(n)] for a Python [int]: the nearest binary64 number (the
    conversion overflows only from 2^1024 on, beyond any length or count
    in this development). *)
Definition of_Z (n : Z) : float := binary_normalize prec emax n 0 false.

Definition zero : float := S754_zero false.
Definition one : float := of_Z 1.

(** [int(x)]: truncation toward zero; infinities and NaN raise. *)
Definition to_int (x : float) : result Z :=
  match x with
  | S754_zero _ => Ok 0
  | S754_finite s m e =>
      let a := match e with
               | Z0 => Zpos m
               | Zpos k => Z.shiftl (Zpos m) (Zpos k)
               | Zneg k => Z.shiftr (Zpos m) (Zpos k)
               end in
      Ok (if s then - a else a)
  | S754_infinity _ => Raise OverflowError
  | S754_nan => Raise ValueError
  end.

(** An integer as an unrounded mantissa with exponent 0. *)
Definition raw (n : Z) : float :=
  match n with
  | Z0 => S754_zero false
  | Zpos p => S754_finite false p 0
  | Zneg p => S754_finite true p 0
  end.

(** [a / b] on Python [int]s (true division): the exact quotient, rounded
    once; a quotient too large for a float raises. *)
Definition int_truediv (a b : Z) : result float :=
  if b =? 0 then Raise ZeroDivisionError
  else match div (raw a) (raw b) with
       | S754_infinity _ => Raise OverflowError
       | q => Ok q
       end.

(** [min(x, y)] on floats: the built-in keeps its first argument unless
    a later one is strictly smaller. *)
Definition py_min (x y : float) : float := if ltb y x then y else x.

End Float64.

(** ** Python strings *)

Module PyStr.

Definition code (c : ascii) : N := N_of_ascii c.

(** [str.lower] on one code point below 256: A-Z and the Latin-1
    capitals U+00C0..U+00DE (without the multiplication sign U+00D7). *)
Definition lower_char (c : ascii) : ascii :=
  let n := code c in
  if ((65 <=? n) && (n <=? 90) || (192 <=? n) && (n <=? 214)
      || (216 <=? n) && (n <=? 222))%N
  then ascii_of_N (n + 32) else c.

Fixpoint lower (s : string) : string :=
  match s with
  | EmptyString => EmptyString
  | String c r => String (lower_char c) (lower r)
  end.

(** The characters [str.strip] removes: U+0009..U+000D, U+001C..U+0020,
    U+0085 and U+00A0. *)
Definition is_space (c : ascii) : bool :=
  let n := code c in
  ((9 <=? n) && (n <=? 13) || (28 <=? n) && (n <=? 32)
   || (n =? 133) || (n =? 160))%N.

Fixpoint lstrip (s : string) : string :=
  match s with
  | EmptyString => EmptyString
  | String c r => if is_space c then lstrip r else s
  end.

Fixpoint rstrip (s : string) : string :=
  match s with
  | EmptyString => EmptyString
  | String c r =>
      match rstrip r with
      | EmptyString => if is_space c then EmptyString else String c EmptyString
      | r' => String c r'
      end
  end.

Definition strip (s : string) : string := rstrip (lstrip s).

Fixpoint startswith (p s : string) : bool :=
  match p, s with
  | EmptyString, _ => true
  | String a p', String b s' => if Ascii.eqb a b then startswith p' s' else false
  | String _ _, EmptyString => false
  end.

(** [needle in hay] *)
Fixpoint contains (needle hay : string) : bool :=
  startswith needle hay ||
  match hay with
  | EmptyString => false
  | String _ r => contains needle r
  end.

Definition nl : ascii := ascii_of_N 10.

(** [s.split(sep)] for a one-character separator. *)
Fixpoint split (sep : ascii) (s : string) : list string :=
  match s with
  | EmptyString => [EmptyString]
  | String c r =>
      if Ascii.eqb c sep then EmptyString :: split sep r
      else match split sep r with
           | l :: ls => String c l :: ls
           | [] => [String c EmptyString]
           end
  end.

(** [sep.join(parts)] *)
Fixpoint join (sep : string) (parts : list string) : string :=
  match parts with
  | [] => EmptyString
  | [p] => p
  | p :: ps => p +:+ sep +:+ join sep ps
  end.

Definition len (s : string) : Z := Z.of_nat (String.length s).

Definition quote : string := String (ascii_of_N 34) EmptyString.
Definition newline : string := String nl EmptyString.

End PyStr.

(** ** Python values and dictionaries *)

Inductive value :=
  | VNone
  | VBool (b : bool)
  | VInt (z : Z)
  | VFloat (f : Float64.float)
  | VStr (s : string)
  | VDate (t : Z)
  | VOid (o : N)
  | VList (l : list value)
  | VDict (kv : list (string * value)).

Abbreviation dict := (gmap string value).

(** [d.get(k, default)] *)
Definition dict_get (d : dict) (k : string) (default : value) : value :=
  match d !! k with
  | Some v => v
  | None => default
  end.

(** [v.lower()] and [v.strip()]: only a [str] has these methods. *)
Definition py_lower (v : value) : result string :=
  match v with
  | VStr s => Ok (PyStr.lower s)
  | _ => Raise AttributeError
  end.

(** [l[i]] for a non-negative index. *)
Definition list_index {A} (l : list A) (i : nat) : result A :=
  match l !! i with
  | Some a => Ok a
  | None => Raise IndexError
  end.

(** [str(e)] for the exceptions of this model; [DateOverflowError] is
    the [OverflowError] of [datetime] arithmetic, with its message. *)
Definition exn_str (e : exn) : string :=
  match e with
  | IndexError => "list index out of range"
  | AttributeError => "object has no attribute"
  | TypeError => "unexpected or missing argument"
  | ValueError => "cannot convert float NaN to integer"
  | OverflowError => "cannot convert float infinity to integer"
  | DateOverflowError msg => msg
  | ZeroDivisionError => "division by zero"
  | KeyError => "key not found"
  | InvalidId => "not a valid ObjectId"
  | StoreError msg => msg
  end.

(** ** [api/main.py]: quiz evaluation *)

Module Api.

Import PyStr.
Local Open Scope py_scope.

Record FeedbackResponse := {
  score : Z;
  feedback : string;
  recommendations : list string;
  detailedAnalysis : list (string * list string)
}.

Record QuizSubmission := {
  questions : list dict;
  answers : list dict;
  topic : string
}.

(** What a request handler hands back to the web framework: a response
    body, or an [HTTPException] with its status code and detail. *)
Inductive http (A : Type) :=
  | Response (body : A)
  | HTTPException (status_code : Z) (detail : string).
Arguments Response {A} body.
Arguments HTTPException {A} status_code detail.

(** The test of the loop body:
    [user_answer.lower().strip() == correct_answer.lower().strip()]. *)
Definition answer_matches (user_answer correct_answer : value) : result bool :=
  u <- py_lower user_answer ;;;
  c <- py_lower correct_answer ;;;
  Ok (String.eqb (strip u) (strip c)).

(** The loop [for i, question in enumerate(submission.questions)],
    running from index [i] with the counter [correct_count]. *)
Fixpoint count_correct (questions answers : list dict) (i : nat)
    (correct_count : Z) : result Z :=
  match questions with
  | [] => Ok correct_count
  | question :: rest =>
      a <- list_index answers i ;;;
      let user_answer := dict_get a "answer" (VStr EmptyString) in
      let correct_answer := dict_get question "correctAnswer" (VStr EmptyString) in
      b <- answer_matches user_answer correct_answer ;;;
      count_correct rest answers (S i)
        (if b then correct_count + 1 else correct_count)
  end.

(** [int((correct_count / total_questions) * 100) if total_questions > 0 else 0] *)
Definition compute_score (correct_count total_questions : Z) : result Z :=
  if 0 <? total_questions then
    q <- Float64.int_truediv correct_count total_questions ;;;
    Float64.to_int (Float64.mul q (Float64.of_Z 100))
  else Ok 0.

Definition feedback_text (score : Z) : string :=
  if 80 <=? score then
    "Excellent work! You have a strong understanding of the material."
  else if 60 <=? score then
    "Good job! You understand most concepts but could review some areas."
  else
    "Keep studying! Review the material and practice more to improve your understanding.".

(** The fallback feedback system: the statements after the
    agent branch of [evaluate_quiz]. *)
Definition fallback_feedback (submission : QuizSubmission) : result FeedbackResponse :=
  let total_questions := Z.of_nat (length (questions submission)) in
  correct_count <- count_correct (questions submission) (answers submission) 0 0 ;;;
  score <- compute_score correct_count total_questions ;;;
  Ok {| score := score;
        feedback := feedback_text score;
        recommendations :=
          [ "Review the questions you missed";
            "Practice with similar problems";
            "Focus on understanding the underlying concepts" ];
        detailedAnalysis :=
          [ ("strengths",
             [ "Correctly answered " +:+ pretty correct_count +:+ " out of "
               +:+ pretty total_questions +:+ " questions" ]);
            ("weaknesses",
             [ "Missed " +:+ pretty (total_questions - correct_count)
               +:+ " questions" ]);
            ("areas_for_improvement",
             [ "Review incorrect answers"; "Practice more problems" ]) ] |}.

(** [evaluate_quiz].  [feedback_agent] is the module-level agent
    ([None] when construction failed); applied to the submission it
    stands for the whole inner [try] block, which either returns the
    converted agent response or raises.  Any exception of that block
    falls through to the fallback system; any exception of the
    fallback system reaches the outer handler and becomes a 500. *)
Definition evaluate_quiz
    (feedback_agent : option (QuizSubmission -> result FeedbackResponse))
    (submission : QuizSubmission) : http FeedbackResponse :=
  let from_agent :=
    match feedback_agent with
    | Some agent =>
        match agent submission with
        | Ok r => Some r
        | Raise _ => None
        end
    | None => None
    end in
  match from_agent with
  | Some r => Response r
  | None =>
      match fallback_feedback submission with
      | Ok r => Response r
      | Raise e => HTTPException 500 ("Failed to evaluate quiz: " +:+ exn_str e)
      end
  end.

End Api.

(** ** [api/main.py]: the fallback content system *)

Module FallbackContentSystem.

Import PyStr.

(** The values of the [study_materials] dictionary: the flashcards, each
    a term with its definition, and the summary. *)
Inductive material :=
  | Flashcards (cards : list (string * string))
  | Summary (text : string).

Record content_dict := {
  content : string;
  key_concepts : list string;
  learning_objectives : list string;
  study_materials : gmap string material
}.

(** The lines of the Python lesson below its heading line. *)
Definition python_lesson_lines : list string :=
  [ EmptyString;
    "## Introduction";
    "Python is a high-level, interpreted programming language known for its simplicity and readability. It's perfect for beginners and widely used in data science, web development, and automation.";
    EmptyString;
    "## Key Concepts";
    EmptyString;
    "### 1. **Variables and Data Types**";
    "- **Variables**: Containers for storing data";
    "- **Strings**: Text data (e.g., `" +:+ quote +:+ "Hello World" +:+ quote +:+ "`)";
    "- **Integers**: Whole numbers (e.g., `42`)";
    "- **Floats**: Decimal numbers (e.g., `3.14`)";
    "- **Lists**: Ordered collections (e.g., `[1, 2, 3]`)";
    EmptyString;
    "### 2. **Basic Syntax**";
    "```python";
    "# This is a comment";
    "name = " +:+ quote +:+ "Python Learner" +:+ quote +:+ "  # Variable assignment";
    "age = 25                 # Integer variable";
    "height = 5.9            # Float variable";
    EmptyString;
    "print(f" +:+ quote +:+ "Hello {name}!" +:+ quote +:+ ")  # String formatting";
    "```";
    EmptyString;
    "### 3. **Control Structures**";
    "```python";
    "# If statements";
    "if age >= 18:";
    "    print(" +:+ quote +:+ "You are an adult" +:+ quote +:+ ")";
    "else:";
    "    print(" +:+ quote +:+ "You are a minor" +:+ quote +:+ ")";
    EmptyString;
    "# Loops";
    "for i in range(5):";
    "    print(f" +:+ quote +:+ "Count: {i}" +:+ quote +:+ ")";
    "```";
    EmptyString;
    "### 4. **Functions**";
    "```python";
    "def greet(name):";
    "    return f" +:+ quote +:+ "Hello, {name}!" +:+ quote;
    EmptyString;
    "# Call the function";
    "message = greet(" +:+ quote +:+ "World" +:+ quote +:+ ")";
    "print(message)  # Output: Hello, World!";
    "```";
    EmptyString;
    "## Real-World Applications";
    "- **Web Development**: Django, Flask frameworks";
    "- **Data Science**: Pandas, NumPy libraries";
    "- **Machine Learning**: Scikit-learn, TensorFlow";
    "- **Automation**: Scripts for repetitive tasks";
    EmptyString;
    "## Study Tips";
    "1. **Practice Daily**: Code something every day";
    "2. **Start Small**: Begin with simple programs";
    "3. **Use Online Resources**: Python.org, Real Python";
    "4. **Join Communities**: Reddit r/learnpython, Stack Overflow";
    EmptyString;
    "## Summary";
    "Python is an excellent first programming language. Focus on understanding basic syntax, practice regularly, and build small projects to reinforce your learning." ].

Definition python_key_concepts : list string :=
  [ "Variables and Data Types";
    "Basic Syntax and Comments";
    "Control Structures (if/else, loops)";
    "Functions and Parameters";
    "String Formatting";
    "Lists and Collections" ].

Definition python_learning_objectives : list string :=
  [ "Understand Python syntax and structure";
    "Create and use variables of different types";
    "Write basic control structures and loops";
    "Define and call functions";
    "Apply Python concepts to solve problems" ].

Definition python_flashcards : list (string * string) :=
  [ ("Variable", "A container for storing data in Python");
    ("Function", "A reusable block of code that performs a specific task");
    ("Loop", "A control structure that repeats code multiple times") ].

Definition python_study_materials : gmap string material :=
  <["flashcards" := Flashcards python_flashcards]>
  (<["summary" := Summary "Python basics including variables, data types, control structures, and functions."]> ∅).

(** The first branch of [get_python_content]: the lesson under the
    heading [# {topic}]. *)
Definition python_lesson (topic : string) : content_dict :=
  {| content := join newline (("# " +:+ topic) :: python_lesson_lines);
     key_concepts := python_key_concepts;
     learning_objectives := python_learning_objectives;
     study_materials := python_study_materials |}.

(** The second branch: the templated stub. *)
Definition generic_stub (topic subject : string) : content_dict :=
  {| content :=
       "# " +:+ topic +:+ newline +:+ newline
       +:+ "This is fallback content for " +:+ topic +:+ " in " +:+ subject
       +:+ ". The AI content generation is currently unavailable due to API rate limits.";
     key_concepts := [ "Basic concepts"; "Fundamental principles" ];
     learning_objectives := [ "Understand " +:+ topic; "Apply basic knowledge" ];
     study_materials := ∅ |}.

Definition get_python_content (topic difficulty subject content_type : string)
    : content_dict :=
  if contains "python" (lower topic) then python_lesson topic
  else generic_stub topic subject.

End FallbackContentSystem.

(** ** [agents/content_generator.py]: the heuristics of the content agent *)

Module ContentGeneratorAgent.

Import PyStr.
Local Open Scope py_scope.

(** A retrieved source: a dictionary whose ['title'] and ['content']
    entries, when present, are strings. *)
Record source := {
  title : option string;
  content : option string
}.

(** [source.get(k, '')] *)
Definition get_or_empty (field : option string) : string :=
  match field with
  | Some s => s
  | None => EmptyString
  end.

Definition quality_indicators : list string :=
  [ "academic"; "peer-reviewed"; "textbook"; "educational"; "university" ].

(** The inner loop [for indicator in quality_indicators], with the
    counter [score]. *)
Fixpoint count_indicators (indicators : list string) (text : string)
    (score : Z) : Z :=
  match indicators with
  | [] => score
  | indicator :: rest =>
      count_indicators rest text
        (if contains indicator text then score + 1 else score)
  end.

(** The outer loop [for source in sources], with the accumulator
    [total_score]. *)
Fixpoint quality_loop (sources : list source) (total_score : Float64.float)
    : result Float64.float :=
  match sources with
  | [] => Ok total_score
  | source :: rest =>
      let score := 0 in
      let text := lower (get_or_empty (title source) +:+ " "
                         +:+ get_or_empty (content source)) in
      let score := count_indicators quality_indicators text score in
      q <- Float64.int_truediv score (Z.of_nat (length quality_indicators)) ;;;
      quality_loop rest (Float64.add total_score q)
  end.

Definition _assess_source_quality (sources : list source) : result Float64.float :=
  match sources with
  | [] => Ok Float64.zero
  | _ =>
      total_score <- quality_loop sources (Float64.of_Z 0) ;;;
      Ok (Float64.py_min
            (Float64.div total_score (Float64.of_Z (Z.of_nat (length sources))))
            Float64.one)
  end.

Section BulletNotes.

(** The marker literal put in front of every kept line (a bullet
    character and a space); its characters lie outside the alphabet of
    [string], so the functions take it as a parameter. *)
Variable bullet : string.

(** The test of the loop body on the stripped line. *)
Definition keeps (line : string) : bool :=
  negb (String.eqb line EmptyString) && (20 <? len line)
  && negb (startswith "#" line)
  && (contains "." line && (len line <? 200)).

(** The loop [for line in lines], appending to [bullet_notes]. *)
Fixpoint notes_loop (lines : list string) (bullet_notes : list string)
    : list string :=
  match lines with
  | [] => bullet_notes
  | line :: rest =>
      let line := strip line in
      notes_loop rest
        (if keeps line then bullet_notes ++ [bullet +:+ line] else bullet_notes)
  end.

(** [bullet_notes[:15]] at the end of the loop. *)
Definition bullet_lines (content : string) : list string :=
  take 15 (notes_loop (split nl content) []).

Definition _create_bullet_notes (content : string) : string :=
  join newline (bullet_lines content).

End BulletNotes.

(** [any(word in topic.lower() for word in words)] *)
Fixpoint any_word_in (words : list string) (topic : string) : bool :=
  match words with
  | [] => false
  | word :: rest => contains word (lower topic) || any_word_in rest topic
  end.

(** The list [suggestions] just before the final slice. *)
Definition diagram_candidates {E} (topic : string) (entities : list E) : list string :=
  let suggestions := [] in
  let suggestions :=
    if any_word_in ["process"; "cycle"; "steps"] topic
    then suggestions ++ ["Process Flow Diagram"] else suggestions in
  let suggestions :=
    if any_word_in ["structure"; "anatomy"; "parts"] topic
    then suggestions ++ ["Labeled Diagram"] else suggestions in
  let suggestions :=
    if any_word_in ["compare"; "vs"; "difference"] topic
    then suggestions ++ ["Comparison Chart"] else suggestions in
  let suggestions :=
    if 5 <? Z.of_nat (length entities)
    then (suggestions ++ ["Mind Map"]) ++ ["Concept Map"] else suggestions in
  suggestions ++ ["Summary Infographic"].

Definition _suggest_diagrams {E} (topic : string) (entities : list E) : list string :=
  take 3 (diagram_candidates topic entities).

End ContentGeneratorAgent.

(** ** The [bson] object identifiers *)

Module Bson.

Definition hex_digit (c : ascii) : option N :=
  let n := PyStr.code c in
  if ((48 <=? n) && (n <=? 57))%N then Some (n - 48)%N
  else if ((97 <=? n) && (n <=? 102))%N then Some (n - 87)%N
  else if ((65 <=? n) && (n <=? 70))%N then Some (n - 55)%N
  else None.

Fixpoint hex_value (s : string) (acc : N) : option N :=
  match s with
  | EmptyString => Some acc
  | String c r =>
      match hex_digit c with
      | Some d => hex_value r (16 * acc + d)%N
      | None => None
      end
  end.

(** [ObjectId(s)] for a string [s]: 24 hexadecimal digits, or
    [InvalidId]. *)
Definition ObjectId (s : string) : result N :=
  if (String.length s =? 24)%nat then
    match hex_value s 0%N with
    | Some o => Ok o
    | None => Raise InvalidId
    end
  else Raise InvalidId.

Definition hex_char (d : N) : ascii :=
  if (d <? 10)%N then ascii_of_N (48 + d) else ascii_of_N (87 + d).

Fixpoint hex_digits (n : nat) (o : N) (acc : string) : string :=
  match n with
  | O => acc
  | S k => hex_digits k (o / 16)%N (String (hex_char (o mod 16)%N) acc)
  end.

(** [str(oid)] *)
Definition oid_str (o : N) : string := hex_digits 24 o EmptyString.

End Bson.

(** ** The document store behind [pymongo]

    Collections are maps from identifiers to documents.  Every call of the
    driver first consults the fault schedule of the world: a [true] at its
    head makes the call raise.  Text search scores and aggregation
    pipelines are evaluated by the server; the world carries the two
    evaluators. *)

Module Mongo.

Record world := {
  collections : gmap string (gmap N dict);
  next_id : N;
  clock : Z;
  faults : list bool;
  text_score : value -> dict -> option Z;
  aggregate_eval : list value -> list dict -> list dict;
  stdout : list string
}.

Definition set_collections (c : gmap string (gmap N dict)) (w : world) : world :=
  {| collections := c; next_id := next_id w; clock := clock w;
     faults := faults w; text_score := text_score w;
     aggregate_eval := aggregate_eval w; stdout := stdout w |}.

Definition set_next_id (n : N) (w : world) : world :=
  {| collections := collections w; next_id := n; clock := clock w;
     faults := faults w; text_score := text_score w;
     aggregate_eval := aggregate_eval w; stdout := stdout w |}.

Definition set_faults (fs : list bool) (w : world) : world :=
  {| collections := collections w; next_id := next_id w; clock := clock w;
     faults := fs; text_score := text_score w;
     aggregate_eval := aggregate_eval w; stdout := stdout w |}.

Definition set_clock (t : Z) (w : world) : world :=
  {| collections := collections w; next_id := next_id w; clock := t;
     faults := faults w; text_score := text_score w;
     aggregate_eval := aggregate_eval w; stdout := stdout w |}.

Definition set_stdout (out : list string) (w : world) : world :=
  {| collections := collections w; next_id := next_id w; clock := clock w;
     faults := faults w; text_score := text_score w;
     aggregate_eval := aggregate_eval w; stdout := out |}.

(** The documents of one collection. *)
Definition coll (name : string) (w : world) : gmap N dict :=
  match collections w !! name with
  | Some c => c
  | None => ∅
  end.

Definition set_coll (name : string) (c : gmap N dict) (w : world) : world :=
  set_collections (<[name := c]> (collections w)) w.

(** Computations over the world that may raise. *)
Definition M (A : Type) : Type := world -> result A * world.

Definition ret {A} (a : A) : M A := fun w => (Ok a, w).
Definition raise {A} (e : exn) : M A := fun w => (Raise e, w).
Definition lift {A} (r : result A) : M A := fun w => (r, w).

Definition bind {A B} (m : M A) (k : A -> M B) : M B :=
  fun w =>
    match m w with
    | (Ok a, w') => k a w'
    | (Raise e, w') => (Raise e, w')
    end.

(** [try: body  except Exception as e: handler e] *)
Definition try_except {A} (body : M A) (handler : exn -> M A) : M A :=
  fun w =>
    match body w with
    | (Ok a, w') => (Ok a, w')
    | (Raise e, w') => handler e w'
    end.

Definition print (line : string) : M unit :=
  fun w => (Ok tt, set_stdout (stdout w ++ [line]) w).

(** [datetime.utcnow()].  A [datetime] is its distance from
    [datetime.min], the first instant of year 1, in whole milliseconds,
    the resolution of the dates of the store: every [datetime] of the
    service is either stored or sent in a filter, for which the driver
    cuts it to whole milliseconds, or has whole days subtracted first. *)
Definition utcnow : M Z := fun w => (Ok (clock w), w).

(** [datetime.max] lies in the last millisecond of year 9999, 3652059
    days after [datetime.min]. *)
Definition datetime_max : Z := 3652059 * 86400000 - 1.

(** [timedelta(days=n)], in milliseconds: at most 999999999 days either
    way. *)
Definition timedelta (days : Z) : result Z :=
  if Z.abs days <=? 999999999 then Ok (days * 86400000)
  else if (- 2 ^ 31 <=? days) && (days <? 2 ^ 31) then
    Raise (DateOverflowError
             ("days=" +:+ pretty days +:+ "; must have magnitude <= 999999999"))
  else Raise (DateOverflowError "Python int too large to convert to C int").

(** [t - delta] for a [datetime] [t]: the difference has to be a
    [datetime] again. *)
Definition datetime_sub (t delta : Z) : result Z :=
  let r := t - delta in
  if (0 <=? r) && (r <=? datetime_max) then Ok r
  else Raise (DateOverflowError "date value out of range").

(** One round trip to the server. *)
Definition driver_call {A} (body : M A) : M A :=
  fun w =>
    match faults w with
    | true :: fs => (Raise (StoreError "server unavailable"), set_faults fs w)
    | false :: fs => body (set_faults fs w)
    | [] => body w
    end.

End Mongo.

(** *** Queries, updates and the driver calls of [pymongo]

    Filters, sort keys and update documents are the dictionaries the
    service writes.  The interpreter covers the fragment the service uses:
    equality on a field, [$lt] and [$gte] on dates, [$text], and the
    update operators [$set] and [$inc]. *)

Module Driver.

Import Mongo.

Declare Scope mongo_scope.
Notation "x <- c1 ;;; c2" := (bind c1 (fun x => c2))
  (at level 100, c1 at next level, right associativity) : mongo_scope.
Notation "c1 ;;; c2" := (bind c1 (fun _ => c2))
  (at level 100, right associativity) : mongo_scope.
Delimit Scope mongo_scope with mongo.
Local Open Scope mongo_scope.

Fixpoint value_eqb (a b : value) {struct a} : bool :=
  match a, b with
  | VNone, VNone => true
  | VBool x, VBool y => Bool.eqb x y
  | VInt x, VInt y => x =? y
  | VFloat x, VFloat y => SFeqb x y
  | VStr x, VStr y => String.eqb x y
  | VDate x, VDate y => x =? y
  | VOid x, VOid y => (x =? y)%N
  | VList xs, VList ys =>
      (fix go (xs ys : list value) : bool :=
         match xs, ys with
         | [], [] => true
         | x :: xs', y :: ys' => value_eqb x y && go xs' ys'
         | _, _ => false
         end) xs ys
  | VDict xs, VDict ys =>
      (fix go (xs ys : list (string * value)) : bool :=
         match xs, ys with
         | [], [] => true
         | (k, x) :: xs', (k', y) :: ys' =>
             String.eqb k k' && value_eqb x y && go xs' ys'
         | _, _ => false
         end) xs ys
  | _, _ => false
  end.

(** One entry [k: c] of a filter against a document. *)
Definition cond_holds (w : world) (k : string) (c : value) (d : dict) : bool :=
  if String.eqb k "$text" then
    match text_score w c d with Some _ => true | None => false end
  else
    match c with
    | VDict [(op, VDate t)] =>
        if String.eqb op "$lt" then
          match d !! k with Some (VDate u) => u <? t | _ => false end
        else if String.eqb op "$gte" then
          match d !! k with Some (VDate u) => t <=? u | _ => false end
        else value_eqb (dict_get d k VNone) c
    | _ => value_eqb (dict_get d k VNone) c
    end.

Definition matches (w : world) (filter : dict) (d : dict) : bool :=
  forallb (fun kc => cond_holds w kc.1 kc.2 d) (map_to_list filter).

(** The matching documents of a collection, with their identifiers. *)
Definition select (w : world) (name : string) (filter : dict) : list (N * dict) :=
  List.filter (fun kd => matches w filter kd.2) (map_to_list (coll name w)).

(** The rank of a document under a sort key: dates and integers by
    value, a text score for [{"$meta": "textScore"}], nothing else. *)
Definition sort_rank (w : world) (filter : dict) (key : string) (dir : value)
    (d : dict) : option Z :=
  match dir with
  | VDict _ => text_score w (dict_get filter "$text" VNone) d
  | _ => match d !! key with
         | Some (VDate t) => Some t
         | Some (VInt n) => Some n
         | _ => None
         end
  end.

Definition rank_leb (a b : option Z) : bool :=
  match a, b with
  | None, _ => true
  | Some _, None => false
  | Some x, Some y => x <=? y
  end.

Fixpoint insert_by {A} (le : A -> A -> bool) (x : A) (l : list A) : list A :=
  match l with
  | [] => [x]
  | y :: r => if le x y then x :: l else y :: insert_by le x r
  end.

Definition sort_by {A} (le : A -> A -> bool) (l : list A) : list A :=
  foldr (insert_by le) [] l.

(** [cursor.sort(key, dir)]: ascending for [1], descending otherwise. *)
Definition sort_docs (w : world) (filter : dict) (spec : string * value)
    (docs : list dict) : list dict :=
  let rank := sort_rank w filter spec.1 spec.2 in
  match spec.2 with
  | VInt 1 => sort_by (fun a b => rank_leb (rank a) (rank b)) docs
  | _ => sort_by (fun a b => rank_leb (rank b) (rank a)) docs
  end.

(** [cursor.limit(n)]: [0] means no limit. *)
Definition apply_limit (n : Z) (docs : list dict) : list dict :=
  if n =? 0 then docs else take (Z.to_nat (Z.abs n)) docs.

(** [list(collection.find(filter).sort(...).limit(n))] *)
Definition find (name : string) (filter : dict) (sort : option (string * value))
    (limit : Z) : M (list dict) :=
  driver_call (fun w =>
    let docs := (select w name filter).*2 in
    let docs := match sort with
                | Some spec => sort_docs w filter spec docs
                | None => docs
                end in
    (Ok (apply_limit limit docs), w)).

(** [collection.find_one(filter)] *)
Definition find_one (name : string) (filter : dict) : M (option dict) :=
  driver_call (fun w => (Ok (head (select w name filter).*2), w)).

(** [collection.insert_one(doc).inserted_id]: the driver gives the
    document a fresh [_id]. *)
Definition insert_one (name : string) (doc : dict) : M N :=
  driver_call (fun w =>
    let o := next_id w in
    (Ok o, set_next_id (o + 1)%N
             (set_coll name (<[o := <["_id" := VOid o]> doc]> (coll name w)) w))).

(** [$set] *)
Definition apply_set (fields : list (string * value)) (d : dict) : dict :=
  foldl (fun acc kv => <[kv.1 := kv.2]> acc) d fields.

(** The sum [$inc] stores: integers add as integers, a double on either
    side makes the sum a double; a missing field takes the amount. *)
Definition inc_value (old : option value) (amount : value) : result value :=
  match amount with
  | VInt n =>
      match old with
      | None => Ok (VInt n)
      | Some (VInt m) => Ok (VInt (m + n))
      | Some (VFloat x) => Ok (VFloat (Float64.add x (Float64.of_Z n)))
      | Some _ => Raise (StoreError "Cannot apply $inc to a value of non-numeric type")
      end
  | VFloat y =>
      match old with
      | None => Ok (VFloat y)
      | Some (VInt m) => Ok (VFloat (Float64.add (Float64.of_Z m) y))
      | Some (VFloat x) => Ok (VFloat (Float64.add x y))
      | Some _ => Raise (StoreError "Cannot apply $inc to a value of non-numeric type")
      end
  | _ => Raise (StoreError "Cannot increment with non-numeric argument")
  end.

(** [$inc]: adds to a numeric field, creates a missing one. *)
Fixpoint apply_inc (fields : list (string * value)) (d : dict) : result dict :=
  match fields with
  | [] => Ok d
  | (k, amount) :: rest =>
      match inc_value (d !! k) amount with
      | Ok v => apply_inc rest (<[k := v]> d)
      | Raise e => Raise e
      end
  end.

Definition apply_update (update : dict) (d : dict) : result dict :=
  rbind (match update !! "$set" with
         | Some (VDict fields) => Ok (apply_set fields d)
         | Some _ => Raise (StoreError "Modifiers operate on fields")
         | None => Ok d
         end)
    (fun d1 =>
       match update !! "$inc" with
       | Some (VDict fields) => apply_inc fields d1
       | Some _ => Raise (StoreError "Modifiers operate on fields")
       | None => Ok d1
       end).

(** [collection.update_one(filter, update)]: changes the first matching
    document, none when nothing matches. *)
Definition update_one (name : string) (filter update : dict) : M unit :=
  driver_call (fun w =>
    match select w name filter with
    | [] => (Ok tt, w)
    | (o, d) :: _ =>
        match apply_update update d with
        | Ok d' => (Ok tt, set_coll name (<[o := d']> (coll name w)) w)
        | Raise e => (Raise e, w)
        end
    end).

(** [collection.delete_many(filter).deleted_count] *)
Definition delete_many (name : string) (filter : dict) : M Z :=
  driver_call (fun w =>
    let gone := (select w name filter).*1 in
    (Ok (Z.of_nat (length gone)),
     set_coll name (foldr delete (coll name w) gone) w)).

(** [list(collection.aggregate(pipeline))] *)
Definition aggregate (name : string) (pipeline : list value) : M (list dict) :=
  driver_call (fun w =>
    (Ok (aggregate_eval w pipeline (map_to_list (coll name w)).*2), w)).

(** [collection.create_index(keys)]: no document changes. *)
Definition create_index (name : string) (keys : list (string * string)) : M unit :=
  driver_call (fun w => (Ok tt, w)).

End Driver.

(** ** [models/mongodb_models.py]: the document constructors *)

Module Models.

Import Mongo Driver.
Local Open Scope mongo_scope.

(** Binding of a call whose keyword arguments are unpacked from the
    dictionary [kw]: every parameter without a default must be present,
    and no other key may be. *)
Definition bind_kwargs (params : list (string * option value)) (kw : dict)
    : result dict :=
  if forallb (fun k => existsb (String.eqb k) params.*1) (map_to_list kw).*1 then
    foldr (fun p acc =>
             rbind acc (fun args =>
               match kw !! p.1, p.2 with
               | Some v, _ => Ok (<[p.1 := v]> args)
               | None, Some default => Ok (<[p.1 := default]> args)
               | None, None => Raise TypeError
               end))
          (Ok ∅) params
  else Raise TypeError.

Definition arg (args : dict) (name : string) : value := dict_get args name VNone.

(** [v.lower()] as a value. *)
Definition lower_v (v : value) : M value :=
  lift (rbind (py_lower v) (fun s => Ok (VStr s))).

Definition truthy (v : value) : bool :=
  match v with
  | VNone => false
  | VBool b => b
  | VInt z => negb (z =? 0)
  | VFloat f => negb (SFeqb f Float64.zero)
  | VStr s => negb (String.eqb s EmptyString)
  | VDate _ => true
  | VOid _ => true
  | VList l => match l with [] => false | _ => true end
  | VDict l => match l with [] => false | _ => true end
  end.

(** [v or default] *)
Definition py_or (v default : value) : value := if truthy v then v else default.

(** [v >= n] for an integer literal [n]. *)
Definition py_ge (v : value) (n : Z) : result bool :=
  match v with
  | VInt z => Ok (n <=? z)
  | VBool b => Ok (n <=? (if b then 1 else 0))
  | VFloat f => Ok (Float64.leb (Float64.of_Z n) f)
  | _ => Raise TypeError
  end.

(** [v > n] for an integer literal [n]. *)
Definition py_gt (v : value) (n : Z) : result bool :=
  match v with
  | VInt z => Ok (n <? z)
  | VBool b => Ok (n <? (if b then 1 else 0))
  | VFloat f => Ok (Float64.ltb (Float64.of_Z n) f)
  | _ => Raise TypeError
  end.

(** [a / b] *)
Definition py_truediv (a b : value) : result value :=
  match a, b with
  | VInt x, VInt y => rbind (Float64.int_truediv x y) (fun q => Ok (VFloat q))
  | VFloat x, VInt y =>
      if y =? 0 then Raise ZeroDivisionError
      else Ok (VFloat (Float64.div x (Float64.of_Z y)))
  | VInt x, VFloat y =>
      if SFeqb y Float64.zero then Raise ZeroDivisionError
      else Ok (VFloat (Float64.div (Float64.of_Z x) y))
  | VFloat x, VFloat y =>
      if SFeqb y Float64.zero then Raise ZeroDivisionError
      else Ok (VFloat (Float64.div x y))
  | _, _ => Raise TypeError
  end.

Module ContentModel.

Definition create_content (kw : dict) : M dict :=
  args <- lift (bind_kwargs
            [ ("title", None); ("content", None); ("subject", None);
              ("topic", None); ("content_type", Some (VStr "lesson"));
              ("difficulty", Some (VStr "intermediate"));
              ("learning_objectives", Some VNone);
              ("key_concepts", Some VNone); ("tags", Some VNone) ] kw) ;;;
  subject <- lower_v (arg args "subject") ;;;
  topic <- lower_v (arg args "topic") ;;;
  difficulty <- lower_v (arg args "difficulty") ;;;
  created_at <- utcnow ;;;
  updated_at <- utcnow ;;;
  ret (list_to_map
         [ ("title", arg args "title");
           ("content", arg args "content");
           ("subject", subject);
           ("topic", topic);
           ("content_type", arg args "content_type");
           ("difficulty", difficulty);
           ("learning_objectives", py_or (arg args "learning_objectives") (VList []));
           ("key_concepts", py_or (arg args "key_concepts") (VList []));
           ("tags", py_or (arg args "tags") (VList []));
           ("created_at", VDate created_at);
           ("updated_at", VDate updated_at);
           ("views", VInt 0);
           ("rating", VFloat Float64.zero);
           ("ratings_count", VInt 0) ] : dict).

End ContentModel.

Module UserProgressModel.

Definition _calculate_performance_level (score : value) : result string :=
  rbind (py_ge score 90) (fun b90 =>
  if b90 then Ok "excellent" else
  rbind (py_ge score 80) (fun b80 =>
  if b80 then Ok "good" else
  rbind (py_ge score 70) (fun b70 =>
  if b70 then Ok "satisfactory" else
  rbind (py_ge score 60) (fun b60 =>
  if b60 then Ok "needs_improvement" else Ok "requires_attention")))).

Definition create_progress (kw : dict) : M dict :=
  args <- lift (bind_kwargs
            [ ("user_id", None); ("subject", None); ("topic", None);
              ("score", None); ("total_questions", None);
              ("correct_answers", None); ("time_spent", Some (VInt 0));
              ("difficulty", Some (VStr "medium")) ] kw) ;;;
  subject <- lower_v (arg args "subject") ;;;
  topic <- lower_v (arg args "topic") ;;;
  difficulty <- lower_v (arg args "difficulty") ;;;
  timestamp <- utcnow ;;;
  level <- lift (_calculate_performance_level (arg args "score")) ;;;
  ret (list_to_map
         [ ("user_id", arg args "user_id");
           ("subject", subject);
           ("topic", topic);
           ("score", arg args "score");
           ("total_questions", arg args "total_questions");
           ("correct_answers", arg args "correct_answers");
           ("time_spent", arg args "time_spent");
           ("difficulty", difficulty);
           ("timestamp", VDate timestamp);
           ("performance_level", VStr level) ] : dict).

End UserProgressModel.

Module QuestionModel.

Definition create_question (kw : dict) : M dict :=
  args <- lift (bind_kwargs
            [ ("question", None); ("question_type", None); ("subject", None);
              ("topic", None); ("difficulty", None); ("bloom_level", None);
              ("correct_answer", None); ("options", Some VNone);
              ("explanation", Some VNone); ("key_points", Some VNone);
              ("tags", Some VNone) ] kw) ;;;
  question_type <- lower_v (arg args "question_type") ;;;
  subject <- lower_v (arg args "subject") ;;;
  topic <- lower_v (arg args "topic") ;;;
  difficulty <- lower_v (arg args "difficulty") ;;;
  bloom_level <- lower_v (arg args "bloom_level") ;;;
  created_at <- utcnow ;;;
  ret (list_to_map
         [ ("question", arg args "question");
           ("question_type", question_type);
           ("subject", subject);
           ("topic", topic);
           ("difficulty", difficulty);
           ("bloom_level", bloom_level);
           ("correct_answer", arg args "correct_answer");
           ("options", py_or (arg args "options") (VList []));
           ("explanation", py_or (arg args "explanation") (VStr EmptyString));
           ("key_points", py_or (arg args "key_points") (VList []));
           ("tags", py_or (arg args "tags") (VList []));
           ("created_at", VDate created_at);
           ("usage_count", VInt 0);
           ("success_rate", VFloat Float64.zero);
           ("average_time", VInt 0) ] : dict).

End QuestionModel.

Module UserModel.

Definition default_preferences : value :=
  VDict [ ("difficulty_preference", VStr "medium");
          ("preferred_subjects", VList []);
          ("learning_style", VStr "visual");
          ("daily_goal", VInt 30) ].

Definition create_user (kw : dict) : M dict :=
  args <- lift (bind_kwargs
            [ ("username", None); ("email", None);
              ("learning_preferences", Some VNone);
              ("subjects_of_interest", Some VNone) ] kw) ;;;
  created_at <- utcnow ;;;
  last_login <- utcnow ;;;
  ret (list_to_map
         [ ("username", arg args "username");
           ("email", arg args "email");
           ("learning_preferences",
            py_or (arg args "learning_preferences") default_preferences);
           ("subjects_of_interest",
            py_or (arg args "subjects_of_interest") (VList []));
           ("created_at", VDate created_at);
           ("last_login", VDate last_login);
           ("total_study_time", VInt 0);
           ("completed_topics", VList []);
           ("achievements", VList []) ] : dict).

End UserModel.

Module StudySessionModel.

Definition create_session (kw : dict) : M dict :=
  args <- lift (bind_kwargs
            [ ("user_id", None); ("subject", None); ("topic", None);
              ("session_type", Some (VStr "practice")) ] kw) ;;;
  subject <- lower_v (arg args "subject") ;;;
  topic <- lower_v (arg args "topic") ;;;
  start_time <- utcnow ;;;
  ret (list_to_map
         [ ("user_id", arg args "user_id");
           ("subject", subject);
           ("topic", topic);
           ("session_type", arg args "session_type");
           ("start_time", VDate start_time);
           ("end_time", VNone);
           ("duration", VInt 0);
           ("questions_answered", VInt 0);
           ("correct_answers", VInt 0);
           ("score", VFloat Float64.zero);
           ("status", VStr "active") ] : dict).

Definition end_session (session_id : string) (final_score duration : value)
    : M dict :=
  end_time <- utcnow ;;;
  ret ({[ "$set" :=
            VDict [ ("end_time", VDate end_time);
                    ("duration", duration);
                    ("score", final_score);
                    ("status", VStr "completed") ] ]} : dict).

End StudySessionModel.

End Models.

(** ** [services/mongodb_service.py]: [MongoDBService] *)

Module MongoDBService.

Import PyStr Mongo Driver Models.
Local Open Scope mongo_scope.

(** What a method returns: [None], an identifier string, a document or
    a list of documents. *)
Inductive retval :=
  | RNone
  | RStr (s : string)
  | RDoc (d : dict)
  | RList (l : list dict).

Definition content_collection : string := "content".
Definition progress_collection : string := "user_progress".
Definition questions_collection : string := "questions".
Definition users_collection : string := "users".
Definition sessions_collection : string := "study_sessions".

(** The handler of every method: print the message with the exception,
    then return the given value. *)
Definition on_error (message : string) (sentinel : retval) (e : exn) : M retval :=
  print (message +:+ exn_str e) ;;; ret sentinel.

(** [if subject: filter["subject"] = subject.lower()] *)
Definition with_lowered (key : string) (v : option string) (filter : dict) : dict :=
  match v with
  | Some s => if String.eqb s EmptyString then filter
              else <[key := VStr (lower s)]> filter
  | None => filter
  end.

Definition id_filter (o : N) : dict := {[ "_id" := VOid o ]}.

(** *** Content management *)

Definition add_content (content_data : dict) : M retval :=
  try_except
    (content_doc <- ContentModel.create_content content_data ;;;
     inserted_id <- insert_one content_collection content_doc ;;;
     ret (RStr (Bson.oid_str inserted_id)))
    (on_error "Error adding content: " RNone).

Definition get_content_by_subject (subject : string) (limit : Z) : M retval :=
  try_except
    (docs <- find content_collection {[ "subject" := VStr (lower subject) ]}
               (Some ("created_at", VInt (-1))) limit ;;;
     ret (RList docs))
    (on_error "Error getting content: " (RList [])).

Definition search_content (query : string) (subject : option string) : M retval :=
  try_except
    (let search_filter : dict :=
       {[ "$text" := VDict [("$search", VStr query)] ]} in
     let search_filter := with_lowered "subject" subject search_filter in
     docs <- find content_collection search_filter
               (Some ("score", VDict [("$meta", VStr "textScore")])) 0 ;;;
     ret (RList docs))
    (on_error "Error searching content: " (RList [])).

Definition update_content_views (content_id : string) : M retval :=
  try_except
    (o <- lift (Bson.ObjectId content_id) ;;;
     update_one content_collection (id_filter o)
       {[ "$inc" := VDict [("views", VInt 1)] ]} ;;;
     ret RNone)
    (on_error "Error updating views: " RNone).

(** *** User progress management *)

Definition save_user_progress (progress_data : dict) : M retval :=
  try_except
    (progress_doc <- UserProgressModel.create_progress progress_data ;;;
     inserted_id <- insert_one progress_collection progress_doc ;;;
     ret (RStr (Bson.oid_str inserted_id)))
    (on_error "Error saving progress: " RNone).

Definition get_user_progress (user_id : string) (subject : option string) : M retval :=
  try_except
    (let filter_query : dict := {[ "user_id" := VStr user_id ]} in
     let filter_query := with_lowered "subject" subject filter_query in
     docs <- find progress_collection filter_query
               (Some ("timestamp", VInt (-1))) 0 ;;;
     ret (RList docs))
    (on_error "Error getting progress: " (RList [])).

Definition performance_pipeline (user_id : string) : list value :=
  [ VDict [("$match", VDict [("user_id", VStr user_id)])];
    VDict [("$group", VDict
      [ ("_id", VStr "$subject");
        ("total_sessions", VDict [("$sum", VInt 1)]);
        ("average_score", VDict [("$avg", VStr "$score")]);
        ("best_score", VDict [("$max", VStr "$score")]);
        ("total_questions", VDict [("$sum", VStr "$total_questions")]);
        ("total_correct", VDict [("$sum", VStr "$correct_answers")]);
        ("total_time", VDict [("$sum", VStr "$time_spent")]) ])];
    VDict [("$sort", VDict [("average_score", VInt (-1))])] ].

Definition get_user_performance_summary (user_id : string) : M retval :=
  try_except
    (results <- aggregate progress_collection (performance_pipeline user_id) ;;;
     ret (RList results))
    (on_error "Error getting performance summary: " (RList [])).

(** *** Question management *)

Definition add_question (question_data : dict) : M retval :=
  try_except
    (question_doc <- QuestionModel.create_question question_data ;;;
     inserted_id <- insert_one questions_collection question_doc ;;;
     ret (RStr (Bson.oid_str inserted_id)))
    (on_error "Error adding question: " RNone).

Definition get_questions_by_topic (subject topic : string)
    (difficulty : option string) (limit : Z) : M retval :=
  try_except
    (let filter_query : dict :=
       <["subject" := VStr (lower subject)]>
         {[ "topic" := VStr (lower topic) ]} in
     let filter_query := with_lowered "difficulty" difficulty filter_query in
     docs <- find questions_collection filter_query None limit ;;;
     ret (RList docs))
    (on_error "Error getting questions: " (RList [])).

Definition update_question_stats (question_id : string) (is_correct : bool)
    (time_taken : Z) : M retval :=
  try_except
    (let inc := [("usage_count", VInt 1); ("total_time", VInt time_taken)] in
     let inc := if is_correct then inc ++ [("correct_count", VInt 1)] else inc in
     let update_data : dict := {[ "$inc" := VDict inc ]} in
     o <- lift (Bson.ObjectId question_id) ;;;
     update_one questions_collection (id_filter o) update_data ;;;
     o' <- lift (Bson.ObjectId question_id) ;;;
     question <- find_one questions_collection (id_filter o') ;;;
     match question with
     | Some q =>
         positive <- lift (py_gt (dict_get q "usage_count" (VInt 0)) 0) ;;;
         if positive then
           usage_count <- lift (match q !! "usage_count" with
                                | Some v => Ok v
                                | None => Raise KeyError
                                end) ;;;
           success_rate <- lift (py_truediv (dict_get q "correct_count" (VInt 0))
                                   usage_count) ;;;
           o'' <- lift (Bson.ObjectId question_id) ;;;
           update_one questions_collection (id_filter o'')
             {[ "$set" := VDict [("success_rate", success_rate)] ]} ;;;
           ret RNone
         else ret RNone
     | None => ret RNone
     end)
    (on_error "Error updating question stats: " RNone).

(** *** User management *)

Definition create_user (user_data : dict) : M retval :=
  try_except
    (user_doc <- UserModel.create_user user_data ;;;
     inserted_id <- insert_one users_collection user_doc ;;;
     ret (RStr (Bson.oid_str inserted_id)))
    (on_error "Error creating user: " RNone).

Definition get_user (user_id : string) : M retval :=
  try_except
    (o <- lift (Bson.ObjectId user_id) ;;;
     user <- find_one users_collection (id_filter o) ;;;
     ret (match user with Some d => RDoc d | None => RNone end))
    (on_error "Error getting user: " RNone).

Definition update_user_preferences (user_id : string) (preferences : value)
    : M retval :=
  try_except
    (o <- lift (Bson.ObjectId user_id) ;;;
     update_one users_collection (id_filter o)
       {[ "$set" := VDict [("learning_preferences", preferences)] ]} ;;;
     ret RNone)
    (on_error "Error updating preferences: " RNone).

(** *** Study session management *)

Definition start_study_session (session_data : dict) : M retval :=
  try_except
    (session_doc <- StudySessionModel.create_session session_data ;;;
     inserted_id <- insert_one sessions_collection session_doc ;;;
     ret (RStr (Bson.oid_str inserted_id)))
    (on_error "Error starting session: " RNone).

Definition end_study_session (session_id : string) (final_score duration : value)
    : M retval :=
  try_except
    (update_data <- StudySessionModel.end_session session_id final_score duration ;;;
     o <- lift (Bson.ObjectId session_id) ;;;
     update_one sessions_collection (id_filter o) update_data ;;;
     ret RNone)
    (on_error "Error ending session: " RNone).

Definition get_user_sessions (user_id : string) (limit : Z) : M retval :=
  try_except
    (docs <- find sessions_collection {[ "user_id" := VStr user_id ]}
               (Some ("start_time", VInt (-1))) limit ;;;
     ret (RList docs))
    (on_error "Error getting sessions: " (RList [])).

(** *** Analytics and reporting *)

Definition analytics_pipeline (subject : string) : list value :=
  [ VDict [("$match", VDict [("subject", VStr (lower subject))])];
    VDict [("$group", VDict
      [ ("_id", VStr "$topic");
        ("total_sessions", VDict [("$sum", VInt 1)]);
        ("average_score", VDict [("$avg", VStr "$score")]);
        ("total_users", VDict [("$addToSet", VStr "$user_id")]) ])];
    VDict [("$project", VDict
      [ ("topic", VStr "$_id");
        ("total_sessions", VInt 1);
        ("average_score", VDict [("$round", VList [VStr "$average_score"; VInt 2])]);
        ("unique_users", VDict [("$size", VStr "$total_users")]) ])] ].

Definition get_subject_analytics (subject : string) : M retval :=
  try_except
    (results <- aggregate progress_collection (analytics_pipeline subject) ;;;
     ret (RList results))
    (on_error "Error getting analytics: " (RList [])).

(** The length of [n] days in the unit of the clock, milliseconds. *)
Definition days_delta (n : Z) : Z := n * 86400000.

Definition activity_pipeline (start_date : Z) : list value :=
  [ VDict [("$match", VDict [("timestamp", VDict [("$gte", VDate start_date)])])];
    VDict [("$group", VDict
      [ ("_id", VDict
          [ ("date", VDict [("$dateToString",
               VDict [("format", VStr "%Y-%m-%d"); ("date", VStr "$timestamp")])]);
            ("subject", VStr "$subject") ]);
        ("total_sessions", VDict [("$sum", VInt 1)]);
        ("average_score", VDict [("$avg", VStr "$score")]) ])];
    VDict [("$sort", VDict [("_id.date", VInt 1)])] ].

Definition get_daily_activity (days : Z) : M retval :=
  try_except
    (now <- utcnow ;;;
     delta <- lift (timedelta days) ;;;
     start_date <- lift (datetime_sub now delta) ;;;
     results <- aggregate progress_collection (activity_pipeline start_date) ;;;
     ret (RList results))
    (on_error "Error getting daily activity: " (RList [])).

(** *** Database maintenance *)

Definition create_text_indexes : M retval :=
  try_except
    (create_index content_collection
       [("title", "text"); ("content", "text"); ("key_concepts", "text")] ;;;
     create_index questions_collection
       [("question", "text"); ("explanation", "text"); ("key_points", "text")] ;;;
     print "Text indexes created successfully" ;;;
     ret RNone)
    (on_error "Error creating text indexes: " RNone).

Definition cleanup_old_sessions (days_old : Z) : M retval :=
  try_except
    (now <- utcnow ;;;
     delta <- lift (timedelta days_old) ;;;
     cutoff_date <- lift (datetime_sub now delta) ;;;
     deleted_count <- delete_many sessions_collection
       (<["status" := VStr "completed"]>
          {[ "end_time" := VDict [("$lt", VDate cutoff_date)] ]}) ;;;
     print ("Cleaned up " +:+ pretty deleted_count +:+ " old sessions") ;;;
     ret RNone)
    (on_error "Error cleaning up sessions: " RNone).

(** *** The operations, as data *)

Inductive call :=
  | AddContent (content_data : dict)
  | GetContentBySubject (subject : string) (limit : Z)
  | SearchContent (query : string) (subject : option string)
  | UpdateContentViews (content_id : string)
  | SaveUserProgress (progress_data : dict)
  | GetUserProgress (user_id : string) (subject : option string)
  | GetUserPerformanceSummary (user_id : string)
  | AddQuestion (question_data : dict)
  | GetQuestionsByTopic (subject topic : string) (difficulty : option string) (limit : Z)
  | UpdateQuestionStats (question_id : string) (is_correct : bool) (time_taken : Z)
  | CreateUser (user_data : dict)
  | GetUser (user_id : string)
  | UpdateUserPreferences (user_id : string) (preferences : value)
  | StartStudySession (session_data : dict)
  | EndStudySession (session_id : string) (final_score duration : value)
  | GetUserSessions (user_id : string) (limit : Z)
  | GetSubjectAnalytics (subject : string)
  | GetDailyActivity (days : Z)
  | CreateTextIndexes
  | CleanupOldSessions (days_old : Z).

Definition run (c : call) : M retval :=
  match c with
  | AddContent d => add_content d
  | GetContentBySubject s l => get_content_by_subject s l
  | SearchContent q s => search_content q s
  | UpdateContentViews i => update_content_views i
  | SaveUserProgress d => save_user_progress d
  | GetUserProgress u s => get_user_progress u s
  | GetUserPerformanceSummary u => get_user_performance_summary u
  | AddQuestion d => add_question d
  | GetQuestionsByTopic s t d l => get_questions_by_topic s t d l
  | UpdateQuestionStats i b t => update_question_stats i b t
  | CreateUser d => create_user d
  | GetUser u => get_user u
  | UpdateUserPreferences u p => update_user_preferences u p
  | StartStudySession d => start_study_session d
  | EndStudySession i s d => end_study_session i s d
  | GetUserSessions u l => get_user_sessions u l
  | GetSubjectAnalytics s => get_subject_analytics s
  | GetDailyActivity d => get_daily_activity d
  | CreateTextIndexes => create_text_indexes
  | CleanupOldSessions d => cleanup_old_sessions d
  end.

(** The value each method returns from its handler. *)
Definition sentinel (c : call) : retval :=
  match c with
  | GetContentBySubject _ _ | SearchContent _ _ | GetUserProgress _ _
  | GetUserPerformanceSummary _ | GetQuestionsByTopic _ _ _ _
  | GetUserSessions _ _ | GetSubjectAnalytics _ | GetDailyActivity _ => RList []
  | _ => RNone
  end.

End MongoDBService.

(** ** [api/main.py]: the fallback question provider and the
       key-concept extractor *)

Module ApiQuestions.

Import PyStr Api.
Local Open Scope py_scope.

(** [l[:n]] for a Python [int] [n]: a negative bound counts from the
    end. *)
Definition slice_to {A} (n : Z) (l : list A) : list A :=
  if 0 <=? n then take (Z.to_nat n) l
  else take (Z.to_nat (Z.of_nat (length l) + n)) l.

(** [d[k]] *)
Definition dict_item (d : dict) (k : string) : result value :=
  match d !! k with
  | Some v => Ok v
  | None => Raise KeyError
  end.

Definition strs (l : list string) : value := VList (List.map VStr l).

Record QuestionRequest := {
  content : string;
  questionCount : Z;
  questionTypes : list string;
  difficulty : string;
  subject : string
}.

Record QuestionResponse := {
  questions : list dict;
  metadata : dict
}.

(** The list literal [questions] of [get_python_questions]. *)
Definition python_questions (difficulty : string) : list dict :=
  [ list_to_map
      [ ("id", VStr "1");
        ("question", VStr "What is a variable in Python?");
        ("type", VStr "Multiple Choice");
        ("options", strs [ "A mathematical equation";
                           "A container for storing data";
                           "A type of loop";
                           "A function name" ]);
        ("correctAnswer", VStr "A container for storing data");
        ("explanation", VStr "Variables in Python are containers that store data values. They can hold different types of data like strings, numbers, and lists.");
        ("difficulty", VStr difficulty);
        ("bloomLevel", VStr "Understand") ];
    list_to_map
      [ ("id", VStr "2");
        ("question", VStr "Which symbol is used for comments in Python?");
        ("type", VStr "Multiple Choice");
        ("options", strs [ "//"; "/*"; "#"; "--" ]);
        ("correctAnswer", VStr "#");
        ("explanation", VStr "In Python, the hash symbol (#) is used to create single-line comments. Comments are not executed by the interpreter.");
        ("difficulty", VStr difficulty);
        ("bloomLevel", VStr "Remember") ];
    list_to_map
      [ ("id", VStr "3");
        ("question", VStr "True or False: Python is a compiled programming language.");
        ("type", VStr "True/False");
        ("correctAnswer", VStr "False");
        ("explanation", VStr "Python is an interpreted language, not compiled. The Python interpreter reads and executes code line by line.");
        ("difficulty", VStr difficulty);
        ("bloomLevel", VStr "Understand") ] ].

Definition get_python_questions (content : string) (question_count : Z)
    (question_types : list string) (difficulty : string) : QuestionResponse :=
  let questions := python_questions difficulty in
  {| questions := slice_to question_count questions;
     metadata :=
       list_to_map
         [ ("total_count", VInt (Z.min question_count (Z.of_nat (length questions))));
           ("difficulty_distribution", VDict [ (difficulty, VFloat Float64.one) ]);
           ("question_types", strs question_types);
           ("bloom_levels", strs [ "Remember"; "Understand" ]);
           ("key_concepts_covered",
            strs [ "Python basics"; "Variables"; "Comments"; "Language types" ]) ] |}.

(** The body of the loop that puts a fallback question into the shape of
    the response. *)
Definition format_question (question : dict) : result dict :=
  id <- dict_item question "id" ;;;
  text <- dict_item question "question" ;;;
  type <- dict_item question "type" ;;;
  let options := dict_get question "options" (VList []) in
  correctAnswer <- dict_item question "correctAnswer" ;;;
  explanation <- dict_item question "explanation" ;;;
  difficulty <- dict_item question "difficulty" ;;;
  bloomLevel <- dict_item question "bloomLevel" ;;;
  Ok (list_to_map
        [ ("id", id); ("question", text); ("type", type); ("options", options);
          ("correctAnswer", correctAnswer); ("explanation", explanation);
          ("difficulty", difficulty); ("bloomLevel", bloomLevel) ] : dict).

(** The loop [for question in fallback_response['questions']], appending
    to [formatted_questions]. *)
Fixpoint format_loop (questions : list dict) (formatted_questions : list dict)
    : result (list dict) :=
  match questions with
  | [] => Ok formatted_questions
  | question :: rest =>
      formatted_question <- format_question question ;;;
      format_loop rest (formatted_questions ++ [formatted_question])
  end.

(** The fallback question system: the statements after the agent branch
    of [generate_questions]. *)
Definition fallback_questions (request : QuestionRequest) : result QuestionResponse :=
  let fallback_response :=
    get_python_questions (content request) (questionCount request)
      (questionTypes request) (difficulty request) in
  formatted_questions <- format_loop (questions fallback_response) [] ;;;
  Ok {| questions := formatted_questions; metadata := metadata fallback_response |}.

(** [generate_questions].  [question_agent] is the module-level agent
    ([None] when construction failed); applied to the request it stands
    for the whole inner [try] block.  Any exception of that block falls
    through to the fallback system; any exception of the fallback system
    becomes a 500. *)
Definition generate_questions
    (question_agent : option (QuestionRequest -> result QuestionResponse))
    (request : QuestionRequest) : http QuestionResponse :=
  let from_agent :=
    match question_agent with
    | Some agent =>
        match agent request with
        | Ok r => Some r
        | Raise _ => None
        end
    | None => None
    end in
  match from_agent with
  | Some r => Response r
  | None =>
      match fallback_questions request with
      | Ok r => Response r
      | Raise e => HTTPException 500 ("Failed to generate questions: " +:+ exn_str e)
      end
  end.

(** [s.replace(c, '')] for a one-character [c]. *)
Fixpoint remove_char (c : ascii) (s : string) : string :=
  match s with
  | EmptyString => EmptyString
  | String a r => if Ascii.eqb a c then remove_char c r else String a (remove_char c r)
  end.

Definition star : ascii := ascii_of_N 42.

(** [re.findall(r'\*\*(.*?)\*\*', s)], scanning from the left.  [open]
    holds the text since the last opening pair of stars, when there is
    one; a closing pair ends the match, a line break abandons it (the dot
    of the pattern matches no line break), and so does the end of the
    string. *)
Fixpoint findall_bold (open : option string) (s : string) : list string :=
  match s with
  | EmptyString => []
  | String a r =>
      match r with
      | EmptyString => []
      | String b r' =>
          match open with
          | None =>
              if Ascii.eqb a star && Ascii.eqb b star
              then findall_bold (Some EmptyString) r'
              else findall_bold None r
          | Some acc =>
              if Ascii.eqb a star && Ascii.eqb b star
              then acc :: findall_bold None r'
              else if Ascii.eqb a nl then findall_bold None r
              else findall_bold (Some (acc +:+ String a EmptyString)) r
          end
      end
  end.

(** The loop [for line in lines], extending [concepts]. *)
Fixpoint concepts_loop (lines : list string) (concepts : list string)
    : list string :=
  match lines with
  | [] => concepts
  | line :: rest =>
      let line := strip line in
      concepts_loop rest
        (if startswith "##" line && (3 <? len line) then
           let concept := strip (remove_char star (remove_char "#" line)) in
           if negb (String.eqb concept EmptyString) && (len concept <? 100)
           then concepts ++ [concept] else concepts
         else if startswith "*" line && contains "**" line then
           concepts ++ findall_bold None line
         else concepts)
  end.

Definition default_concepts : list string :=
  [ "Core Principles"; "Key Components"; "Fundamental Concepts";
    "Main Applications"; "Important Methods" ].

(** [extract_key_concepts_from_content] on a string (on which nothing in
    the body raises). *)
Definition extract_key_concepts_from_content (content : string) : list string :=
  let concepts := concepts_loop (split nl content) [] in
  match concepts with
  | [] => default_concepts
  | _ => take 10 concepts
  end.

End ApiQuestions.

(** ** [agents/content_generator.py]: retrieval, context and study
       materials

    The retrieval system and the language processor are not part of
    these sources; the functions take them as parameters. *)

Module ContentPipeline.

Import PyStr ContentGeneratorAgent.
Local Open Scope py_scope.

(** The float [0.5] *)
Definition half : Float64.float := S754_finite false 4503599627370496 (-53).

Record sources := {
  academic : list source;
  educational : list source;
  quality_score : Float64.float
}.

(** [source.get(k, default)] *)
Definition get_or (field : option string) (default : string) : string :=
  match field with
  | Some s => s
  | None => default
  end.

(** [s[:n]] *)
Fixpoint str_take (n : nat) (s : string) : string :=
  match n, s with
  | S k, String c r => String c (str_take k r)
  | _, _ => EmptyString
  end.

(** An entity of the language processor: a dictionary with the keys
    ['text'] and ['label']. *)
Record entity := {
  text : option string;
  label : option string
}.

Record flashcard := {
  term : string;
  definition : string;
  category : string
}.

Record study_materials := {
  flashcards : list flashcard;
  key_concepts : list string;
  learning_objectives : list string;
  study_notes : string;
  diagram_suggestions : list string
}.

Definition no_materials : study_materials :=
  {| flashcards := []; key_concepts := []; learning_objectives := [];
     study_notes := EmptyString; diagram_suggestions := [] |}.

(** [entity['text']] *)
Definition entity_text (e : entity) : result string :=
  match text e with
  | Some s => Ok s
  | None => Raise KeyError
  end.

Section Agent.

(** [self.ir_system.search(query, category)] *)
Variable search : string -> string -> result (list source).

(** [self.nlp_processor.extract_entities(content)] and
    [self.nlp_processor.extract_key_terms(content)] *)
Variable extract_entities : string -> result (list entity).
Variable extract_key_terms : string -> result (list string).

(** The marker literal of the study notes. *)
Variable bullet : string.

Definition _retrieve_reliable_sources (topic subject : string) : sources :=
  match
    (academic_sources <-
       search (topic +:+ " " +:+ subject +:+ " academic textbook") "Academic" ;;;
     web_sources <-
       search (topic +:+ " " +:+ subject +:+ " educational") "Educational" ;;;
     quality <- _assess_source_quality (academic_sources ++ web_sources) ;;;
     Ok {| academic := take 3 academic_sources;
           educational := take 3 web_sources;
           quality_score := quality |})
  with
  | Ok r => r
  | Raise _ => {| academic := []; educational := []; quality_score := half |}
  end.

(** One entry of [context_parts]. *)
Definition source_block (kind : string) (s : source) : string :=
  kind +:+ " Source: " +:+ get_or (title s) "Unknown" +:+ newline
  +:+ get_or_empty (content s).

Definition _gather_enhanced_context (topic subject : string) (srcs : sources)
    : string :=
  let context_parts := [] in
  let context_parts :=
    context_parts ++ List.map (source_block "Academic") (academic srcs) in
  let context_parts :=
    context_parts ++ List.map (source_block "Educational") (educational srcs) in
  join (newline +:+ newline) context_parts.

(** The loop [for result in search_results[:3]], appending to
    [context_parts]; [result['content']] raises on a result without
    content. *)
Fixpoint context_loop (results : list source) (context_parts : list string)
    : result (list string) :=
  match results with
  | [] => Ok context_parts
  | r :: rest =>
      match content r with
      | Some c => context_loop rest (context_parts ++ [str_take 500 c])
      | None => Raise KeyError
      end
  end.

Definition _gather_context (topic subject : string) : string :=
  match
    (search_results <- search (topic +:+ " " +:+ subject) "General" ;;;
     match search_results with
     | [] => Ok EmptyString
     | _ =>
         context_parts <- context_loop (take 3 search_results) [] ;;;
         Ok (join " " context_parts)
     end)
  with
  | Ok s => s
  | Raise _ => EmptyString
  end.

(** The loop [for entity in entities[:10]], appending to
    [flashcard_concepts]. *)
Fixpoint flashcard_loop (topic : string) (entities : list entity)
    (flashcard_concepts : list flashcard) : result (list flashcard) :=
  match entities with
  | [] => Ok flashcard_concepts
  | e :: rest =>
      t <- entity_text e ;;;
      flashcard_loop topic rest
        (flashcard_concepts ++
           [ {| term := t;
                definition := "Key concept in " +:+ topic;
                category := get_or (label e) "CONCEPT" |} ])
  end.

(** [[ent['text'] for ent in entities]] *)
Fixpoint entity_texts (entities : list entity) : result (list string) :=
  match entities with
  | [] => Ok []
  | e :: rest =>
      t <- entity_text e ;;;
      ts <- entity_texts rest ;;;
      Ok (t :: ts)
  end.

Definition _create_study_materials (content topic : string) : study_materials :=
  match
    (entities <- extract_entities content ;;;
     key_terms <- extract_key_terms content ;;;
     flashcard_concepts <- flashcard_loop topic (take 10 entities) [] ;;;
     let objectives :=
       [ "Define and explain " +:+ topic;
         "Identify key components of " +:+ topic;
         "Apply " +:+ topic +:+ " concepts to real-world scenarios";
         "Analyze relationships within " +:+ topic ] in
     concepts <- entity_texts (take 15 entities) ;;;
     Ok {| flashcards := flashcard_concepts;
           key_concepts := concepts;
           learning_objectives := objectives;
           study_notes := _create_bullet_notes bullet content;
           diagram_suggestions := _suggest_diagrams topic entities |})
  with
  | Ok m => m
  | Raise _ => no_materials
  end.

End Agent.

End ContentPipeline.

(** ** Ranges of floats, for the bounds proved below *)

Module FloatRange.

Import Float64.

(** [fits H m e]: the mantissa [m] at exponent [e] stays below [2^H]. *)
Definition fits (H m e : Z) : Prop := 0 <= m /\ e <= H /\ Zdigits2 m + e <= H.

(** [large L m e]: a positive mantissa [m] at exponent [e], at least
    [2^(L-1)] in magnitude. *)
Definition large (L m e : Z) : Prop := 0 < m /\ L <= Zdigits2 m + e.

(** Sign and size of a float: a zero or a finite number of sign [s] below
    [2^H] in magnitude. *)
Definition fin (s : bool) (H : Z) (x : float) : Prop :=
  match x with
  | S754_zero s' => s' = s
  | S754_finite s' m e => s' = s /\ Zpos (digits2_pos m) + e <= H
  | _ => False
  end.

(** Non-negative floats, the infinite one included. *)
Definition nonneg (x : float) : Prop :=
  match x with
  | S754_zero _ => True
  | S754_finite s _ _ => s = false
  | S754_infinity s => s = false
  | S754_nan => False
  end.

End FloatRange.

(** ** The specification's reading of the heuristics

    These definitions follow the words of the specification; the
    properties below compare them with the functions above. *)

Module Spec.

Import PyStr.

(** *** The fallback content *)

(** One letter, small or capital. *)
Definition letter (small capital c : ascii) : Prop := c = small \/ c = capital.

(** A spelling of the word python, each letter in either case. *)
Definition spells_python (p : string) : Prop :=
  exists c1 c2 c3 c4 c5 c6,
    p = String c1 (String c2 (String c3 (String c4 (String c5 (String c6 EmptyString)))))
    /\ letter "p" "P" c1 /\ letter "y" "Y" c2 /\ letter "t" "T" c3
    /\ letter "h" "H" c4 /\ letter "o" "O" c5 /\ letter "n" "N" c6.

(** The topic contains the word python, in any letter case. *)
Definition mentions_python (topic : string) : Prop :=
  exists a p b, topic = a +:+ p +:+ b /\ spells_python p.

(** *** Diagram suggestions *)

(** The decision table of the diagram suggestions, row by row. *)
Definition decision_table {E} (topic : string) (entities : list E) : list string :=
  (if existsb (fun word => contains word (lower topic)) ["process"; "cycle"; "steps"]
   then ["Process Flow Diagram"] else [])
  ++ (if existsb (fun word => contains word (lower topic)) ["structure"; "anatomy"; "parts"]
      then ["Labeled Diagram"] else [])
  ++ (if existsb (fun word => contains word (lower topic)) ["compare"; "vs"; "difference"]
      then ["Comparison Chart"] else [])
  ++ (if (5 <? length entities)%nat then ["Mind Map"; "Concept Map"] else []).

(** The text under key [k] of a dictionary, when it is a string (the
    empty string when the key is absent). *)
Definition text_of (d : dict) (k : string) : option string :=
  match dict_get d k (VStr EmptyString) with
  | VStr s => Some s
  | _ => None
  end.







(** The fallback system is the one that answers: there is no agent, or
    its block raises. *)
Definition uses_fallback
    (feedback_agent : option (Api.QuizSubmission -> result Api.FeedbackResponse))
    (sub : Api.QuizSubmission) : Prop :=
  match feedback_agent with
  | None => True
  | Some agent => exists e, agent sub = Raise e
  end.




(** Three questions, two of them answered correctly. *)
Definition two_of_three : Api.QuizSubmission :=
  {| Api.questions := [ {[ "correctAnswer" := VStr "O(1)" ]};
                        {[ "correctAnswer" := VStr "True" ]};
                        {[ "correctAnswer" := VStr "#" ]} ];
     Api.answers := [ {[ "answer" := VStr " O(1) " ]};
                      {[ "answer" := VStr "true" ]};
                      {[ "answer" := VStr "//" ]} ];
     Api.topic := "python" |}.


(** *** Source quality *)

Definition trust_keywords : list string :=
  [ "academic"; "peer-reviewed"; "textbook"; "educational"; "university" ].

(** The text of a snippet: its title, a space, its content. *)
Definition snippet_text (s : ContentGeneratorAgent.source) : string :=
  ContentGeneratorAgent.get_or_empty (ContentGeneratorAgent.title s) +:+ " "
  +:+ ContentGeneratorAgent.get_or_empty (ContentGeneratorAgent.content s).

(** How many of the trust keywords occur, case-insensitively. *)
Definition keyword_hits (s : ContentGeneratorAgent.source) : Z :=
  Z.of_nat (length (List.filter (fun k => contains k (lower (snippet_text s)))
                                trust_keywords)).

Definition snippet_score (s : ContentGeneratorAgent.source) : Float64.float :=
  Float64.div (Float64.raw (keyword_hits s)) (Float64.raw 5).

(** The sum of floats, added from left to right. *)
Definition float_sum (l : list Float64.float) : Float64.float :=
  fold_left Float64.add l Float64.zero.

Definition average_score (sources : list ContentGeneratorAgent.source) : Float64.float :=
  Float64.div (float_sum (List.map snippet_score sources))
              (Float64.of_Z (Z.of_nat (length sources))).

Definition clamp_to_one (x : Float64.float) : Float64.float :=
  if Float64.ltb Float64.one x then Float64.one else x.

Definition quality_score (sources : list ContentGeneratorAgent.source) : Float64.float :=
  match sources with
  | [] => Float64.zero
  | _ => clamp_to_one (average_score sources)
  end.

(** *** Study notes *)





End Spec.

(** ** The specification's reading of the persistence service *)

Module PersistenceSpec.

Import Mongo Driver Models MongoDBService.

Inductive op_kind := Insert | Lookup | Query | Update | Maintenance.

Definition kind (c : call) : op_kind :=
  match c with
  | AddContent _ | SaveUserProgress _ | AddQuestion _ | CreateUser _
  | StartStudySession _ => Insert
  | GetUser _ => Lookup
  | GetContentBySubject _ _ | SearchContent _ _ | GetUserProgress _ _
  | GetUserPerformanceSummary _ | GetQuestionsByTopic _ _ _ _
  | GetUserSessions _ _ | GetSubjectAnalytics _ | GetDailyActivity _ => Query
  | UpdateContentViews _ | UpdateQuestionStats _ _ _
  | UpdateUserPreferences _ _ | EndStudySession _ _ _ => Update
  | CreateTextIndexes | CleanupOldSessions _ => Maintenance
  end.

(** A computation is quiet when, by the time it returns normally, every
    entry of the fault schedule it has consumed was [false]: none of its
    driver calls raised. *)
Definition quiet {A} (m : M A) : Prop :=
  forall w,
    match m w with
    | (Ok _, w') => exists k, faults w = replicate k false ++ faults w'
    | (Raise _, _) => True
    end.

(** A computation is loud when a failing store makes it raise: with
    [true] at the head of the fault schedule it does not return. *)
Definition loud {A} (m : M A) : Prop :=
  forall w fs, faults w = true :: fs -> exists e w', m w = (Raise e, w').

(** A computation is inert when it leaves the fault schedule alone. *)
Definition inert {A} (m : M A) : Prop :=
  forall w, faults (m w).2 = faults w.

(** *** Study sessions *)

Definition sessions (w : world) : gmap N dict := coll sessions_collection w.

Definition is_active (d : dict) : Prop :=
  d !! "status" = Some (VStr "active") /\ d !! "end_time" = Some VNone.

Definition is_completed (d : dict) : Prop :=
  d !! "status" = Some (VStr "completed") /\
  exists t, d !! "end_time" = Some (VDate t).

(** The two states of a session document. *)
Definition session_ok (d : dict) : Prop := is_active d \/ is_completed d.

(** A store in good order: every session sits under its own identifier,
    identifiers already handed out lie below the next one, and every
    session is in one of its two states. *)
Definition good (w : world) : Prop :=
  forall k d, sessions w !! k = Some d ->
    (k < next_id w)%N /\ d !! "_id" = Some (VOid k) /\ session_ok d.

(** What may become of a session document: nothing, or completion. *)
Definition evolves (d d' : dict) : Prop :=
  d' = d \/ (is_completed d' /\ d' !! "_id" = d !! "_id").

(** [follows w w']: the sessions of [w'] come from those of [w] by
    creating sessions under fresh identifiers, completing sessions and
    deleting sessions. *)
Definition follows (w w' : world) : Prop :=
  good w' /\
  (next_id w <= next_id w')%N /\
  (forall k d d', sessions w !! k = Some d -> sessions w' !! k = Some d' ->
                  evolves d d') /\
  (forall k d', sessions w' !! k = Some d' -> sessions w !! k = None ->
                (next_id w <= k)%N).

Definition keeps_sessions {A} (m : M A) : Prop :=
  forall w, good w -> follows w (m w).2.

(** What a computation returns when it returns. *)
Definition returns {A} (m : M A) (Q : A -> Prop) : Prop :=
  forall w a w', m w = (Ok a, w') -> Q a.

(** The worlds the service can be in: it starts on empty collections;
    between calls the clock and the fault schedule change at will. *)
Inductive reachable : world -> Prop :=
  | reach_init (w : world) : collections w = ∅ -> reachable w
  | reach_env (w : world) (t : Z) (fs : list bool) :
      reachable w -> reachable (set_clock t (set_faults fs w))
  | reach_call (w : world) (c : call) :
      reachable w -> reachable (run c w).2.

(** The update document of [end_session]. *)
Definition end_update (t : Z) (final_score duration : value) : dict :=
  {[ "$set" := VDict [ ("end_time", VDate t); ("duration", duration);
                       ("score", final_score); ("status", VStr "completed") ] ]}.

(** A world to run examples in, and the data of one session. *)
Definition demo_world : world :=
  {| collections := ∅; next_id := 1%N; clock := 1000; faults := [];
     text_score := fun _ _ => None; aggregate_eval := fun _ _ => [];
     stdout := [] |}.

Definition demo_session : dict :=
  list_to_map [ ("user_id", VStr "demo_user_123"); ("subject", VStr "Mathematics");
                ("topic", VStr "Calculus"); ("session_type", VStr "practice") ].

End PersistenceSpec.

(** ** Upper bounds of floats *)

Module FloatBound.
Import Float64.

(** [below b k x]: the float [x] is zero, or positive and at most
    [b * 2^k]. *)
Definition below (b k : Z) (x : float) : Prop :=
  match x with
  | S754_zero _ => True
  | S754_finite s m e => s = false /\ e <= k /\ Zpos m <= b * 2 ^ (k - e)
  | _ => False
  end.

(** The same of an unrounded mantissa [m] at exponent [e] with the
    location [l] of the exact value above it: the exact value is at most
    [b * 2^k]. *)
Definition under (b k m e : Z) (l : location) : Prop :=
  0 <= m /\ e <= k /\ m <= b * 2 ^ (k - e) /\
  (m = b * 2 ^ (k - e) -> l = loc_Exact).

End FloatBound.

(** ** Reading the quiz, the questions and the study materials *)

Module QuizSpec.
Import Spec.

(** Every question has a submitted answer at its index, and both the
    answer and the correct answer are text. *)
Definition answerable (sub : Api.QuizSubmission) : Prop :=
  forall i q, Api.questions sub !! i = Some q ->
    exists a, Api.answers sub !! i = Some a /\
              is_Some (text_of a "answer") /\ is_Some (text_of q "correctAnswer").

(** Four answers to the three questions of [two_of_three]. *)
Definition one_answer_too_many : Api.QuizSubmission :=
  {| Api.questions := Api.questions two_of_three;
     Api.answers := Api.answers two_of_three ++ [ {[ "answer" := VStr "extra" ]} ];
     Api.topic := "python" |}.

(** A number where the text of an answer should be. *)
Definition number_for_answer : Api.QuizSubmission :=
  {| Api.questions := [ {[ "correctAnswer" := VStr "4" ]} ];
     Api.answers := [ {[ "answer" := VInt 4 ]} ];
     Api.topic := "sums" |}.

End QuizSpec.

Module QuestionSpec.
Import ApiQuestions.

(** A question with its options made explicit. *)
Definition with_options (q : dict) : dict :=
  <["options" := dict_get q "options" (VList [])]> q.

(** The fallback system is the one that answers. *)
Definition uses_question_fallback
    (question_agent : option (QuestionRequest -> result QuestionResponse))
    (request : QuestionRequest) : Prop :=
  match question_agent with
  | None => True
  | Some agent => exists e, agent request = Raise e
  end.

(** Every question answered with its own correct answer. *)
Definition own_answers (qs : list dict) : list dict :=
  List.map (fun q => {[ "answer" := dict_get q "correctAnswer" (VStr EmptyString) ]} : dict) qs.

Definition two_easy_questions : QuestionRequest :=
  {| content := "Variables hold values."; questionCount := 2;
     questionTypes := ["Multiple Choice"]; difficulty := "Easy";
     subject := "Programming" |}.

(** The concepts one line yields. *)
Definition line_concepts (line : string) : list string :=
  let line := PyStr.strip line in
  if PyStr.startswith "##" line && (3 <? PyStr.len line) then
    let concept := PyStr.strip (remove_char star (remove_char "#" line)) in
    if negb (String.eqb concept EmptyString) && (PyStr.len concept <? 100)
    then [concept] else []
  else if PyStr.startswith "*" line && PyStr.contains "**" line then
    findall_bold None line
  else [].

(** A name a heading can carry: not empty, without white space around
    it, without '#' and '*', shorter than 100 characters. *)
Definition heading_name (name : string) : Prop :=
  name <> EmptyString /\ PyStr.strip name = name /\
  PyStr.contains "#" name = false /\ PyStr.contains "*" name = false /\
  PyStr.len name < 100.

(** Text without a star and without a line break. *)
Definition plain (s : string) : Prop :=
  PyStr.contains "*" s = false /\ PyStr.contains PyStr.newline s = false.

(** A heading, a sentence and a bullet with a term in bold. *)
Definition three_lines : string :=
  "## Variables" +:+ PyStr.newline +:+ "Some text." +:+ PyStr.newline
  +:+ "* **Loops** repeat work".

(** The response to [two_easy_questions]. *)
Definition two_easy_response : QuestionResponse :=
  {| questions := List.map with_options (take 2 (python_questions "Easy"));
     metadata := metadata (get_python_questions "Variables hold values." 2
                             ["Multiple Choice"] "Easy") |}.

End QuestionSpec.

Module PipelineSpec.
Import ContentGeneratorAgent ContentPipeline.

(** A retrieval system that always finds the same two sources, and one
    that is out of order. *)
Definition two_sources : list source :=
  [ {| title := Some "Academic Textbook of Biology";
       content := Some "A peer-reviewed university course." |};
    {| title := None; content := Some "Cells divide." |} ].

Definition search_finds (query category : string) : result (list source) :=
  Ok two_sources.

Definition search_fails (query category : string) : result (list source) :=
  Raise (StoreError "search unavailable").

(** The flashcard of an entity whose text is [t]. *)
Definition card (topic : string) (e : entity) (t : string) : flashcard :=
  {| term := t;
     definition := "Key concept in " +:+ topic;
     category := get_or (label e) "CONCEPT" |}.

(** A language processor that finds two entities, the second one
    without a label. *)
Definition two_entities : list entity :=
  [ {| text := Some "mitosis"; label := Some "PROCESS" |};
    {| text := Some "cell"; label := None |} ].

Definition entities_found (content : string) : result (list entity) :=
  Ok two_entities.

Definition terms_found (content : string) : result (list string) :=
  Ok ["mitosis"; "cell"].

End PipelineSpec.

(** ** Reading the store *)

Module StoreSpec.

Import Mongo Driver Models MongoDBService PersistenceSpec.

(** The store answers the next call. *)
Definition answering (w : world) : Prop := head (faults w) <> Some true.

(** The world once the store has taken a call. *)
Definition served (w : world) : world := set_faults (tail (faults w)) w.

(** Every document of every collection sits under its own identifier,
    and that identifier has been handed out. *)
Definition well_keyed (w : world) : Prop :=
  forall name k d, coll name w !! k = Some d ->
    (k < next_id w)%N /\ d !! "_id" = Some (VOid k).

Definition keeps_keys {A} (m : M A) : Prop :=
  forall w, well_keyed w -> well_keyed (m w).2.

(** An update document that leaves the identifier alone. *)
Definition spares_id (update : dict) : Prop :=
  forall d d', apply_update update d = Ok d' -> d' !! "_id" = d !! "_id".

(** The identifier string a call takes. *)
Definition id_argument (c : call) : option string :=
  match c with
  | UpdateContentViews i | UpdateQuestionStats i _ _ | GetUser i
  | UpdateUserPreferences i _ | EndStudySession i _ _ => Some i
  | _ => None
  end.

(** The data a call hands to a document constructor, with the
    parameters of that constructor and their defaults. *)
Definition constructor_call (c : call) : option (list (string * option value) * dict) :=
  match c with
  | AddContent data =>
      Some ([ ("title", None); ("content", None); ("subject", None);
              ("topic", None); ("content_type", Some (VStr "lesson"));
              ("difficulty", Some (VStr "intermediate"));
              ("learning_objectives", Some VNone);
              ("key_concepts", Some VNone); ("tags", Some VNone) ], data)
  | SaveUserProgress data =>
      Some ([ ("user_id", None); ("subject", None); ("topic", None);
              ("score", None); ("total_questions", None);
              ("correct_answers", None); ("time_spent", Some (VInt 0));
              ("difficulty", Some (VStr "medium")) ], data)
  | AddQuestion data =>
      Some ([ ("question", None); ("question_type", None); ("subject", None);
              ("topic", None); ("difficulty", None); ("bloom_level", None);
              ("correct_answer", None); ("options", Some VNone);
              ("explanation", Some VNone); ("key_points", Some VNone);
              ("tags", Some VNone) ], data)
  | CreateUser data =>
      Some ([ ("username", None); ("email", None);
              ("learning_preferences", Some VNone);
              ("subjects_of_interest", Some VNone) ], data)
  | StartStudySession data =>
      Some ([ ("user_id", None); ("subject", None); ("topic", None);
              ("session_type", Some (VStr "practice")) ], data)
  | _ => None
  end.

(** The data misses a parameter without default, or has a key that is
    no parameter. *)
Definition ill_formed (params : list (string * option value)) (data : dict) : Prop :=
  (exists k, In (k, None) params /\ data !! k = None) \/
  (exists k, is_Some (data !! k) /\ ~ In k params.*1).

(** The value bound to parameter [k]: the argument, or the default. *)
Fixpoint bound (params : list (string * option value)) (kw : dict) (k : string)
    : option value :=
  match params with
  | [] => None
  | p :: rest =>
      if String.eqb p.1 k then
        match kw !! k with
        | Some v => Some v
        | None => p.2
        end
      else bound rest kw k
  end.

(** A completed session that ended before [cutoff]. *)
Definition expired (cutoff : Z) (d : dict) : bool :=
  Driver.value_eqb (dict_get d "status" VNone) (VStr "completed")
  && match d !! "end_time" with
     | Some (VDate u) => u <? cutoff
     | _ => false
     end.

(** The rank of a document under its date field [key]. *)
Definition date_rank (key : string) (d : dict) : option Z :=
  match d !! key with
  | Some (VDate t) => Some t
  | Some (VInt n) => Some n
  | _ => None
  end.

(** A list in which each element is below the next one. *)
Fixpoint ordered {A} (le : A -> A -> bool) (l : list A) : Prop :=
  match l with
  | [] => True
  | x :: r =>
      match r with
      | [] => True
      | y :: _ => le x y = true
      end /\ ordered le r
  end.

(** Newest first: each document's rank is at least the next one's. *)
Definition newest_first (key : string) (docs : list dict) : Prop :=
  ordered (fun a b => rank_leb (date_rank key b) (date_rank key a)) docs.

(** An optional filter on a field holding lower-case text; no string and
    the empty string filter nothing. *)
Definition field_is (key : string) (v : option string) (d : dict) : bool :=
  match v with
  | Some s =>
      String.eqb s EmptyString
      || Driver.value_eqb (dict_get d key VNone) (VStr (PyStr.lower s))
  | None => true
  end.

(** The integer under key [k], a missing key counting as 0. *)
Definition int_field (d : dict) (k : string) : option Z :=
  match d !! k with
  | Some (VInt n) => Some n
  | None => Some 0
  | Some _ => None
  end.

(** The store answers the next three calls. *)
Definition answering_thrice (w : world) : Prop := ~ In true (take 3 (faults w)).

(** The level of an integer score. *)
Definition level_rank (level : string) : Z :=
  if String.eqb level "excellent" then 4
  else if String.eqb level "good" then 3
  else if String.eqb level "satisfactory" then 2
  else if String.eqb level "needs_improvement" then 1
  else 0.

(** Data to run examples on, after the integration example of the
    repository. *)
Definition demo_user : dict :=
  list_to_map [ ("username", VStr "student123");
                ("email", VStr "student@example.com") ].

Definition demo_content : dict :=
  list_to_map [ ("title", VStr "Machine Learning Basics");
                ("content", VStr "Machine learning is a subset of artificial intelligence.");
                ("subject", VStr "Computer_Science");
                ("topic", VStr "machine_learning");
                ("tags", VList [VStr "machine learning"; VStr "AI"]) ].

Definition demo_question : dict :=
  list_to_map [ ("question", VStr "What is the time complexity of binary search?");
                ("question_type", VStr "multiple_choice");
                ("subject", VStr "computer_science");
                ("topic", VStr "algorithms");
                ("difficulty", VStr "medium");
                ("bloom_level", VStr "understand");
                ("correct_answer", VStr "O(log n)") ].

Definition demo_progress : dict :=
  list_to_map [ ("user_id", VStr "student123");
                ("subject", VStr "computer_science");
                ("topic", VStr "python_programming");
                ("score", VInt 85);
                ("total_questions", VInt 10);
                ("correct_answers", VInt 8);
                ("time_spent", VInt 1200);
                ("difficulty", VStr "medium") ].

(** The identifier of the first document of [demo_world], as a string. *)
Definition first_id : string := "000000000000000000000001".

(** The world after a call, and the document stored under an
    identifier. *)
Definition after (c : call) (w : world) : world := (run c w).2.

Definition stored (name : string) (o : N) (w : world) : dict :=
  default ∅ (coll name w !! o).

(** The cutoff of a clean-up is a date: the number of days is one a
    [timedelta] holds, and the clock less these days is a [datetime]. *)
Definition cutoff_in_range (days_old : Z) (w : world) : Prop :=
  Z.abs days_old <= 999999999 /\
  0 <= clock w - days_delta days_old <= datetime_max.

(** Two sessions started, the first one ended, forty days ago. *)
Definition forty_days_later : world :=
  set_clock (days_delta 40 + 1000)
    (after (EndStudySession first_id (VInt 78) (VInt 1800))
       (after (StartStudySession demo_session)
          (after (StartStudySession demo_session) demo_world))).

(** The status of the session under an identifier. *)
Definition session_status (o : N) (w : world) : option value :=
  match sessions w !! o with
  | Some d => d !! "status"
  | None => None
  end.

End StoreSpec.

Module LevelSpec.
Import Models.

(** One score is at most another: both integers, or both floats. *)
Definition score_le (s1 s2 : value) : Prop :=
  match s1, s2 with
  | VInt a, VInt b => a <= b
  | VFloat a, VFloat b => Float64.leb a b = true
  | _, _ => False
  end.

End LevelSpec.

(** * Properties *)

(** ** binary64 arithmetic *)

Section FloatFacts.

Import Float64 FloatRange.

Lemma digits2_pos_size (p : positive) : digits2_pos p = Pos.size p.
Proof. induction p as [p IH|p IH|]; simpl; [now rewrite IH | now rewrite IH | reflexivity]. Qed.

Lemma Zdigits2_nonneg (m : Z) : 0 <= Zdigits2 m.
Proof. destruct m; simpl; lia. Qed.

(** A non-negative integer has at most [k] binary digits exactly when it
    is below [2^k]. *)
Lemma Zdigits2_le_pow (m k : Z) :
  0 <= m -> 0 <= k -> (Zdigits2 m <= k <-> m < 2 ^ k).
Proof.
  intros Hm Hk. destruct m as [|p|p]; [| |lia].
  - simpl. split; [intros _; apply Z.pow_pos_nonneg; lia | lia].
  - simpl. rewrite digits2_pos_size. split.
    + intros H. apply Z.lt_le_trans with (2 ^ Zpos (Pos.size p)).
      * pose proof (Pos.size_gt p) as Hs. apply Pos2Z.pos_lt_pos in Hs.
        now rewrite Pos2Z.inj_pow in Hs.
      * apply Z.pow_le_mono_r; lia.
    + intros H. destruct (Z.le_gt_cases (Zpos (Pos.size p)) k) as [|Hgt]; [assumption|].
      exfalso. pose proof (Pos.size_le p) as Hs.
      assert (2 ^ (k + 1) <= 2 ^ Zpos (Pos.size p)) by (apply Z.pow_le_mono_r; lia).
      rewrite Z.pow_add_r in H0 by lia.
      apply Pos2Z.pos_le_pos in Hs. rewrite Pos2Z.inj_pow in Hs. lia.
Qed.

Lemma shr_1_m (r : shr_record) :
  0 <= shr_m r -> shr_m (shr_1 r) = Z.div2 (shr_m r).
Proof.
  destruct r as [m rb sb]. simpl. intros Hm.
  destruct m as [|[p|p|]|p]; try reflexivity; lia.
Qed.

Lemma iter_shr_m (p : positive) (r : shr_record) :
  0 <= shr_m r -> shr_m (SpecFloat.iter_pos shr_1 p r) = Z.shiftr (shr_m r) (Zpos p).
Proof.
  revert r. induction p as [p IH|p IH|]; intros r Hr; simpl SpecFloat.iter_pos.
  - assert (H1 : 0 <= shr_m (shr_1 r)).
    { rewrite shr_1_m by assumption. rewrite Z.div2_spec. now apply Z.shiftr_nonneg. }
    assert (H2 : 0 <= shr_m (SpecFloat.iter_pos shr_1 p (shr_1 r))).
    { rewrite IH by assumption. now apply Z.shiftr_nonneg. }
    rewrite IH, IH, shr_1_m, Z.div2_spec by assumption.
    rewrite !Z.shiftr_shiftr by lia. f_equal. lia.
  - assert (H2 : 0 <= shr_m (SpecFloat.iter_pos shr_1 p r)).
    { rewrite IH by assumption. now apply Z.shiftr_nonneg. }
    rewrite IH, IH by assumption.
    rewrite !Z.shiftr_shiftr by lia. f_equal. lia.
  - rewrite shr_1_m by assumption. apply Z.div2_spec.
Qed.

Lemma shr_record_of_loc_m (m : Z) (l : location) : shr_m (shr_record_of_loc m l) = m.
Proof. destruct l as [|[]]; reflexivity. Qed.

Lemma shr_fexp_nonneg (m e : Z) (l : location) :
  0 <= m -> 0 <= shr_m (shr_fexp prec emax m e l).1.
Proof.
  intros Hm. unfold shr_fexp, shr.
  destruct (fexp prec emax (Zdigits2 m + e) - e) as [|p|p]; simpl;
    rewrite ?iter_shr_m, ?shr_record_of_loc_m; rewrite ?shr_record_of_loc_m;
    try apply Z.shiftr_nonneg; assumption.
Qed.

Lemma shr_fexp_fits (H m e : Z) (l : location) :
  fits H m e -> -1074 <= H ->
  fits H (shr_m (shr_fexp prec emax m e l).1) (shr_fexp prec emax m e l).2.
Proof.
  intros (Hm & He & Hd) HH. unfold shr_fexp, shr.
  destruct (fexp prec emax (Zdigits2 m + e) - e) as [|p|p] eqn:En; simpl;
    rewrite ?shr_record_of_loc_m; try (now repeat split).
  rewrite iter_shr_m by (now rewrite shr_record_of_loc_m).
  rewrite shr_record_of_loc_m.
  assert (Hf : e + Zpos p = fexp prec emax (Zdigits2 m + e)) by lia.
  assert (Hle : e + Zpos p <= H).
  { rewrite Hf. unfold fexp, emin, prec, emax. lia. }
  split; [now apply Z.shiftr_nonneg|]. split; [assumption|].
  enough (Zdigits2 (Z.shiftr m (Zpos p)) <= H - (e + Zpos p)) by lia.
  apply Zdigits2_le_pow; [now apply Z.shiftr_nonneg | lia |].
  rewrite Z.shiftr_div_pow2 by lia.
  apply Z.div_lt_upper_bound; [apply Z.pow_pos_nonneg; lia|].
  rewrite <- Z.pow_add_r by lia.
  replace (Zpos p + (H - (e + Zpos p))) with (H - e) by lia.
  apply Zdigits2_le_pow; lia.
Qed.

Lemma round_nearest_even_bounds (m : Z) (l : location) :
  m <= round_nearest_even m l <= m + 1.
Proof. destruct l as [|[]]; simpl; try lia. destruct (Z.even m); lia. Qed.

Lemma round_fits (H m e : Z) (l : location) :
  fits H m e -> fits (H + 1) (round_nearest_even m l) e.
Proof.
  intros (Hm & He & Hd). pose proof (round_nearest_even_bounds m l) as Hb.
  split; [lia|]. split; [lia|].
  enough (Zdigits2 (round_nearest_even m l) <= H + 1 - e) by lia.
  apply Zdigits2_le_pow; [lia | lia |].
  assert (m < 2 ^ (H - e)) by (apply Zdigits2_le_pow; lia).
  replace (H + 1 - e) with (H - e + 1) by lia. rewrite Z.pow_add_r by lia. lia.
Qed.

Lemma binary_round_aux_cases (s : bool) (m e : Z) (l : location) :
  0 <= m ->
  match binary_round_aux prec emax s m e l with
  | S754_zero s' => s' = s
  | S754_finite s' _ _ => s' = s
  | S754_infinity s' => s' = s
  | S754_nan => False
  end.
Proof.
  intros Hm. unfold binary_round_aux.
  destruct (shr_fexp prec emax m e l) as [r1 e1] eqn:E1.
  destruct (shr_fexp prec emax (round_nearest_even (shr_m r1) (loc_of_shr_record r1)) e1 loc_Exact)
    as [r2 e2] eqn:E2.
  assert (H1 : 0 <= shr_m r1).
  { replace r1 with (shr_fexp prec emax m e l).1 by now rewrite E1. now apply shr_fexp_nonneg. }
  assert (H2 : 0 <= shr_m r2).
  { replace r2 with (shr_fexp prec emax (round_nearest_even (shr_m r1) (loc_of_shr_record r1)) e1 loc_Exact).1
      by now rewrite E2.
    apply shr_fexp_nonneg. pose proof (round_nearest_even_bounds (shr_m r1) (loc_of_shr_record r1)). lia. }
  destruct (shr_m r2) as [|p|p]; [reflexivity | | lia].
  destruct (e2 <=? emax - prec); reflexivity.
Qed.

Lemma binary_round_aux_fin (s : bool) (H m e : Z) (l : location) :
  fits H m e -> -1074 <= H <= 971 ->
  fin s (H + 1) (binary_round_aux prec emax s m e l).
Proof.
  intros Hf HH. unfold binary_round_aux.
  destruct (shr_fexp prec emax m e l) as [r1 e1] eqn:E1.
  destruct (shr_fexp prec emax (round_nearest_even (shr_m r1) (loc_of_shr_record r1)) e1 loc_Exact)
    as [r2 e2] eqn:E2.
  assert (F1 : fits H (shr_m r1) e1).
  { assert (HL : -1074 <= H) by lia.
    pose proof (shr_fexp_fits H m e l Hf HL) as F. now rewrite E1 in F. }
  assert (F2 : fits (H + 1) (shr_m r2) e2).
  { assert (HL : -1074 <= H + 1) by lia.
    pose proof (shr_fexp_fits (H + 1) _ e1 loc_Exact
                  (round_fits H _ e1 (loc_of_shr_record r1) F1) HL) as F.
    now rewrite E2 in F. }
  destruct F2 as (Hm2 & He2 & Hd2).
  destruct (shr_m r2) as [|p|p]; [reflexivity | | lia].
  simpl in Hd2.
  assert ((e2 <=? emax - prec) = true) as ->.
  { apply Z.leb_le. unfold emax, prec. pose proof (Pos2Z.is_pos (digits2_pos p)). lia. }
  split; [reflexivity | assumption].
Qed.


(** *** Positive results stay positive *)

Lemma Zdigits2_gt_pow (m k : Z) :
  0 <= m -> 0 <= k -> (k < Zdigits2 m <-> 2 ^ k <= m).
Proof. intros Hm Hk. pose proof (Zdigits2_le_pow m k Hm Hk). lia. Qed.

Lemma shr_fexp_large (L m e : Z) (l : location) :
  large L m e -> -1073 <= L ->
  large L (shr_m (shr_fexp prec emax m e l).1) (shr_fexp prec emax m e l).2.
Proof.
  intros (Hm & Hd) HL. unfold shr_fexp, shr.
  destruct (fexp prec emax (Zdigits2 m + e) - e) as [|p|p] eqn:En; simpl;
    rewrite ?shr_record_of_loc_m; try (now split).
  rewrite iter_shr_m by (rewrite shr_record_of_loc_m; lia).
  rewrite shr_record_of_loc_m.
  assert (Hp : Zpos p <= Zdigits2 m - 1).
  { unfold fexp, emin, prec, emax in En. lia. }
  assert (Hlow : 2 ^ (Zdigits2 m - 1) <= m) by (apply Zdigits2_gt_pow; lia).
  rewrite Z.shiftr_div_pow2 by lia.
  assert (Hq : 2 ^ (Zdigits2 m - 1 - Zpos p) <= m / 2 ^ Zpos p).
  { apply Z.div_le_lower_bound; [apply Z.pow_pos_nonneg; lia|].
    rewrite <- Z.pow_add_r by lia.
    now replace (Zpos p + (Zdigits2 m - 1 - Zpos p)) with (Zdigits2 m - 1) by lia. }
  assert (Hpos : 0 < 2 ^ (Zdigits2 m - 1 - Zpos p)) by (apply Z.pow_pos_nonneg; lia).
  split; [lia|].
  enough (Zdigits2 m - 1 - Zpos p < Zdigits2 (m / 2 ^ Zpos p)) by lia.
  apply Zdigits2_gt_pow; lia.
Qed.

Lemma Zdigits2_mono (a b : Z) : 0 <= a <= b -> Zdigits2 a <= Zdigits2 b.
Proof.
  intros Hab. pose proof (Zdigits2_nonneg b) as Hb.
  apply Zdigits2_le_pow; [lia | lia |].
  assert (b < 2 ^ Zdigits2 b) by (apply Zdigits2_le_pow; lia). lia.
Qed.

Lemma round_large (L m e : Z) (l : location) :
  large L m e -> large L (round_nearest_even m l) e.
Proof.
  intros (Hm & Hd). pose proof (round_nearest_even_bounds m l) as Hb.
  split; [lia|].
  pose proof (Zdigits2_mono m (round_nearest_even m l)). lia.
Qed.

Lemma binary_round_aux_nonzero (s : bool) (L m e : Z) (l : location) :
  large L m e -> -1073 <= L ->
  forall s', binary_round_aux prec emax s m e l <> S754_zero s'.
Proof.
  intros Hl HL s'. unfold binary_round_aux.
  destruct (shr_fexp prec emax m e l) as [r1 e1] eqn:E1.
  destruct (shr_fexp prec emax (round_nearest_even (shr_m r1) (loc_of_shr_record r1)) e1 loc_Exact)
    as [r2 e2] eqn:E2.
  assert (F1 : large L (shr_m r1) e1).
  { pose proof (shr_fexp_large L m e l Hl HL) as F. now rewrite E1 in F. }
  assert (F2 : large L (shr_m r2) e2).
  { pose proof (shr_fexp_large L _ e1 loc_Exact
                  (round_large L _ e1 (loc_of_shr_record r1) F1) HL) as F.
    now rewrite E2 in F. }
  destruct F2 as (Hm2 & _).
  destruct (shr_m r2) as [|p|p]; [lia | | lia].
  destruct (e2 <=? emax - prec); discriminate.
Qed.

(** *** Conversion of integers *)

Lemma iter_xO_pow (p d : positive) : Zpos (Pos.iter xO p d) = Zpos p * 2 ^ Zpos d.
Proof.
  induction d as [|d IH] using Pos.peano_ind.
  - simpl. lia.
  - rewrite Pos.iter_succ, Pos2Z.inj_succ, Z.pow_succ_r by lia.
    rewrite Pos2Z.inj_xO, IH. lia.
Qed.

Lemma shl_align_spec (p : positive) (e e' : Z) :
  let '(m, e1) := shl_align p e e' in
  e1 <= e /\ Zpos m = Zpos p * 2 ^ (e - e1).
Proof.
  unfold shl_align. destruct (e' - e) as [|d|d] eqn:Ed.
  - split; [lia|]. rewrite Z.sub_diag. simpl. lia.
  - split; [lia|]. rewrite Z.sub_diag. simpl. lia.
  - split; [lia|]. rewrite iter_xO_pow. f_equal. f_equal. lia.
Qed.

Lemma Zdigits2_mul_pow (m k : Z) :
  0 < m -> 0 <= k -> Zdigits2 (m * 2 ^ k) = Zdigits2 m + k.
Proof.
  intros Hm Hk. pose proof (Zdigits2_nonneg m) as Hd.
  assert (Hp : 0 < 2 ^ k) by (apply Z.pow_pos_nonneg; lia).
  assert (Hlow : 2 ^ (Zdigits2 m - 1) <= m).
  { destruct (Z.eq_dec (Zdigits2 m) 0) as [E|E].
    - rewrite E. simpl. lia.
    - apply Zdigits2_gt_pow; lia. }
  assert (Hup : m < 2 ^ Zdigits2 m) by (apply Zdigits2_le_pow; lia).
  assert (Hd1 : 1 <= Zdigits2 m).
  { destruct m; simpl in *; try lia. }
  apply Z.le_antisymm.
  - apply Zdigits2_le_pow; [nia | lia |]. rewrite Z.pow_add_r by lia. nia.
  - enough (Zdigits2 m + k - 1 < Zdigits2 (m * 2 ^ k)) by lia.
    apply Zdigits2_gt_pow; [nia | lia |].
    replace (Zdigits2 m + k - 1) with (Zdigits2 m - 1 + k) by lia.
    rewrite Z.pow_add_r by lia. nia.
Qed.

(** A positive integer below [2^971] converts to a positive finite
    float. *)
Lemma of_Z_positive (n : Z) :
  0 < n -> n < 2 ^ 971 -> exists m e, of_Z n = S754_finite false m e.
Proof.
  intros Hn Hlt. destruct n as [|p|p]; try lia.
  unfold of_Z, binary_normalize, binary_round.
  pose proof (shl_align_spec p 0 (fexp prec emax (Zpos (digits2_pos p) + 0))) as Hs.
  destruct (shl_align p 0 (fexp prec emax (Zpos (digits2_pos p) + 0))) as [mz ez].
  destruct Hs as (Hez & Hmz).
  assert (Hdig : Zdigits2 (Zpos mz) + ez = Zdigits2 (Zpos p)).
  { rewrite Hmz, Zdigits2_mul_pow by lia. lia. }
  assert (Hd : Zdigits2 (Zpos p) <= 971) by (apply Zdigits2_le_pow; lia).
  assert (Hd1 : 1 <= Zdigits2 (Zpos p)) by (simpl; lia).
  assert (Hfin : fin false (971 + 1) (binary_round_aux prec emax false (Zpos mz) ez loc_Exact)).
  { apply binary_round_aux_fin; [|lia]. repeat split; lia. }
  assert (Hnz : forall s', binary_round_aux prec emax false (Zpos mz) ez loc_Exact <> S754_zero s').
  { apply (binary_round_aux_nonzero false 1); [|lia]. split; lia. }
  destruct (binary_round_aux prec emax false (Zpos mz) ez loc_Exact) as [s'|s'| |s' m e];
    simpl in Hfin; try contradiction.
  - exfalso. now apply (Hnz s').
  - destruct Hfin as [-> _]. now exists m, e.
Qed.


(** *** The operations on non-negative floats *)

Lemma fin_nonneg (H : Z) (x : float) : fin false H x -> nonneg x.
Proof. destruct x; simpl; tauto. Qed.

Lemma binary_round_aux_nonneg (m e : Z) (l : location) :
  0 <= m -> nonneg (binary_round_aux prec emax false m e l).
Proof.
  intros Hm. pose proof (binary_round_aux_cases false m e l Hm) as Hc.
  destruct (binary_round_aux prec emax false m e l); simpl; auto.
Qed.

Lemma add_nonneg (x y : float) : nonneg x -> nonneg y -> nonneg (add x y).
Proof.
  unfold add.
  destruct x as [sx|sx| |sx mx ex], y as [sy|sy| |sy my ey]; simpl;
    try tauto; try (intros -> ->; reflexivity);
    try (destruct sx, sy; simpl; tauto).
  intros -> ->. simpl.
  unfold binary_normalize. cbn [cond_Zopp Z.add]. unfold binary_round.
  match goal with |- context [shl_align ?a ?b ?c] => destruct (shl_align a b c) as [mz ez] end.
  apply binary_round_aux_nonneg. lia.
Qed.

Lemma SFdiv_core_nonneg (m1 m2 : positive) (e1 e2 : Z) :
  0 <= (SFdiv_core_binary prec emax (Zpos m1) e1 (Zpos m2) e2).1.1.
Proof.
  unfold SFdiv_core_binary.
  set (e' := Z.min _ _). set (m' := match e1 - e2 - e' with Z0 => _ | Zpos _ => _ | Zneg _ => _ end).
  assert (Hm' : 0 <= m').
  { subst m'. destruct (e1 - e2 - e'); try lia. apply Z.shiftl_nonneg. lia. }
  assert (Hpos2 : Zpos m2 > 0) by lia.
  pose proof (Z_div_mod m' (Zpos m2) Hpos2) as Hdm.
  destruct (Z.div_eucl m' (Zpos m2)) as [q r]. simpl. nia.
Qed.

Lemma div_nonneg (x : float) (m : positive) (e : Z) :
  nonneg x -> nonneg (div x (S754_finite false m e)).
Proof.
  unfold div. destruct x as [sx|sx| |sx mx ex]; simpl; try tauto.
  - intros ->. reflexivity.
  - intros ->. simpl.
    pose proof (SFdiv_core_nonneg mx m ex e) as Hq.
    destruct (SFdiv_core_binary prec emax (Zpos mx) ex (Zpos m) e) as [[q e'] l].
    simpl in Hq. now apply binary_round_aux_nonneg.
Qed.




(** *** Comparisons *)

Lemma leb_zero_nonneg (x : float) : nonneg x -> leb zero x = true.
Proof. destruct x as [s|s| |s m e]; simpl; try tauto; intros ->; reflexivity. Qed.

Lemma one_eq : one = S754_finite false 4503599627370496 (-52).
Proof. vm_compute. reflexivity. Qed.

Lemma py_min_one_le (x : float) : nonneg x -> leb (py_min x one) one = true.
Proof.
  intros Hx. unfold py_min. rewrite one_eq.
  destruct (ltb (S754_finite false 4503599627370496 (-52)) x) eqn:E; [reflexivity|].
  destruct x as [s|s| |s m e]; simpl in Hx; try tauto; subst; try reflexivity.
  - discriminate E.
  - revert E. unfold ltb, leb, SFltb, SFleb, SFcompare.
    rewrite (Z.compare_antisym e (-52)).
    destruct (e ?= -52) eqn:Ec; unfold CompOpp; try reflexivity; try discriminate.
    assert (Ha : Pos.compare_cont Eq 4503599627370496 m
                 = CompOpp (Pos.compare_cont Eq m 4503599627370496))
      by (symmetry; apply (Pos.compare_cont_antisym m 4503599627370496 Eq)).
    rewrite Ha.
    destruct (Pos.compare_cont Eq m 4503599627370496); unfold CompOpp;
      try reflexivity; discriminate.
Qed.

Lemma py_min_nonneg (x y : float) : nonneg x -> nonneg y -> nonneg (py_min x y).
Proof. intros Hx Hy. unfold py_min. destruct (ltb y x); assumption. Qed.

End FloatFacts.

(** ** Strings *)

Section StringFacts.

Import PyStr.

Lemma append_nil (b : string) : EmptyString +:+ b = b.
Proof. reflexivity. Qed.

Lemma append_cons (c : ascii) (a b : string) :
  String c a +:+ b = String c (a +:+ b).
Proof. reflexivity. Qed.

Lemma append_assoc (a b c : string) : (a +:+ b) +:+ c = a +:+ (b +:+ c).
Proof.
  induction a as [|x a IH]; [reflexivity|].
  rewrite !append_cons. now f_equal.
Qed.

Lemma append_empty_r (a : string) : a +:+ EmptyString = a.
Proof.
  induction a as [|x a IH]; [reflexivity|].
  rewrite append_cons. now f_equal.
Qed.

Lemma length_append (a b : string) :
  String.length (a +:+ b) = (String.length a + String.length b)%nat.
Proof.
  induction a as [|x a IH]; [reflexivity|].
  rewrite append_cons. simpl. now f_equal.
Qed.

Lemma startswith_spec (p s : string) :
  startswith p s = true <-> exists r, s = p +:+ r.
Proof.
  revert s. induction p as [|a p IH]; intros s; simpl.
  - split; [intros _; now exists s | reflexivity].
  - destruct s as [|b s].
    + split; [discriminate | intros [r Hr]; discriminate].
    + destruct (Ascii.eqb_spec a b) as [->|Hne].
      * rewrite IH. split; intros [r Hr]; exists r.
        -- rewrite append_cons. now f_equal.
        -- rewrite append_cons in Hr. now inversion Hr.
      * split; [discriminate|].
        intros [r Hr]. rewrite append_cons in Hr. inversion Hr. congruence.
Qed.

Lemma startswith_append (p r : string) : startswith p (p +:+ r) = true.
Proof. apply startswith_spec. now exists r. Qed.

Lemma contains_unfold (n : string) (c : ascii) (h : string) :
  contains n (String c h) = startswith n (String c h) || contains n h.
Proof. reflexivity. Qed.

Lemma contains_cons (n : string) (c : ascii) (h : string) :
  contains n h = true -> contains n (String c h) = true.
Proof. intros H. rewrite contains_unfold, H. apply orb_true_r. Qed.

Lemma contains_append_r (n a h : string) :
  contains n h = true -> contains n (a +:+ h) = true.
Proof.
  intros H. induction a as [|c a IH]; [exact H|].
  rewrite append_cons. now apply contains_cons.
Qed.

Lemma contains_startswith (n h : string) :
  startswith n h = true -> contains n h = true.
Proof. intros H. destruct h; simpl; rewrite H; reflexivity. Qed.

(** [needle in hay] holds exactly when [hay] is some text, the needle,
    and some more text. *)
Lemma contains_spec (n h : string) :
  contains n h = true <-> exists a b, h = a +:+ n +:+ b.
Proof.
  split.
  - induction h as [|c h IH].
    + simpl. rewrite orb_false_r. intros H. apply startswith_spec in H as [r Hr].
      exists EmptyString, r. exact Hr.
    + rewrite contains_unfold. intros H. apply orb_true_iff in H as [H|H].
      * apply startswith_spec in H as [r Hr]. exists EmptyString, r. exact Hr.
      * destruct (IH H) as (a & b & Hab). exists (String c a), b.
        rewrite append_cons. now f_equal.
  - intros (a & b & ->). apply contains_append_r, contains_startswith, startswith_append.
Qed.

Lemma contains_middle (n a b : string) : contains n (a +:+ n +:+ b) = true.
Proof. apply contains_spec. now exists a, b. Qed.

Lemma lower_append (a b : string) : lower (a +:+ b) = lower a +:+ lower b.
Proof.
  induction a as [|c a IH]; [reflexivity|].
  rewrite append_cons. simpl. rewrite append_cons. now f_equal.
Qed.

Lemma lower_split (t x y : string) :
  lower t = x +:+ y ->
  exists t1 t2, t = t1 +:+ t2 /\ lower t1 = x /\ lower t2 = y.
Proof.
  revert t. induction x as [|c x IH]; intros t H.
  - exists EmptyString, t. auto.
  - destruct t as [|d t]; [discriminate|].
    rewrite append_cons in H. simpl in H.
    inversion H as [[Hc Ht]]. destruct (IH t Ht) as (t1 & t2 & -> & H1 & H2).
    exists (String d t1), t2. simpl. rewrite H1. auto.
Qed.

(** Case-insensitive containment: some spelling of the word, in any
    letter case, occurs in the text. *)
Lemma contains_lower_spec (word t : string) :
  contains word (lower t) = true <->
  exists a p b, t = a +:+ p +:+ b /\ lower p = word.
Proof.
  rewrite contains_spec. split.
  - intros (x & y & H). apply lower_split in H as (a & r & -> & Ha & H).
    apply lower_split in H as (p & b & -> & Hp & Hb). now exists a, p, b.
  - intros (a & p & b & -> & Hp). exists (lower a), (lower b).
    now rewrite !lower_append, Hp.
Qed.

End StringFacts.

(** ** The fallback content provider *)

Section FallbackContentFacts.

Import PyStr FallbackContentSystem Spec.

Lemma lesson_is_not_stub (topic topic' subject : string) :
  python_lesson topic <> generic_stub topic' subject.
Proof. intros H. apply (f_equal key_concepts) in H. discriminate H. Qed.

Lemma stub_content (topic subject : string) :
  content (generic_stub topic subject)
  = "# " +:+ topic +:+ newline +:+ newline
    +:+ "This is fallback content for " +:+ topic +:+ " in " +:+ subject
    +:+ ". The AI content generation is currently unavailable due to API rate limits.".
Proof. reflexivity. Qed.

Lemma stub_names_topic (topic subject : string) :
  contains topic (content (generic_stub topic subject)) = true.
Proof. rewrite stub_content. apply contains_middle. Qed.

Lemma stub_names_subject (topic subject : string) :
  contains subject (content (generic_stub topic subject)) = true.
Proof.
  rewrite stub_content. do 7 (apply contains_append_r).
  apply contains_startswith, startswith_append.
Qed.

Lemma lower_char_letter (c : ascii) :
  (lower_char c = "p"%char <-> letter "p" "P" c) /\
  (lower_char c = "y"%char <-> letter "y" "Y" c) /\
  (lower_char c = "t"%char <-> letter "t" "T" c) /\
  (lower_char c = "h"%char <-> letter "h" "H" c) /\
  (lower_char c = "o"%char <-> letter "o" "O" c) /\
  (lower_char c = "n"%char <-> letter "n" "N" c).
Proof.
  unfold letter.
  destruct c as [[] [] [] [] [] [] [] []]; vm_compute; intuition discriminate.
Qed.

(** Lowering a text gives "python" exactly when the text spells the
    word, each letter in either case. *)
Lemma lower_spells_python (p : string) : lower p = "python" <-> spells_python p.
Proof.
  split.
  - destruct p as [|c1 [|c2 [|c3 [|c4 [|c5 [|c6 [|c7 p]]]]]]]; cbn [lower];
      intros H; try discriminate H.
    injection H as H1 H2 H3 H4 H5 H6.
    exists c1, c2, c3, c4, c5, c6. split; [reflexivity|].
    repeat split.
    + now apply (proj1 (lower_char_letter c1)).
    + now apply (proj1 (proj2 (lower_char_letter c2))).
    + now apply (proj1 (proj2 (proj2 (lower_char_letter c3)))).
    + now apply (proj1 (proj2 (proj2 (proj2 (lower_char_letter c4))))).
    + now apply (proj1 (proj2 (proj2 (proj2 (proj2 (lower_char_letter c5)))))).
    + now apply (proj2 (proj2 (proj2 (proj2 (proj2 (lower_char_letter c6)))))).
  - intros (c1 & c2 & c3 & c4 & c5 & c6 & -> & H1 & H2 & H3 & H4 & H5 & H6).
    apply (proj1 (lower_char_letter c1)) in H1.
    apply (proj1 (proj2 (lower_char_letter c2))) in H2.
    apply (proj1 (proj2 (proj2 (lower_char_letter c3)))) in H3.
    apply (proj1 (proj2 (proj2 (proj2 (lower_char_letter c4))))) in H4.
    apply (proj1 (proj2 (proj2 (proj2 (proj2 (lower_char_letter c5)))))) in H5.
    apply (proj2 (proj2 (proj2 (proj2 (proj2 (lower_char_letter c6)))))) in H6.
    cbn [lower]. rewrite H1, H2, H3, H4, H5, H6. reflexivity.
Qed.

Lemma contains_python_spec (topic : string) :
  contains "python" (lower topic) = true <-> mentions_python topic.
Proof.
  rewrite contains_lower_spec. unfold mentions_python.
  split; intros (a & p & b & Ht & Hp); exists a, p, b; split; try exact Ht;
    now apply lower_spells_python.
Qed.

Lemma lesson_content (t : string) :
  content (python_lesson t) = "# " +:+ t +:+ newline +:+ join newline python_lesson_lines.
Proof.
  change (content (python_lesson t))
    with (("# " +:+ t) +:+ newline +:+ join newline python_lesson_lines).
  apply append_assoc.
Qed.

(** C3.  The fallback content provider returns the Python lesson exactly
    when the topic contains the word python, each of its six letters
    small or capital; for every other topic it returns the templated
    stub.  The lesson is the heading line with the topic followed by a
    fixed text of 1709 characters under the headings listed, with six
    fixed key concepts, five learning objectives, three flashcards and a
    summary.  The stub is the template filled with the topic and the
    subject, which its content text contains verbatim.  So a topic
    written "PyThOn" gets the lesson, and the topic "World History" in
    the subject "Arts" gets the stub. *)
Theorem fallback_content_dispatch (topic difficulty subject content_type : string) :
  let r := get_python_content topic difficulty subject content_type in
  let concepts :=
    [ "Variables and Data Types"; "Basic Syntax and Comments";
      "Control Structures (if/else, loops)"; "Functions and Parameters";
      "String Formatting"; "Lists and Collections" ] in
  let objectives :=
    [ "Understand Python syntax and structure";
      "Create and use variables of different types";
      "Write basic control structures and loops";
      "Define and call functions";
      "Apply Python concepts to solve problems" ] in
  let cards :=
    [ ("Variable", "A container for storing data in Python");
      ("Function", "A reusable block of code that performs a specific task");
      ("Loop", "A control structure that repeats code multiple times") ] in
  let summary :=
    "Python basics including variables, data types, control structures, and functions." in
  let unavailable :=
    ". The AI content generation is currently unavailable due to API rate limits." in
  (r = python_lesson topic <-> mentions_python topic) /\
  (r = generic_stub topic subject <-> ~ mentions_python topic) /\
  (exists body,
     (forall t, content (python_lesson t) = "# " +:+ t +:+ newline +:+ body) /\
     String.length body = 1709%nat /\
     List.filter (startswith "##") (split nl body)
     = [ "## Introduction"; "## Key Concepts";
         "### 1. **Variables and Data Types**"; "### 2. **Basic Syntax**";
         "### 3. **Control Structures**"; "### 4. **Functions**";
         "## Real-World Applications"; "## Study Tips"; "## Summary" ] /\
     contains "build small projects to reinforce your learning." body = true) /\
  key_concepts (python_lesson topic) = concepts /\
  learning_objectives (python_lesson topic) = objectives /\
  study_materials (python_lesson topic)
    = <["flashcards" := Flashcards cards]> (<["summary" := Summary summary]> ∅) /\
  generic_stub topic subject
    = {| content := "# " +:+ topic +:+ newline +:+ newline
                    +:+ "This is fallback content for " +:+ topic +:+ " in " +:+ subject
                    +:+ unavailable;
         key_concepts := [ "Basic concepts"; "Fundamental principles" ];
         learning_objectives := [ "Understand " +:+ topic; "Apply basic knowledge" ];
         study_materials := ∅ |} /\
  contains topic (content (generic_stub topic subject)) = true /\
  contains subject (content (generic_stub topic subject)) = true /\
  key_concepts (get_python_content "Intro to PyThOn 3" difficulty subject content_type)
    = concepts /\
  startswith ("# Intro to PyThOn 3" +:+ newline +:+ newline +:+ "## Introduction")
    (content (get_python_content "Intro to PyThOn 3" difficulty subject content_type))
    = true /\
  content (get_python_content "World History" difficulty "Arts" content_type)
    = "# World History" +:+ newline +:+ newline
      +:+ "This is fallback content for World History in Arts" +:+ unavailable.
Proof.
  intros r concepts objectives cards summary unavailable.
  subst r concepts objectives cards summary unavailable.
  rewrite <- contains_python_spec. unfold get_python_content.
  assert (Hbody : exists body,
     (forall t, content (python_lesson t) = "# " +:+ t +:+ newline +:+ body) /\
     String.length body = 1709%nat /\
     List.filter (startswith "##") (split nl body)
     = [ "## Introduction"; "## Key Concepts";
         "### 1. **Variables and Data Types**"; "### 2. **Basic Syntax**";
         "### 3. **Control Structures**"; "### 4. **Functions**";
         "## Real-World Applications"; "## Study Tips"; "## Summary" ] /\
     contains "build small projects to reinforce your learning." body = true).
  { exists (join newline python_lesson_lines).
    split; [exact lesson_content|]. repeat split; vm_compute; reflexivity. }
  split; [|split; [|split; [exact Hbody|]]].
  - destruct (contains "python" (lower topic)) eqn:E.
    + tauto.
    + split; [|discriminate].
      intros H. symmetry in H. exfalso. exact (lesson_is_not_stub _ _ _ H).
  - destruct (contains "python" (lower topic)) eqn:E.
    + split.
      * intros H. exfalso. exact (lesson_is_not_stub _ _ _ H).
      * intros H. now exfalso.
    + split; [discriminate | reflexivity].
  - do 4 (split; [reflexivity|]).
    split; [apply stub_names_topic|]. split; [apply stub_names_subject|].
    repeat split; vm_compute; reflexivity.
Qed.

(** C10.  The output of the fallback content provider does not depend
    on its difficulty and content-type arguments: for every topic and
    subject, any two choices of them give identical results. *)
Theorem fallback_content_ignores_difficulty_and_type
    (topic subject difficulty1 content_type1 difficulty2 content_type2 : string) :
  get_python_content topic difficulty1 subject content_type1
  = get_python_content topic difficulty2 subject content_type2.
Proof. reflexivity. Qed.

End FallbackContentFacts.

(** ** Diagram suggestions *)

Section DiagramFacts.

Import PyStr ContentGeneratorAgent Spec.

Lemma any_word_in_spec (words : list string) (topic : string) :
  any_word_in words topic = existsb (fun word => contains word (lower topic)) words.
Proof. induction words as [|w ws IH]; simpl; [reflexivity | now rewrite IH]. Qed.

Lemma diagram_candidates_table {E} (topic : string) (entities : list E) :
  diagram_candidates topic entities
  = decision_table topic entities ++ ["Summary Infographic"].
Proof.
  unfold diagram_candidates, decision_table. rewrite !any_word_in_spec.
  replace (5 <? Z.of_nat (length entities)) with (5 <? length entities)%nat.
  2:{ destruct (Nat.ltb_spec 5 (length entities)); symmetry;
      [apply Z.ltb_lt | apply Z.ltb_ge]; lia. }
  repeat match goal with |- context [if ?b then _ else _] => destruct b end;
    reflexivity.
Qed.

(** C5.  [_suggest_diagrams] returns at most three suggestions: the first
    three of the candidates given by the keyword decision table followed
    by "Summary Infographic", which is always the last candidate before
    truncation; for the topic "Mitosis process" with more than five
    entities the candidates are Process Flow Diagram, Mind Map, Concept
    Map, Summary Infographic and the result is the first three. *)
Theorem suggest_diagrams_spec {E} (topic : string) (entities : list E) :
  _suggest_diagrams topic entities = take 3 (diagram_candidates topic entities) /\
  (length (_suggest_diagrams topic entities) <= 3)%nat /\
  diagram_candidates topic entities
    = decision_table topic entities ++ ["Summary Infographic"] /\
  last (diagram_candidates topic entities) = Some "Summary Infographic" /\
  ((5 < length entities)%nat ->
     diagram_candidates "Mitosis process" entities
       = ["Process Flow Diagram"; "Mind Map"; "Concept Map"; "Summary Infographic"] /\
     _suggest_diagrams "Mitosis process" entities
       = ["Process Flow Diagram"; "Mind Map"; "Concept Map"]).
Proof.
  split; [reflexivity|]. split.
  { unfold _suggest_diagrams. rewrite length_take. lia. }
  split; [apply diagram_candidates_table|]. split.
  { rewrite diagram_candidates_table. apply last_snoc. }
  intros Hlen. unfold _suggest_diagrams. rewrite !diagram_candidates_table.
  unfold decision_table.
  apply Nat.ltb_lt in Hlen. rewrite Hlen. split; reflexivity.
Qed.

Lemma suggest_diagrams_mitosis :
  (5 < length [1; 2; 3; 4; 5; 6])%nat /\
  _suggest_diagrams "Mitosis process" [1; 2; 3; 4; 5; 6]
    = ["Process Flow Diagram"; "Mind Map"; "Concept Map"].
Proof.
  split; [simpl; lia|].
  apply (suggest_diagrams_spec "Mitosis process" [1; 2; 3; 4; 5; 6]).
  simpl; lia.
Defined.

End DiagramFacts.

(** ** Quiz evaluation: the fallback feedback system *)

Section QuizFacts.

Import PyStr Api Spec Float64 FloatRange.






(** C9.  Evaluating a submission with an empty questions list through the
    fallback system returns score 0: the division of the score
    computation, which would fail on 0 / 0, sits behind the test
    [total_questions > 0]. *)
Theorem empty_quiz_scores_zero
    (feedback_agent : option (QuizSubmission -> result FeedbackResponse))
    (answers : list dict) (topic : string) :
  let sub := {| questions := []; answers := answers; topic := topic |} in
  uses_fallback feedback_agent sub ->
  exists r, evaluate_quiz feedback_agent sub = Response r /\
            fallback_feedback sub = Ok r /\
            score r = 0 /\
            compute_score 0 0 = Ok 0 /\
            int_truediv 0 0 = Raise ZeroDivisionError.
Proof.
  intros sub Hfb. eexists. split; [|split; [reflexivity|repeat split]].
  unfold evaluate_quiz. destruct feedback_agent as [agent|]; [|reflexivity].
  destruct Hfb as [e He]. rewrite He. reflexivity.
Qed.

Lemma empty_quiz_scores_zero_example :
  uses_fallback None {| questions := []; answers := []; topic := "loops" |} /\
  exists r, evaluate_quiz None {| questions := []; answers := []; topic := "loops" |}
            = Response r /\ score r = 0.
Proof.
  split; [exact I|].
  destruct (empty_quiz_scores_zero None [] "loops" I) as (r & H1 & _ & H2 & _).
  exists r. split; assumption.
Defined.

Lemma count_correct_short (answers qs : list dict) (i : nat) (acc : Z) :
  (i <= length answers)%nat -> (length answers < i + length qs)%nat ->
  exists e, count_correct qs answers i acc = Raise e.
Proof.
  revert i acc. induction qs as [|q rest IH]; intros i acc Hi Hlen.
  - simpl in Hlen. lia.
  - simpl count_correct. unfold list_index at 1.
    destruct (answers !! i) as [a|] eqn:Hla.
    + simpl rbind.
      destruct (answer_matches _ _) as [b|e]; simpl rbind; [|now exists e].
      apply IH.
      * apply lookup_lt_Some in Hla. lia.
      * simpl in Hlen. lia.
    + exists IndexError. reflexivity.
Qed.

(** C8.  What the code does with a submission whose answers list is
    shorter than its questions list, evaluated by the fallback system: the
    loop raises (at the latest when it indexes past the end of the
    answers), the outer handler turns the exception into an
    [HTTPException] with status 500, and no response body is returned. *)
Theorem short_answers_give_500
    (feedback_agent : option (QuizSubmission -> result FeedbackResponse))
    (sub : QuizSubmission) :
  uses_fallback feedback_agent sub ->
  (length (answers sub) < length (questions sub))%nat ->
  exists detail, evaluate_quiz feedback_agent sub = HTTPException 500 detail.
Proof.
  intros Hfb Hlen.
  destruct (count_correct_short (answers sub) (questions sub) 0 0) as [e He]; [lia | lia |].
  exists ("Failed to evaluate quiz: " +:+ exn_str e).
  unfold evaluate_quiz, fallback_feedback. rewrite He. simpl rbind.
  destruct feedback_agent as [agent|]; [|reflexivity].
  destruct Hfb as [e' He']. rewrite He'. reflexivity.
Qed.

Lemma short_answers_give_500_example :
  let sub := {| questions := [ {[ "correctAnswer" := VStr "O(1)" ]} ];
                answers := []; topic := "complexity" |} in
  uses_fallback None sub /\
  (length (answers sub) < length (questions sub))%nat /\
  evaluate_quiz None sub
  = HTTPException 500 "Failed to evaluate quiz: list index out of range".
Proof.
  intros sub. split; [exact I|]. split; [simpl; lia|].
  destruct (short_answers_give_500 None sub I) as [detail Hd]; [simpl; lia|].
  reflexivity.
Defined.







End QuizFacts.

(** ** Source quality *)

Section QualityFacts.

Import PyStr ContentGeneratorAgent Spec Float64 FloatRange.

Lemma count_indicators_spec (indicators : list string) (text : string) (score : Z) :
  count_indicators indicators text score
  = score + Z.of_nat (length (List.filter (fun k => contains k text) indicators)).
Proof.
  revert score. induction indicators as [|k ks IH]; intros score; simpl.
  - lia.
  - rewrite IH. destruct (contains k text); simpl length; lia.
Qed.

Lemma keyword_hits_range (s : source) : 0 <= keyword_hits s <= 5.
Proof.
  unfold keyword_hits.
  pose proof (List.filter_length_le (fun k => contains k (lower (snippet_text s)))
                trust_keywords) as H.
  simpl length in H at 2. lia.
Qed.

Lemma fifths (h : Z) :
  0 <= h <= 5 ->
  int_truediv h 5 = Ok (div (raw h) (raw 5)) /\ nonneg (div (raw h) (raw 5)).
Proof.
  intros Hh.
  assert (Hc : h = 0 \/ h = 1 \/ h = 2 \/ h = 3 \/ h = 4 \/ h = 5) by lia.
  destruct Hc as [->|[->|[->|[->|[->| ->]]]]]; vm_compute; split; reflexivity.
Qed.

Lemma quality_loop_cons (s : source) (rest : list source) (total_score : float) :
  quality_loop (s :: rest) total_score
  = rbind (int_truediv
             (count_indicators quality_indicators
                (lower (get_or_empty (title s) +:+ " " +:+ get_or_empty (content s))) 0)
             (Z.of_nat (length quality_indicators)))
          (fun q => quality_loop rest (add total_score q)).
Proof. reflexivity. Qed.

Lemma quality_loop_spec (sources : list source) (total_score : float) :
  quality_loop sources total_score
  = Ok (fold_left add (List.map snippet_score sources) total_score).
Proof.
  revert total_score. induction sources as [|s rest IH]; intros total_score.
  - reflexivity.
  - rewrite quality_loop_cons, count_indicators_spec, Z.add_0_l.
    change (Z.of_nat (length (List.filter _ quality_indicators)))
      with (keyword_hits s).
    change (Z.of_nat (length quality_indicators)) with 5.
    destruct (fifths (keyword_hits s) (keyword_hits_range s)) as [-> _].
    simpl rbind. rewrite IH. reflexivity.
Qed.

Lemma fold_add_nonneg (l : list float) (acc : float) :
  nonneg acc -> Forall nonneg l -> nonneg (fold_left add l acc).
Proof.
  revert acc. induction l as [|x l IH]; intros acc Hacc Hl; [exact Hacc|].
  inversion Hl; subst. simpl. apply IH; [now apply add_nonneg | assumption].
Qed.

Lemma average_score_nonneg (sources : list source) :
  sources <> [] -> Z.of_nat (length sources) < 2 ^ 63 ->
  nonneg (average_score sources).
Proof.
  intros Hne Hlen. unfold average_score.
  assert (Hpos : 0 < Z.of_nat (length sources)).
  { destruct sources; [congruence | simpl; lia]. }
  assert (Hbig : Z.of_nat (length sources) < 2 ^ 971).
  { eapply Z.lt_trans; [exact Hlen|]. apply Z.pow_lt_mono_r; lia. }
  destruct (of_Z_positive _ Hpos Hbig) as (m & e & ->).
  apply div_nonneg. apply fold_add_nonneg; [exact I|].
  apply Forall_forall. intros x Hx. apply list_elem_of_In, in_map_iff in Hx as (s & <- & _).
  apply (fifths _ (keyword_hits_range s)).
Qed.

(** C2.  For every list of retrieved snippets (of a length below 2^63, as
    every Python list), [_assess_source_quality] returns a score between
    0.0 and 1.0: the average over the snippets of the number of the five
    trust keywords that occur, case-insensitively, in the title and the
    content (joined by a space), divided by 5, clamped to at most 1; for
    no snippets the score is exactly 0.0.  Sums, quotients and
    comparisons are those of binary64 arithmetic. *)
Theorem source_quality_spec (sources : list source) :
  Z.of_nat (length sources) < 2 ^ 63 ->
  _assess_source_quality sources = Ok (quality_score sources) /\
  leb zero (quality_score sources) = true /\
  leb (quality_score sources) one = true /\
  _assess_source_quality [] = Ok zero.
Proof.
  intros Hlen. destruct sources as [|s rest].
  - repeat split; reflexivity.
  - assert (Hne : s :: rest <> []) by discriminate.
    pose proof (average_score_nonneg (s :: rest) Hne Hlen) as Havg.
    split; [|split; [|split; [|reflexivity]]].
    + unfold _assess_source_quality. rewrite quality_loop_spec. simpl rbind.
      reflexivity.
    + apply leb_zero_nonneg. unfold quality_score, clamp_to_one.
      apply (py_min_nonneg _ one); [exact Havg | reflexivity].
    + unfold quality_score, clamp_to_one. now apply py_min_one_le.
Qed.

Lemma source_quality_example :
  let sources := [ {| title := Some "Academic Textbook of Biology";
                      content := Some "A peer-reviewed university course." |};
                   {| title := Some "Blog"; content := None |} ] in
  Z.of_nat (length sources) < 2 ^ 63 /\
  _assess_source_quality sources = Ok (div (of_Z 2) (of_Z 5)).
Proof.
  intros sources. split; [vm_compute; reflexivity|].
  destruct (source_quality_spec sources) as (H & _); [vm_compute; reflexivity|].
  rewrite H. vm_compute. reflexivity.
Defined.

End QualityFacts.

(** ** Study notes *)

Section BulletNoteFacts.

Import PyStr ContentGeneratorAgent Spec.

Variable bullet : string.




(** *** Lines and line breaks *)

Lemma has_newline_cons (c : ascii) (s : string) :
  contains newline (String c s) = Ascii.eqb nl c || contains newline s.
Proof.
  rewrite contains_unfold. f_equal.
  change (startswith newline (String c s))
    with (if Ascii.eqb nl c then startswith EmptyString s else false).
  destruct (Ascii.eqb nl c); reflexivity.
Qed.











End BulletNoteFacts.



(** ** The persistence service: failures stay inside *)

Section ContainmentFacts.

Import Mongo Driver Models MongoDBService PersistenceSpec.

Lemma quiet_ret {A} (a : A) : quiet (ret a).
Proof. intros w. now exists 0%nat. Qed.

Lemma quiet_lift {A} (r : result A) : quiet (lift r).
Proof. intros w. unfold lift. destruct r; [now exists 0%nat | exact I]. Qed.

Lemma quiet_utcnow : quiet utcnow.
Proof. intros w. now exists 0%nat. Qed.

Lemma quiet_print (line : string) : quiet (print line).
Proof. intros w. now exists 0%nat. Qed.

Lemma quiet_bind {A B} (m : M A) (f : A -> M B) :
  quiet m -> (forall a, quiet (f a)) -> quiet (bind m f).
Proof.
  intros Hm Hf w. unfold bind. specialize (Hm w).
  destruct (m w) as [[a|e] w1]; [|exact I].
  specialize (Hf a w1). destruct (f a w1) as [[b|e] w2]; [|exact I].
  destruct Hm as [k1 ->], Hf as [k2 ->]. exists (k1 + k2)%nat.
  now rewrite replicate_add, app_assoc.
Qed.

Lemma quiet_driver_call {A} (body : M A) :
  (forall w, faults (body w).2 = faults w) -> quiet (driver_call body).
Proof.
  intros Hb w. unfold driver_call. destruct (faults w) as [|[] fs] eqn:Ef.
  - specialize (Hb w). destruct (body w) as [[a|e] w1]; [|exact I].
    exists 0%nat. simpl in *. congruence.
  - exact I.
  - specialize (Hb (set_faults fs w)). destruct (body (set_faults fs w)) as [[a|e] w1]; [|exact I].
    exists 1%nat. simpl in *. now rewrite Hb.
Qed.

Lemma quiet_find name filter sort limit : quiet (find name filter sort limit).
Proof. now apply quiet_driver_call. Qed.

Lemma quiet_find_one name filter : quiet (find_one name filter).
Proof. now apply quiet_driver_call. Qed.

Lemma quiet_insert_one name doc : quiet (insert_one name doc).
Proof. now apply quiet_driver_call. Qed.

Lemma quiet_update_one name filter update : quiet (update_one name filter update).
Proof.
  apply quiet_driver_call. intros w.
  destruct (select w name filter) as [|[o d] rest]; [reflexivity|].
  destruct (apply_update update d); reflexivity.
Qed.

Lemma quiet_delete_many name filter : quiet (delete_many name filter).
Proof. now apply quiet_driver_call. Qed.

Lemma quiet_aggregate name pipeline : quiet (aggregate name pipeline).
Proof. now apply quiet_driver_call. Qed.

Lemma quiet_create_index name keys : quiet (create_index name keys).
Proof. now apply quiet_driver_call. Qed.

Ltac quiet_step :=
  first
    [ apply quiet_ret | apply quiet_lift | apply quiet_utcnow | apply quiet_print
    | apply quiet_find | apply quiet_find_one | apply quiet_insert_one
    | apply quiet_update_one | apply quiet_delete_many | apply quiet_aggregate
    | apply quiet_create_index
    | apply quiet_bind; [|intros ?]
    | match goal with
      | |- quiet (match ?x with _ => _ end) => destruct x
      | |- quiet (if ?b then _ else _) => destruct b
      end ].

Ltac quiet_tac := repeat quiet_step.

Lemma quiet_lower_v (v : value) : quiet (lower_v v).
Proof. apply quiet_lift. Qed.

Lemma quiet_create_content kw : quiet (ContentModel.create_content kw).
Proof. unfold ContentModel.create_content, lower_v. quiet_tac. Qed.

Lemma quiet_create_progress kw : quiet (UserProgressModel.create_progress kw).
Proof. unfold UserProgressModel.create_progress, lower_v. quiet_tac. Qed.

Lemma quiet_create_question kw : quiet (QuestionModel.create_question kw).
Proof. unfold QuestionModel.create_question, lower_v. quiet_tac. Qed.

Lemma quiet_create_user kw : quiet (UserModel.create_user kw).
Proof. unfold UserModel.create_user. quiet_tac. Qed.

Lemma quiet_create_session kw : quiet (StudySessionModel.create_session kw).
Proof. unfold StudySessionModel.create_session, lower_v. quiet_tac. Qed.

Lemma quiet_end_session sid score duration :
  quiet (StudySessionModel.end_session sid score duration).
Proof. unfold StudySessionModel.end_session. quiet_tac. Qed.

Lemma loud_driver_call {A} (body : M A) : loud (driver_call body).
Proof. intros w fs Hf. unfold driver_call. rewrite Hf. eauto. Qed.

Lemma loud_bind {A B} (m : M A) (f : A -> M B) : loud m -> loud (bind m f).
Proof.
  intros Hm w fs Hf. destruct (Hm w fs Hf) as (e & w' & Hr).
  exists e, w'. unfold bind. now rewrite Hr.
Qed.

Lemma loud_after {A B} (m : M A) (f : A -> M B) :
  inert m -> (forall a, loud (f a)) -> loud (bind m f).
Proof.
  intros Hm Hf w fs Hfs. unfold bind. specialize (Hm w).
  destruct (m w) as [[a|e] w1]; [|eauto].
  apply (Hf a w1 fs). simpl in Hm. congruence.
Qed.

Lemma inert_lift {A} (r : result A) : inert (lift r).
Proof. intros w. reflexivity. Qed.

Lemma inert_utcnow : inert utcnow.
Proof. intros w. reflexivity. Qed.

Lemma inert_ret {A} (a : A) : inert (ret a).
Proof. intros w. reflexivity. Qed.

Lemma inert_bind {A B} (m : M A) (f : A -> M B) :
  inert m -> (forall a, inert (f a)) -> inert (bind m f).
Proof.
  intros Hm Hf w. unfold bind. specialize (Hm w).
  destruct (m w) as [[a|e] w1]; simpl in *; [|exact Hm].
  rewrite <- Hm. apply Hf.
Qed.

Ltac inert_tac :=
  repeat first
    [ apply inert_lift | apply inert_utcnow | apply inert_ret
    | apply inert_bind; [|intros ?] ].

Lemma inert_create_content kw : inert (ContentModel.create_content kw).
Proof. unfold ContentModel.create_content, lower_v. inert_tac. Qed.

Lemma inert_create_progress kw : inert (UserProgressModel.create_progress kw).
Proof. unfold UserProgressModel.create_progress, lower_v. inert_tac. Qed.

Lemma inert_create_question kw : inert (QuestionModel.create_question kw).
Proof. unfold QuestionModel.create_question, lower_v. inert_tac. Qed.

Lemma inert_create_user kw : inert (UserModel.create_user kw).
Proof. unfold UserModel.create_user. inert_tac. Qed.

Lemma inert_create_session kw : inert (StudySessionModel.create_session kw).
Proof. unfold StudySessionModel.create_session, lower_v. inert_tac. Qed.

Lemma inert_end_session sid score duration :
  inert (StudySessionModel.end_session sid score duration).
Proof. unfold StudySessionModel.end_session. inert_tac. Qed.

Ltac loud_step :=
  first
    [ apply loud_driver_call
    | apply loud_bind; apply loud_driver_call
    | apply loud_after;
      [ first [ apply inert_lift | apply inert_utcnow | apply inert_ret
              | apply inert_create_content | apply inert_create_progress
              | apply inert_create_question | apply inert_create_user
              | apply inert_create_session | apply inert_end_session ]
      | intros ? ] ].

(** With a failing store, a method of that shape returns [s]. *)
Lemma try_except_loud (body : M retval) (message : string) (s : retval)
    (w : world) (fs : list bool) :
  loud body -> faults w = true :: fs ->
  (try_except body (on_error message s) w).1 = Ok s.
Proof.
  intros Hl Hf. destruct (Hl w fs Hf) as (e & w' & Hr).
  unfold try_except. now rewrite Hr.
Qed.

Lemma not_in_replicate_false (k : nat) : ~ In true (replicate k false).
Proof. induction k as [|k IH]; simpl; [tauto | intros [H|H]; [discriminate | tauto]]. Qed.

(** A method of the shape [try: body except Exception: print; return s]
    returns, and returns [s] whenever a driver call of the body raised. *)
Lemma try_except_contains (body : M retval) (message : string) (s : retval) (w : world) :
  quiet body ->
  let r := try_except body (on_error message s) w in
  (exists v, r.1 = Ok v) /\
  (forall used, faults w = used ++ faults r.2 -> In true used -> r.1 = Ok s).
Proof.
  intros Hq. unfold try_except. specialize (Hq w).
  destruct (body w) as [[a|e] w1]; simpl.
  - split; [now exists a|]. intros used Hused Hin. exfalso.
    destruct Hq as [k Hk]. rewrite Hk in Hused. apply app_inv_tail in Hused.
    subst used. exact (not_in_replicate_false k Hin).
  - split; [now exists s|]. reflexivity.
Qed.

Lemma failing_store_gives_sentinel (c : call) (w : world) (fs : list bool) :
  faults w = true :: fs -> (run c w).1 = Ok (sentinel c).
Proof.
  intros Hf.
  destruct c; simpl run; simpl sentinel;
    match goal with
    | |- context [?op ?a ?b ?c ?d w] => unfold op
    | |- context [?op ?a ?b ?c w] => unfold op
    | |- context [?op ?a ?b w] => unfold op
    | |- context [?op ?a w] => unfold op
    | |- context [?op w] => unfold op
    end;
    (apply (try_except_loud _ _ _ w fs); [repeat loud_step | exact Hf]).
Qed.

(** C7.  No operation of the persistence service lets an exception pass:
    every method returns a value; with a failing document store, and
    whenever a call to the store raised during the operation, that value
    is the failure sentinel, [None] for insert, lookup and update
    operations and the empty list for query operations. *)
Theorem persistence_failures_contained (c : call) (w : world) :
  (exists v, (run c w).1 = Ok v) /\
  (forall fs, faults w = true :: fs -> (run c w).1 = Ok (sentinel c)) /\
  (forall used,
     faults w = used ++ faults (run c w).2 -> In true used ->
     (run c w).1 = Ok (sentinel c)) /\
  sentinel c = match kind c with Query => RList [] | _ => RNone end.
Proof.
  assert (Hs : sentinel c = match kind c with Query => RList [] | _ => RNone end)
    by (destruct c; reflexivity).
  enough (H : (exists v, (run c w).1 = Ok v) /\
              (forall used,
                 faults w = used ++ faults (run c w).2 -> In true used ->
                 (run c w).1 = Ok (sentinel c)))
    by (destruct H as [H1 H2]; repeat split;
        [exact H1 | apply failing_store_gives_sentinel | exact H2 | exact Hs]).
  clear Hs.
  destruct c; simpl run; simpl sentinel;
    match goal with
    | |- context [?op ?a ?b ?c ?d w] => unfold op
    | |- context [?op ?a ?b ?c w] => unfold op
    | |- context [?op ?a ?b w] => unfold op
    | |- context [?op ?a w] => unfold op
    | |- context [?op w] => unfold op
    end;
    apply try_except_contains;
    repeat first
      [ apply quiet_create_content | apply quiet_create_progress
      | apply quiet_create_question | apply quiet_create_user
      | apply quiet_create_session | apply quiet_end_session
      | quiet_step ].
Qed.

Lemma persistence_failure_example :
  let w := {| collections := ∅; next_id := 1%N; clock := 0; faults := [true];
              text_score := fun _ _ => None; aggregate_eval := fun _ _ => [];
              stdout := [] |} in
  let c := StartStudySession
             (list_to_map [ ("user_id", VStr "u1"); ("subject", VStr "Math");
                            ("topic", VStr "Calculus") ]) in
  faults w = [true] ++ faults (run c w).2 /\ In true [true] /\
  (run c w).1 = Ok RNone.
Proof.
  intros w c.
  assert (Hused : faults w = [true] ++ faults (run c w).2) by (vm_compute; reflexivity).
  assert (Hin : In true [true]) by (left; reflexivity).
  split; [exact Hused|]. split; [exact Hin|].
  destruct (persistence_failures_contained c w) as (_ & _ & H & _).
  exact (H [true] Hused Hin).
Defined.

End ContainmentFacts.

(** ** The persistence service: the life of a study session *)

Section SessionFacts.

Import Mongo Driver Models MongoDBService PersistenceSpec.

Lemma follows_same (w w' : world) :
  good w -> sessions w' = sessions w -> next_id w' = next_id w -> follows w w'.
Proof.
  intros Hg Hs Hn. unfold follows, good. rewrite Hs, Hn.
  split; [exact Hg|]. split; [lia|]. split.
  - intros k d d' H1 H2. left. congruence.
  - intros k d' H1 H2. congruence.
Qed.

Lemma follows_from (w0 w w' : world) :
  sessions w0 = sessions w -> next_id w0 = next_id w ->
  follows w0 w' -> follows w w'.
Proof. unfold follows. intros Hs Hn. now rewrite Hs, Hn. Qed.

Lemma evolves_trans (d1 d2 d3 : dict) :
  evolves d1 d2 -> evolves d2 d3 -> evolves d1 d3.
Proof.
  intros [->|[Hc Hi]] [->|[Hc' Hi']]; unfold evolves; auto.
  right. split; [assumption | congruence].
Qed.

Lemma follows_trans (w1 w2 w3 : world) :
  good w1 -> follows w1 w2 -> follows w2 w3 -> follows w1 w3.
Proof.
  intros Hg1 (Hg2 & Hn12 & He12 & Hf12) (Hg3 & Hn23 & He23 & Hf23).
  split; [exact Hg3|]. split; [lia|]. split.
  - intros k d d'' H1 H3. destruct (sessions w2 !! k) as [d'|] eqn:H2.
    + eapply evolves_trans; eauto.
    + exfalso. pose proof (Hf23 k d'' H3 H2). destruct (Hg1 k d H1) as [Hlt _]. lia.
  - intros k d'' H3 H1. destruct (sessions w2 !! k) as [d'|] eqn:H2.
    + exact (Hf12 k d' H2 H1).
    + pose proof (Hf23 k d'' H3 H2). lia.
Qed.

Lemma keeps_ret {A} (a : A) : keeps_sessions (ret a).
Proof. intros w Hg. now apply follows_same. Qed.

Lemma keeps_lift {A} (r : result A) : keeps_sessions (lift r).
Proof. intros w Hg. now apply follows_same. Qed.

Lemma keeps_utcnow : keeps_sessions utcnow.
Proof. intros w Hg. now apply follows_same. Qed.

Lemma keeps_print (line : string) : keeps_sessions (print line).
Proof. intros w Hg. now apply follows_same. Qed.

Lemma keeps_bind_returns {A B} (m : M A) (f : A -> M B) (Q : A -> Prop) :
  keeps_sessions m -> returns m Q -> (forall a, Q a -> keeps_sessions (f a)) ->
  keeps_sessions (bind m f).
Proof.
  intros Hm HQ Hf w Hg. unfold bind. specialize (Hm w Hg).
  destruct (m w) as [[a|e] w1] eqn:E; simpl in Hm; [|exact Hm].
  apply (follows_trans w w1); [assumption | assumption |].
  apply (Hf a (HQ w a w1 E)). apply Hm.
Qed.

Lemma keeps_bind {A B} (m : M A) (f : A -> M B) :
  keeps_sessions m -> (forall a, keeps_sessions (f a)) -> keeps_sessions (bind m f).
Proof.
  intros Hm Hf. apply (keeps_bind_returns m f (fun _ => True)); auto.
  intros w a w' _. exact I.
Qed.

Lemma keeps_try_except {A} (body : M A) (handler : exn -> M A) :
  keeps_sessions body -> (forall e, keeps_sessions (handler e)) ->
  keeps_sessions (try_except body handler).
Proof.
  intros Hb Hh w Hg. unfold try_except. specialize (Hb w Hg).
  destruct (body w) as [[a|e] w1]; simpl in Hb; [exact Hb|].
  apply (follows_trans w w1); [assumption | assumption |].
  apply Hh. apply Hb.
Qed.

Lemma keeps_on_error message s e : keeps_sessions (on_error message s e).
Proof. unfold on_error. apply keeps_bind; [apply keeps_print | intros; apply keeps_ret]. Qed.

Lemma keeps_driver_call {A} (body : M A) :
  keeps_sessions body -> keeps_sessions (driver_call body).
Proof.
  intros Hb w Hg. unfold driver_call. destruct (faults w) as [|[] fs].
  - now apply Hb.
  - now apply follows_same.
  - apply (follows_from (set_faults fs w)); [reflexivity | reflexivity |].
    apply Hb. exact Hg.
Qed.

Lemma keeps_find name filter sort limit : keeps_sessions (find name filter sort limit).
Proof. apply keeps_driver_call. intros w Hg. now apply follows_same. Qed.

Lemma keeps_find_one name filter : keeps_sessions (find_one name filter).
Proof. apply keeps_driver_call. intros w Hg. now apply follows_same. Qed.

Lemma keeps_aggregate name pipeline : keeps_sessions (aggregate name pipeline).
Proof. apply keeps_driver_call. intros w Hg. now apply follows_same. Qed.

Lemma keeps_create_index name keys : keeps_sessions (create_index name keys).
Proof. apply keeps_driver_call. intros w Hg. now apply follows_same. Qed.

Lemma sessions_set_coll_ne (name : string) (c : gmap N dict) (w : world) :
  name <> sessions_collection -> sessions (set_coll name c w) = sessions w.
Proof.
  intros Hne. unfold sessions, coll, set_coll. simpl.
  now rewrite lookup_insert_ne.
Qed.

Lemma sessions_set_next_id (n : N) (w : world) :
  sessions (set_next_id n w) = sessions w.
Proof. reflexivity. Qed.

Lemma sessions_set_coll_eq (c : gmap N dict) (w : world) :
  sessions (set_coll sessions_collection c w) = c.
Proof. unfold sessions, coll, set_coll. simpl. now rewrite lookup_insert_eq. Qed.

(** Handing out one more identifier. *)
Lemma follows_next_id (w w' : world) :
  good w -> sessions w' = sessions w -> (next_id w <= next_id w')%N -> follows w w'.
Proof.
  intros Hg Hs Hn. unfold follows, good. rewrite Hs.
  split; [|split; [exact Hn|split]].
  - intros k d Hk. destruct (Hg k d Hk) as (H1 & H2 & H3). repeat split; auto. lia.
  - intros k d d' H1 H2. left. congruence.
  - intros k d' H1 H2. congruence.
Qed.

Lemma keeps_insert_other name doc :
  name <> sessions_collection -> keeps_sessions (insert_one name doc).
Proof.
  intros Hne. apply keeps_driver_call. intros w Hg. simpl.
  apply follows_next_id; [assumption | | simpl; lia].
  change (sessions (set_next_id (next_id w + 1)
            (set_coll name (<[next_id w := <["_id" := VOid (next_id w)]> doc]> (coll name w)) w)))
    with (sessions (set_coll name (<[next_id w := <["_id" := VOid (next_id w)]> doc]> (coll name w)) w)).
  now apply sessions_set_coll_ne.
Qed.

Lemma keeps_update_other name filter update :
  name <> sessions_collection -> keeps_sessions (update_one name filter update).
Proof.
  intros Hne. apply keeps_driver_call. intros w Hg.
  destruct (select w name filter) as [|[o d] rest]; [now apply follows_same|].
  destruct (apply_update update d); [|now apply follows_same].
  apply follows_same; [assumption | now apply sessions_set_coll_ne | reflexivity].
Qed.


(** *** Creating a session *)

Lemma stored_session_active (o : N) (doc : dict) :
  is_active doc ->
  is_active (<["_id" := VOid o]> doc) /\ (<["_id" := VOid o]> doc) !! "_id" = Some (VOid o).
Proof.
  intros [Hs He]. unfold is_active.
  rewrite !lookup_insert_ne by discriminate. rewrite lookup_insert_eq. auto.
Qed.

Lemma keeps_insert_session doc :
  is_active doc -> keeps_sessions (insert_one sessions_collection doc).
Proof.
  intros Hdoc. apply keeps_driver_call. intros w Hg.
  destruct (stored_session_active (next_id w) doc Hdoc) as [Hact Hid].
  set (d0 := <["_id" := VOid (next_id w)]> doc) in *.
  set (w' := set_next_id (next_id w + 1)
               (set_coll sessions_collection
                  (<[next_id w := d0]> (coll sessions_collection w)) w)).
  change (follows w w').
  assert (Hs : sessions w' = <[next_id w := d0]> (sessions w))
    by apply sessions_set_coll_eq.
  assert (Hn : next_id w' = (next_id w + 1)%N) by reflexivity.
  unfold follows, good. rewrite Hs, Hn.
  split; [|split; [lia|split]].
  - intros k d Hk. destruct (decide (k = next_id w)) as [->|Hne].
    + rewrite lookup_insert_eq in Hk. inversion Hk; subst d.
      split; [lia|]. split; [exact Hid | now left].
    + rewrite lookup_insert_ne in Hk by congruence.
      destruct (Hg k d Hk) as (H1 & H2 & H3). repeat split; auto. lia.
  - intros k d d' H1 H2. destruct (decide (k = next_id w)) as [->|Hne].
    + destruct (Hg _ _ H1) as [Hlt _]. lia.
    + rewrite lookup_insert_ne in H2 by congruence. left. congruence.
  - intros k d' H1 H2. destruct (decide (k = next_id w)) as [->|Hne]; [lia|].
    rewrite lookup_insert_ne in H1 by congruence. congruence.
Qed.

Lemma create_session_returns kw :
  returns (StudySessionModel.create_session kw) is_active.
Proof.
  intros w doc w'. unfold StudySessionModel.create_session, bind, lift, lower_v, utcnow, ret.
  destruct (bind_kwargs _ kw) as [args|e]; [|discriminate].
  destruct (py_lower (arg args "subject")) as [s1|e]; simpl; [|discriminate].
  destruct (py_lower (arg args "topic")) as [s2|e]; simpl; [|discriminate].
  intros H. inversion H; subst. split; reflexivity.
Qed.

Lemma create_session_world kw (w : world) :
  (StudySessionModel.create_session kw w).2 = w.
Proof.
  unfold StudySessionModel.create_session, bind, lift, lower_v, utcnow, ret.
  destruct (bind_kwargs _ kw) as [args|e]; [|reflexivity].
  destruct (py_lower (arg args "subject")) as [s1|e]; simpl; [|reflexivity].
  destruct (py_lower (arg args "topic")) as [s2|e]; simpl; reflexivity.
Qed.

Lemma keeps_create_session kw : keeps_sessions (StudySessionModel.create_session kw).
Proof. intros w Hg. rewrite create_session_world. now apply follows_same. Qed.

(** *** Ending a session *)

Lemma end_update_applies (t : Z) (final_score duration : value) (d : dict) :
  exists d',
    apply_update (end_update t final_score duration) d = Ok d' /\
    d' !! "status" = Some (VStr "completed") /\
    d' !! "end_time" = Some (VDate t) /\
    d' !! "duration" = Some duration /\
    d' !! "score" = Some final_score /\
    d' !! "_id" = d !! "_id".
Proof.
  eexists. split.
  - unfold apply_update, end_update. rewrite lookup_singleton_eq.
    rewrite lookup_singleton_ne by discriminate. reflexivity.
  - unfold apply_set. simpl foldl.
    repeat split;
      repeat (first [rewrite lookup_insert_eq | rewrite lookup_insert_ne by discriminate]);
      reflexivity.
Qed.

Lemma select_lookup (w : world) (name : string) (filter : dict) (o : N) (d : dict) :
  In (o, d) (select w name filter) ->
  coll name w !! o = Some d /\ matches w filter d = true.
Proof.
  unfold select. intros H. apply filter_In in H as [H Hm].
  split; [|exact Hm]. apply elem_of_map_to_list. now apply list_elem_of_In.
Qed.

Lemma keeps_end_update filter t final_score duration :
  keeps_sessions (update_one sessions_collection filter (end_update t final_score duration)).
Proof.
  apply keeps_driver_call. intros w Hg. unfold update_one.
  destruct (select w sessions_collection filter) as [|[o d] rest] eqn:Es;
    [now apply follows_same|].
  assert (Hod : sessions w !! o = Some d).
  { apply (select_lookup w sessions_collection filter). rewrite Es. now left. }
  destruct (end_update_applies t final_score duration d)
    as (d' & -> & Hst & Het & _ & _ & Hid).
  assert (Hc : is_completed d') by (split; [exact Hst | now exists t]).
  destruct (Hg o d Hod) as (Hlt & Hido & _).
  unfold follows, good. simpl. rewrite sessions_set_coll_eq. fold (sessions w).
  split; [|split; [lia|split]].
  - intros k dk Hk. destruct (decide (k = o)) as [->|Hne].
    + rewrite lookup_insert_eq in Hk. inversion Hk; subst dk.
      split; [exact Hlt|]. split; [congruence | now right].
    + rewrite lookup_insert_ne in Hk by congruence. exact (Hg k dk Hk).
  - intros k dk dk' H1 H2. destruct (decide (k = o)) as [->|Hne].
    + rewrite lookup_insert_eq in H2. inversion H2; subst dk'.
      right. split; [exact Hc | congruence].
    + rewrite lookup_insert_ne in H2 by congruence. left. congruence.
  - intros k dk' H1 H2. destruct (decide (k = o)) as [->|Hne]; [congruence|].
    rewrite lookup_insert_ne in H1 by congruence. congruence.
Qed.

Lemma end_session_returns sid final_score duration :
  returns (StudySessionModel.end_session sid final_score duration)
          (fun update => exists t, update = end_update t final_score duration).
Proof.
  intros w update w'. unfold StudySessionModel.end_session, bind, utcnow, ret.
  intros H. inversion H. eexists. reflexivity.
Qed.

Lemma keeps_end_session sid final_score duration :
  keeps_sessions (StudySessionModel.end_session sid final_score duration).
Proof. intros w Hg. now apply follows_same. Qed.

(** *** Deleting sessions *)

Lemma lookup_foldr_delete (keys : list N) (m : gmap N dict) (k : N) (d : dict) :
  foldr delete m keys !! k = Some d -> m !! k = Some d.
Proof.
  induction keys as [|x keys IH]; simpl; [auto|].
  intros H. apply lookup_delete_Some in H as [_ H]. auto.
Qed.

Lemma keeps_delete_many name filter : keeps_sessions (delete_many name filter).
Proof.
  apply keeps_driver_call. intros w Hg. unfold delete_many.
  destruct (decide (name = sessions_collection)) as [->|Hne].
  - simpl. unfold follows, good. rewrite sessions_set_coll_eq. fold (sessions w).
    simpl next_id.
    split; [|split; [lia|split]].
    + intros k d Hk. apply lookup_foldr_delete in Hk. exact (Hg k d Hk).
    + intros k d d' H1 H2. apply lookup_foldr_delete in H2. left. congruence.
    + intros k d' H1 H2. apply lookup_foldr_delete in H1. congruence.
  - apply follows_same; [assumption | now apply sessions_set_coll_ne | reflexivity].
Qed.


(** *** Every operation keeps the sessions in order *)

Ltac keeps_step :=
  first
    [ apply keeps_ret | apply keeps_lift | apply keeps_utcnow | apply keeps_print
    | apply keeps_on_error | apply keeps_find | apply keeps_find_one
    | apply keeps_aggregate | apply keeps_create_index | apply keeps_delete_many
    | apply keeps_insert_other; discriminate
    | apply keeps_update_other; discriminate
    | apply keeps_try_except; [|intros ?]
    | apply keeps_bind; [|intros ?]
    | match goal with
      | |- keeps_sessions (match ?x with _ => _ end) => destruct x
      | |- keeps_sessions (if ?b then _ else _) => destruct b
      end ].

Lemma keeps_start_study_session data : keeps_sessions (start_study_session data).
Proof.
  unfold start_study_session. apply keeps_try_except; [|intros; apply keeps_on_error].
  apply (keeps_bind_returns _ _ is_active);
    [apply keeps_create_session | apply create_session_returns |].
  intros doc Hdoc. apply keeps_bind; [now apply keeps_insert_session|].
  intros. apply keeps_ret.
Qed.

Lemma keeps_end_study_session sid final_score duration :
  keeps_sessions (end_study_session sid final_score duration).
Proof.
  unfold end_study_session. apply keeps_try_except; [|intros; apply keeps_on_error].
  apply (keeps_bind_returns _ _ (fun u => exists t, u = end_update t final_score duration));
    [apply keeps_end_session | apply end_session_returns |].
  intros update [t ->]. apply keeps_bind; [apply keeps_lift|].
  intros o. apply keeps_bind; [apply keeps_end_update|].
  intros. apply keeps_ret.
Qed.

Lemma keeps_run (c : call) : keeps_sessions (run c).
Proof.
  destruct c; simpl run;
    try apply keeps_start_study_session; try apply keeps_end_study_session;
    match goal with
    | |- keeps_sessions (?op _ _ _ _) => unfold op
    | |- keeps_sessions (?op _ _ _) => unfold op
    | |- keeps_sessions (?op _ _) => unfold op
    | |- keeps_sessions (?op _) => unfold op
    | |- keeps_sessions ?op => unfold op
    | _ => idtac
    end;
    unfold ContentModel.create_content, UserProgressModel.create_progress,
      QuestionModel.create_question, UserModel.create_user, lower_v;
    repeat keeps_step.
Qed.

Lemma reachable_good (w : world) : reachable w -> good w.
Proof.
  induction 1 as [w Hempty | w t fs _ IH | w c _ IH].
  - intros k d. unfold sessions, coll. rewrite Hempty, lookup_empty, lookup_empty.
    discriminate.
  - exact IH.
  - apply (keeps_run c w IH).
Qed.

(** *** Finding a session by its identifier *)

Lemma matches_id_filter (w : world) (o : N) (d : dict) :
  matches w (id_filter o) d = value_eqb (dict_get d "_id" VNone) (VOid o).
Proof.
  unfold matches, id_filter. rewrite map_to_list_singleton. simpl.
  now rewrite andb_true_r.
Qed.

Lemma select_session_by_id (w : world) (o : N) (d : dict) :
  good w -> sessions w !! o = Some d ->
  exists rest, select w sessions_collection (id_filter o) = (o, d) :: rest.
Proof.
  intros Hg Hod.
  assert (Hin : In (o, d) (select w sessions_collection (id_filter o))).
  { unfold select. apply filter_In. split.
    - apply list_elem_of_In, elem_of_map_to_list. exact Hod.
    - simpl. rewrite matches_id_filter. destruct (Hg o d Hod) as (_ & Hid & _).
      unfold dict_get. rewrite Hid. simpl. apply N.eqb_refl. }
  destruct (select w sessions_collection (id_filter o)) as [|[k d'] rest] eqn:Es;
    [contradiction|].
  exists rest. f_equal.
  assert (Hk : In (k, d') (select w sessions_collection (id_filter o)))
    by (rewrite Es; now left).
  apply select_lookup in Hk as [Hkd Hm]. fold (sessions w) in Hkd.
  rewrite matches_id_filter in Hm. destruct (Hg k d' Hkd) as (_ & Hid & _).
  unfold dict_get in Hm. rewrite Hid in Hm. simpl in Hm. apply N.eqb_eq in Hm.
  subst k. congruence.
Qed.

Lemma start_study_session_creates data (w : world) (id : string) (w' : world) :
  start_study_session data w = (Ok (RStr id), w') ->
  exists d, id = Bson.oid_str (next_id w) /\
            sessions w' !! next_id w = Some d /\ is_active d.
Proof.
  unfold start_study_session, try_except, bind at 1.
  pose proof (create_session_returns data w) as Hret.
  pose proof (create_session_world data w) as Hw.
  destruct (StudySessionModel.create_session data w) as [[doc|e] w1]; simpl in Hw; subst w1.
  - specialize (Hret doc w eq_refl).
    unfold bind, insert_one, driver_call, ret.
    destruct (faults w) as [|[] fs]; simpl; intros H; inversion H; subst.
    + eexists. split; [reflexivity|]. split.
      * rewrite sessions_set_next_id, sessions_set_coll_eq, lookup_insert_eq.
        reflexivity.
      * now apply stored_session_active.
    + eexists. split; [reflexivity|]. split.
      * rewrite sessions_set_next_id, sessions_set_coll_eq, lookup_insert_eq.
        reflexivity.
      * now apply stored_session_active.
  - unfold on_error, bind, print, ret. simpl. intros H. inversion H.
Qed.


Lemma bind_ok {A B} (m : M A) (f : A -> M B) (w w1 : world) (a : A) :
  m w = (Ok a, w1) -> bind m f w = f a w1.
Proof. intros H. unfold bind. now rewrite H. Qed.

Lemma try_except_ok {A} (body : M A) (handler : exn -> M A) (w w1 : world) (a : A) :
  body w = (Ok a, w1) -> try_except body handler w = (Ok a, w1).
Proof. intros H. unfold try_except. now rewrite H. Qed.

Lemma update_session_completes (w : world) (o : N) (d : dict) (t : Z)
    (final_score duration : value) :
  good w -> sessions w !! o = Some d -> head (faults w) <> Some true ->
  exists w1 d',
    update_one sessions_collection (id_filter o) (end_update t final_score duration) w
    = (Ok tt, w1) /\
    sessions w1 !! o = Some d' /\
    d' !! "status" = Some (VStr "completed") /\
    d' !! "end_time" = Some (VDate t) /\
    d' !! "duration" = Some duration /\
    d' !! "score" = Some final_score.
Proof.
  intros Hg Hod Hf.
  destruct (select_session_by_id w o d Hg Hod) as [rest Hsel].
  destruct (end_update_applies t final_score duration d)
    as (d' & Hup & Hst & Het & Hdu & Hsc & _).
  unfold update_one, driver_call.
  destruct (faults w) as [|[] fs] eqn:Ef; [| exfalso; now apply Hf |].
  - rewrite Hsel, Hup. eexists _, d'. split; [reflexivity|].
    split; [|auto]. now rewrite sessions_set_coll_eq, lookup_insert_eq.
  - change (select (set_faults fs w) sessions_collection (id_filter o))
      with (select w sessions_collection (id_filter o)).
    rewrite Hsel, Hup. eexists _, d'. split; [reflexivity|].
    split; [|auto]. now rewrite sessions_set_coll_eq, lookup_insert_eq.
Qed.

Lemma end_study_session_completes sid final_score duration (w : world) (o : N) (d : dict) :
  good w -> Bson.ObjectId sid = Ok o -> sessions w !! o = Some d ->
  head (faults w) <> Some true ->
  exists d',
    sessions (end_study_session sid final_score duration w).2 !! o = Some d' /\
    d' !! "status" = Some (VStr "completed") /\
    d' !! "end_time" = Some (VDate (clock w)) /\
    d' !! "duration" = Some duration /\
    d' !! "score" = Some final_score.
Proof.
  intros Hg Ho Hod Hf.
  destruct (update_session_completes w o d (clock w) final_score duration Hg Hod Hf)
    as (w1 & d' & Hup & Hd').
  exists d'.
  assert (Hrun : end_study_session sid final_score duration w = (Ok RNone, w1)).
  { unfold end_study_session. apply try_except_ok.
    rewrite (bind_ok _ _ w w (end_update (clock w) final_score duration)) by reflexivity.
    rewrite (bind_ok _ _ w w o) by (unfold lift; now rewrite Ho).
    rewrite (bind_ok _ _ w w1 tt) by exact Hup.
    reflexivity. }
  rewrite Hrun. exact Hd'.
Qed.


(** C6.  Every session document created by [start_study_session] has
    status "active" and a null end time.  After [end_study_session] on a
    stored session (the store answering), its status is "completed", its
    end time is set, and its duration and score are the values passed to
    the call.  No operation of the persistence service sets the status of
    a session back to "active" or to a third value: every operation leaves
    every session either untouched or completed (or deletes it), a
    completed session stays completed, and in every world the service can
    reach every session is active with a null end time or completed with
    an end time. *)
Theorem session_lifecycle :
  (forall data w id w',
     start_study_session data w = (Ok (RStr id), w') ->
     exists d, id = Bson.oid_str (next_id w) /\
               sessions w' !! next_id w = Some d /\
               d !! "status" = Some (VStr "active") /\
               d !! "end_time" = Some VNone) /\
  (forall sid final_score duration w o d,
     good w -> Bson.ObjectId sid = Ok o -> sessions w !! o = Some d ->
     head (faults w) <> Some true ->
     exists d',
       sessions (end_study_session sid final_score duration w).2 !! o = Some d' /\
       d' !! "status" = Some (VStr "completed") /\
       d' !! "end_time" = Some (VDate (clock w)) /\
       d' !! "duration" = Some duration /\
       d' !! "score" = Some final_score) /\
  (forall c w, good w -> follows w (run c w).2) /\
  (forall c w k d d',
     good w -> sessions w !! k = Some d -> sessions (run c w).2 !! k = Some d' ->
     is_completed d -> is_completed d') /\
  (forall w, reachable w -> good w).
Proof.
  split; [|split; [|split; [|split]]].
  - intros data w id w' H.
    destruct (start_study_session_creates data w id w' H) as (d & Hid & Hd & Hs & He).
    now exists d.
  - intros sid final_score duration w o d. apply end_study_session_completes.
  - intros c w. apply keeps_run.
  - intros c w k d d' Hg Hk Hk' Hc.
    destruct (keeps_run c w Hg) as (_ & _ & He & _).
    destruct (He k d d' Hk Hk') as [->|[Hc' _]]; assumption.
  - apply reachable_good.
Qed.

End SessionFacts.

Lemma session_lifecycle_example :
  let w1 := (MongoDBService.start_study_session PersistenceSpec.demo_session
               PersistenceSpec.demo_world).2 in
  let w2 := Mongo.set_clock 2000 (Mongo.set_faults [false] w1) in
  let sid := "000000000000000000000001" in
  PersistenceSpec.reachable w2 /\
  Bson.ObjectId sid = Ok 1%N /\
  head (Mongo.faults w2) <> Some true /\
  (exists d, PersistenceSpec.sessions w2 !! 1%N = Some d /\
             d !! "status" = Some (VStr "active")) /\
  (exists d', PersistenceSpec.sessions
                (MongoDBService.end_study_session sid (VInt 78) (VInt 1800) w2).2
                !! 1%N = Some d' /\
              d' !! "status" = Some (VStr "completed") /\
              d' !! "end_time" = Some (VDate 2000) /\
              d' !! "duration" = Some (VInt 1800) /\
              d' !! "score" = Some (VInt 78)).
Proof.
  intros w1 w2 sid.
  destruct session_lifecycle as (Hstart & Hend & _ & _ & Hgood).
  assert (Hreach : PersistenceSpec.reachable w2).
  { apply PersistenceSpec.reach_env.
    apply (PersistenceSpec.reach_call PersistenceSpec.demo_world
             (MongoDBService.StartStudySession PersistenceSpec.demo_session)).
    now apply PersistenceSpec.reach_init. }
  assert (Hrun : MongoDBService.start_study_session PersistenceSpec.demo_session
                   PersistenceSpec.demo_world
                 = (Ok (MongoDBService.RStr sid), w1)).
  { rewrite (surjective_pairing (MongoDBService.start_study_session _ _)).
    f_equal. }
  destruct (Hstart _ _ _ _ Hrun) as (d & _ & Hd & Hs & He).
  assert (Ho : Bson.ObjectId sid = Ok 1%N) by (vm_compute; reflexivity).
  assert (Hf : head (Mongo.faults w2) <> Some true) by discriminate.
  split; [exact Hreach|]. split; [exact Ho|]. split; [exact Hf|]. split.
  - exists d. split; assumption.
  - exact (Hend sid (VInt 78) (VInt 1800) w2 1%N d (Hgood w2 Hreach) Ho Hd Hf).
Defined.

(** * Further properties *)

(** ** Upper bounds in binary64 arithmetic *)

Section FloatBoundFacts.
Import Float64 FloatRange FloatBound.

Lemma shr_1_even (a : Z) :
  0 <= a ->
  shr_1 {| shr_m := 2 * a; shr_r := false; shr_s := false |}
  = {| shr_m := a; shr_r := false; shr_s := false |}.
Proof. intros Ha. destruct a as [|p|p]; try reflexivity; lia. Qed.

Lemma iter_shr_exact (p : positive) (a : Z) :
  0 <= a ->
  SpecFloat.iter_pos shr_1 p {| shr_m := a * 2 ^ Zpos p; shr_r := false; shr_s := false |}
  = {| shr_m := a; shr_r := false; shr_s := false |}.
Proof.
  revert a. induction p as [p IH|p IH|]; intros a Ha; cbn [SpecFloat.iter_pos].
  - assert (Hp : 0 < 2 ^ Zpos p) by (apply Z.pow_pos_nonneg; lia).
    replace (a * 2 ^ Zpos p~1) with (2 * ((a * 2 ^ Zpos p) * 2 ^ Zpos p)).
    2:{ replace (Zpos p~1) with (Zpos p + Zpos p + 1) by lia.
        rewrite !Z.pow_add_r by lia. change (2 ^ 1) with 2. lia. }
    rewrite shr_1_even by nia. rewrite IH by nia. now apply IH.
  - assert (Hp : 0 < 2 ^ Zpos p) by (apply Z.pow_pos_nonneg; lia).
    replace (a * 2 ^ Zpos p~0) with ((a * 2 ^ Zpos p) * 2 ^ Zpos p).
    2:{ replace (Zpos p~0) with (Zpos p + Zpos p) by lia.
        rewrite Z.pow_add_r by lia. lia. }
    rewrite IH by nia. now apply IH.
  - replace (a * 2 ^ 1) with (2 * a) by (change (2 ^ 1) with 2; lia). now apply shr_1_even.
Qed.

Lemma shr_fexp_under (b k m e : Z) (l : location) :
  0 <= b < 2 ^ 53 -> -1074 <= k ->
  under b k m e l ->
  under b k (shr_m (shr_fexp prec emax m e l).1) (shr_fexp prec emax m e l).2
        (loc_of_shr_record (shr_fexp prec emax m e l).1).
Proof.
  intros Hb Hk (Hm & He & Hle & Hex). unfold shr_fexp, shr.
  destruct (fexp prec emax (Zdigits2 m + e) - e) as [|p|p] eqn:En; simpl;
    rewrite ?shr_record_of_loc_m.
  1,3: (repeat split; try assumption; intros Heq; rewrite (Hex Heq); reflexivity).
  assert (Hf : e + Zpos p = fexp prec emax (Zdigits2 m + e)) by lia.
  assert (Hpk : 0 < 2 ^ (k - e)) by (apply Z.pow_pos_nonneg; lia).
  assert (Hd : Zdigits2 m <= 53 + (k - e)).
  { apply Zdigits2_le_pow; [lia | lia |]. rewrite Z.pow_add_r by lia. nia. }
  assert (Hle' : e + Zpos p <= k).
  { rewrite Hf. unfold fexp, emin, prec, emax. lia. }
  assert (Hpp : 0 < 2 ^ Zpos p) by (apply Z.pow_pos_nonneg; lia).
  assert (Hsplit : b * 2 ^ (k - e) = (b * 2 ^ (k - (e + Zpos p))) * 2 ^ Zpos p).
  { rewrite <- Z.mul_assoc, <- Z.pow_add_r by lia. do 2 f_equal. lia. }
  set (N1 := b * 2 ^ (k - (e + Zpos p))) in *.
  assert (HN1 : 0 <= N1).
  { subst N1. apply Z.mul_nonneg_nonneg; [lia|]. apply Z.pow_nonneg. lia. }
  rewrite iter_shr_m by (now rewrite shr_record_of_loc_m).
  rewrite shr_record_of_loc_m, Z.shiftr_div_pow2 by lia.
  assert (Hq : m / 2 ^ Zpos p <= N1).
  { apply Z.div_le_upper_bound; [assumption|]. lia. }
  split; [apply Z.div_pos; lia|]. split; [assumption|]. split; [assumption|].
  intros Heq.
  assert (Hmm : m = b * 2 ^ (k - e)).
  { pose proof (Z.mul_div_le m (2 ^ Zpos p) Hpp). nia. }
  rewrite (Hex Hmm). simpl shr_record_of_loc. rewrite Hmm, Hsplit.
  rewrite iter_shr_exact by assumption. reflexivity.
Qed.

Lemma binary_round_aux_below (b k m e : Z) (l : location) :
  0 <= b < 2 ^ 53 -> -1074 <= k <= 971 ->
  under b k m e l ->
  below b k (binary_round_aux prec emax false m e l).
Proof.
  intros Hb Hk Hu. unfold binary_round_aux.
  pose proof (shr_fexp_under b k m e l Hb (proj1 Hk) Hu) as H1.
  destruct (shr_fexp prec emax m e l) as [r1 e1]. simpl in H1.
  destruct H1 as (Hm1 & He1 & Hle1 & Hex1).
  set (m' := round_nearest_even (shr_m r1) (loc_of_shr_record r1)).
  assert (Hu' : under b k m' e1 loc_Exact).
  { pose proof (round_nearest_even_bounds (shr_m r1) (loc_of_shr_record r1)) as Hr.
    fold m' in Hr. split; [lia|]. split; [assumption|]. split; [|reflexivity].
    destruct (Z.eq_dec (shr_m r1) (b * 2 ^ (k - e1))) as [E|E]; [|lia].
    subst m'. rewrite (Hex1 E). simpl. lia. }
  pose proof (shr_fexp_under b k m' e1 loc_Exact Hb (proj1 Hk) Hu') as H2.
  destruct (shr_fexp prec emax m' e1 loc_Exact) as [r2 e2]. simpl in H2.
  destruct H2 as (Hm2 & He2 & Hle2 & _).
  destruct (shr_m r2) as [|p|p] eqn:Em; [exact I | | lia].
  assert ((e2 <=? emax - prec) = true) as ->.
  { apply Z.leb_le. unfold emax, prec. lia. }
  simpl. auto.
Qed.


Lemma new_location_zero (n : Z) : new_location n 0 = loc_Exact.
Proof. unfold new_location. destruct (Z.even n); reflexivity. Qed.

(** The quotient of two integers, the first not above the second, is at
    most one. *)
Lemma div_raw_below (a : Z) (b : positive) :
  0 <= a <= Zpos b -> below 1 0 (div (raw a) (raw (Zpos b))).
Proof.
  intros Hab. destruct a as [|a|a]; [exact I | | lia].
  unfold div, raw, SFdiv. cbn [xorb].
  unfold SFdiv_core_binary.
  set (e' := Z.min (fexp prec emax (Zdigits2 (Zpos a) + 0 - (Zdigits2 (Zpos b) + 0))) (0 - 0)) in *.
  assert (He' : e' < 0).
  { subst e'. unfold fexp, emin, prec, emax.
    pose proof (Zdigits2_mono (Zpos a) (Zpos b)). lia. }
  assert (Hs : 0 - 0 - e' = - e') by lia. rewrite Hs in *.
  destruct (- e') as [|s|s] eqn:Es; try lia.
  assert (Hposb : Zpos b > 0) by lia.
  pose proof (Z_div_mod (Z.shiftl (Zpos a) (Zpos s)) (Zpos b) Hposb) as Hdm.
  destruct (Z.div_eucl (Z.shiftl (Zpos a) (Zpos s)) (Zpos b)) as [q r].
  rewrite Z.shiftl_mul_pow2 in Hdm by lia.
  assert (Hp : 0 < 2 ^ Zpos s) by (apply Z.pow_pos_nonneg; lia).
  assert (Hexp : 0 - e' = Zpos s) by lia.
  apply binary_round_aux_below; [lia | lia |].
  unfold under. rewrite Hexp.
  split; [nia|]. split; [lia|]. split; [nia|].
  intros Hq. assert (r = 0) as -> by nia. apply new_location_zero.
Qed.

Lemma mul_below (b1 k1 b2 k2 : Z) (x y : float) :
  below b1 k1 x -> below b2 k2 y ->
  0 <= b1 -> 0 <= b2 -> b1 * b2 < 2 ^ 53 -> -1074 <= k1 + k2 <= 971 ->
  below (b1 * b2) (k1 + k2) (mul x y).
Proof.
  unfold mul.
  destruct x as [sx|sx| |sx mx ex], y as [sy|sy| |sy my ey]; simpl; try tauto.
  intros (-> & Hex & Hx) (-> & Hey & Hy) Hb1 Hb2 Hb Hk.
  apply binary_round_aux_below; [nia | assumption |].
  split; [lia|]. split; [lia|]. split; [|reflexivity].
  replace (k1 + k2 - (ex + ey)) with ((k1 - ex) + (k2 - ey)) by lia.
  rewrite Z.pow_add_r, Pos2Z.inj_mul by lia.
  assert (0 < 2 ^ (k1 - ex)) by (apply Z.pow_pos_nonneg; lia).
  assert (0 < 2 ^ (k2 - ey)) by (apply Z.pow_pos_nonneg; lia).
  nia.
Qed.

Lemma hundred_below : below 100 0 (of_Z 100).
Proof. vm_compute. repeat split; discriminate. Qed.

Lemma to_int_below (b : Z) (x : float) :
  below b 0 x -> 0 <= b -> exists n, to_int x = Ok n /\ 0 <= n <= b.
Proof.
  destruct x as [s|s| |s m e]; simpl; try tauto.
  - intros _ Hb. exists 0. split; [reflexivity | lia].
  - intros (-> & He & Hm) Hb. eexists. split; [reflexivity|].
    destruct e as [|k|k]; [simpl in Hm; lia | lia |].
    rewrite Z.shiftr_div_pow2 by lia.
    replace (0 - Zneg k) with (Zpos k) in Hm by lia.
    assert (Hp : 0 < 2 ^ Zpos k) by (apply Z.pow_pos_nonneg; lia).
    split; [apply Z.div_pos; lia|].
    apply Z.div_le_upper_bound; [assumption | lia].
Qed.

End FloatBoundFacts.

(** ** The range of the fallback score *)

Section ScoreRange.
Import PyStr Api Spec Float64 FloatRange FloatBound.

Lemma compute_score_range (c t : Z) :
  0 <= c <= t -> exists n, compute_score c t = Ok n /\ 0 <= n <= 100.
Proof.
  intros Hc. unfold compute_score.
  destruct (0 <? t) eqn:Et; [|exists 0; split; [reflexivity | lia]].
  apply Z.ltb_lt in Et. destruct t as [|t|t]; try lia.
  pose proof (div_raw_below c t Hc) as Hq.
  unfold int_truediv. simpl (Zpos t =? 0).
  assert (Hm : below (1 * 100) (0 + 0) (mul (div (raw c) (raw (Zpos t))) (of_Z 100))).
  { apply mul_below; [assumption | apply hundred_below | lia | lia | | lia].
    apply Z.pow_gt_lin_r || (change (2 ^ 53) with 9007199254740992; lia). }
  destruct (to_int_below _ _ Hm ltac:(lia)) as (n & Hn & Hr).
  exists n. split; [|lia].
  destruct (div (raw c) (raw (Zpos t))); simpl in Hq; try contradiction; exact Hn.
Qed.

Lemma count_correct_range (qs answers : list dict) (i : nat) (acc c : Z) :
  count_correct qs answers i acc = Ok c ->
  acc <= c <= acc + Z.of_nat (length qs).
Proof.
  revert i acc. induction qs as [|q qs IH]; intros i acc H.
  - simpl in H. inversion H. simpl. lia.
  - simpl in H. destruct (list_index answers i) as [a|e]; [|discriminate]. simpl in H.
    destruct (answer_matches _ _) as [b|e]; [|discriminate]. simpl in H.
    apply IH in H. rewrite length_cons, Nat2Z.inj_succ. destruct b; lia.
Qed.

End ScoreRange.

Section QuizRangeFacts.
Import PyStr Api Spec QuizSpec Float64.

(** X1.  Whenever the fallback feedback system returns a response, its
    score lies between 0 and 100: for every submission, whatever the
    lengths of its lists and the values in them. *)
Theorem fallback_score_in_range (sub : QuizSubmission) (r : FeedbackResponse) :
  fallback_feedback sub = Ok r -> 0 <= score r <= 100.
Proof.
  unfold fallback_feedback. intros H.
  destruct (count_correct (questions sub) (answers sub) 0 0) as [c|e] eqn:Ec; [|discriminate].
  simpl in H. apply count_correct_range in Ec.
  destruct (compute_score_range c (Z.of_nat (length (questions sub)))) as (n & Hn & Hr); [lia|].
  rewrite Hn in H. simpl in H. inversion H. simpl. exact Hr.
Qed.

Lemma fallback_score_in_range_example :
  exists r, fallback_feedback two_of_three = Ok r /\ 0 <= score r <= 100.
Proof.
  eexists. split; [vm_compute; reflexivity|].
  apply (fallback_score_in_range two_of_three). vm_compute. reflexivity.
Defined.

Lemma count_correct_surplus (qs answers extra : list dict) (i : nat) (acc : Z) :
  (i + length qs <= length answers)%nat ->
  count_correct qs (answers ++ extra) i acc = count_correct qs answers i acc.
Proof.
  revert i acc. induction qs as [|q qs IH]; intros i acc Hl; [reflexivity|].
  simpl in Hl. simpl. unfold list_index.
  rewrite lookup_app_l by lia.
  destruct (answers !! i) as [a|]; [|reflexivity]. simpl.
  destruct (answer_matches _ _) as [b|e]; [|reflexivity]. simpl.
  apply IH. lia.
Qed.

(** X2.  Answers beyond the last question are ignored: when there are
    at least as many answers as questions, appending further answers
    changes nothing in what the fallback feedback system returns. *)
Theorem surplus_answers_ignored (qs answers extra : list dict) (t : string) :
  (length qs <= length answers)%nat ->
  fallback_feedback {| questions := qs; answers := answers ++ extra; topic := t |}
  = fallback_feedback {| questions := qs; answers := answers; topic := t |}.
Proof.
  intros Hl. unfold fallback_feedback. simpl.
  rewrite count_correct_surplus by (simpl; lia). reflexivity.
Qed.

Lemma surplus_answers_ignored_example :
  (length (questions two_of_three) <= length (answers two_of_three))%nat /\
  fallback_feedback one_answer_too_many = fallback_feedback two_of_three.
Proof.
  split; [simpl; lia|].
  apply (surplus_answers_ignored (questions two_of_three) (answers two_of_three)
           [ {[ "answer" := VStr "extra" ]} ] "python").
  simpl. lia.
Defined.

Lemma answer_matches_ok (u c : value) :
  (exists b, answer_matches u c = Ok b) <->
  (exists s, u = VStr s) /\ (exists s, c = VStr s).
Proof.
  unfold answer_matches. split.
  - intros [b H]. destruct u; try discriminate. destruct c; try discriminate. eauto.
  - intros [[s ->] [s' ->]]. simpl. eauto.
Qed.

Lemma text_of_some (d : dict) (k : string) :
  is_Some (text_of d k) <-> exists s, dict_get d k (VStr EmptyString) = VStr s.
Proof.
  unfold text_of. split.
  - intros [s H]. destruct (dict_get d k _); try discriminate. eauto.
  - intros [s ->]. eauto.
Qed.

Lemma count_correct_ok (qs answers : list dict) (i : nat) (acc : Z) :
  (exists c, count_correct qs answers i acc = Ok c) <->
  (forall j q, qs !! j = Some q ->
     exists a, answers !! (i + j)%nat = Some a /\
               is_Some (text_of a "answer") /\ is_Some (text_of q "correctAnswer")).
Proof.
  revert i acc. induction qs as [|q qs IH]; intros i acc.
  - simpl. split; [intros _ j q H; discriminate | eauto].
  - simpl. split.
    + intros [c H] j q' Hj.
      unfold list_index in H. destruct (answers !! i) as [a|] eqn:Ea; [|discriminate].
      simpl in H.
      destruct (answer_matches _ _) as [b|e] eqn:Em; [|discriminate]. simpl in H.
      destruct j as [|j].
      * simpl in Hj. inversion Hj; subst q'. exists a. rewrite Nat.add_0_r.
        split; [assumption|].
        destruct (proj1 (answer_matches_ok _ _) (ex_intro _ b Em)) as [Hu Hc].
        split; apply text_of_some; assumption.
      * simpl in Hj. replace (i + S j)%nat with (S i + j)%nat by lia.
        apply (proj1 (IH (S i) (if b then acc + 1 else acc))); eauto.
    + intros Hall.
      destruct (Hall 0%nat q eq_refl) as (a & Ha & Hu & Hc).
      rewrite Nat.add_0_r in Ha. unfold list_index. rewrite Ha. simpl.
      apply text_of_some in Hu, Hc.
      destruct (proj2 (answer_matches_ok _ _) (conj Hu Hc)) as [b ->]. simpl.
      apply IH. intros j q' Hj.
      replace (S i + j)%nat with (i + S j)%nat by lia. apply Hall. exact Hj.
Qed.

(** X3.  When the fallback system is the one that answers,
    [evaluate_quiz] responds exactly when every question has an answer at
    its index and both the submitted answer and the correct answer are
    text (a missing key counting as the empty text); otherwise it fails
    with status 500. *)
Theorem fallback_answers_or_fails
    (feedback_agent : option (QuizSubmission -> result FeedbackResponse))
    (sub : QuizSubmission) :
  uses_fallback feedback_agent sub ->
  (answerable sub ->
     exists r, evaluate_quiz feedback_agent sub = Response r /\
               fallback_feedback sub = Ok r) /\
  (~ answerable sub ->
     exists detail, evaluate_quiz feedback_agent sub = HTTPException 500 detail).
Proof.
  intros Hfb.
  assert (Hev : evaluate_quiz feedback_agent sub
                = match fallback_feedback sub with
                  | Ok r => Response r
                  | Raise e => HTTPException 500 ("Failed to evaluate quiz: " +:+ exn_str e)
                  end).
  { unfold evaluate_quiz. destruct feedback_agent as [agent|]; [|reflexivity].
    destruct Hfb as [e ->]. reflexivity. }
  rewrite Hev. unfold fallback_feedback.
  pose proof (count_correct_ok (questions sub) (answers sub) 0 0) as Hok.
  split.
  - intros Ha. destruct (proj2 Hok Ha) as [c Hc]. rewrite Hc. simpl.
    pose proof (count_correct_range _ _ _ _ _ Hc) as Hr.
    destruct (compute_score_range c (Z.of_nat (length (questions sub)))) as (n & Hn & _); [lia|].
    rewrite Hn. simpl. eauto.
  - intros Hna.
    destruct (count_correct (questions sub) (answers sub) 0 0) as [c|e].
    + exfalso. apply Hna. intros i q Hq. apply (proj1 Hok (ex_intro _ c eq_refl) i q Hq).
    + simpl. eauto.
Qed.

Lemma fallback_answers_or_fails_example :
  uses_fallback None number_for_answer /\
  ~ answerable number_for_answer /\
  exists detail, evaluate_quiz None number_for_answer = HTTPException 500 detail.
Proof.
  assert (Hna : ~ answerable number_for_answer).
  { intros H. destruct (H 0%nat _ eq_refl) as (a & Ha & [s Hs] & _).
    inversion Ha; subst a. vm_compute in Hs. discriminate. }
  split; [exact I|]. split; [exact Hna|].
  exact (proj2 (fallback_answers_or_fails None number_for_answer I) Hna).
Defined.

End QuizRangeFacts.

(** ** The fallback questions and the key concepts *)

Section QuestionFacts.
Import PyStr Api ApiQuestions QuestionSpec.

Lemma slice_to_length {A} (n : Z) (l : list A) :
  Z.of_nat (length (slice_to n l))
  = if 0 <=? n then Z.min n (Z.of_nat (length l))
    else Z.max 0 (Z.of_nat (length l) + n).
Proof.
  unfold slice_to. destruct (0 <=? n) eqn:E; rewrite length_take.
  - apply Z.leb_le in E. lia.
  - apply Z.leb_gt in E. lia.
Qed.

Lemma slice_to_take {A} (n : Z) (l : list A) : exists k, slice_to n l = take k l.
Proof. unfold slice_to. destruct (0 <=? n); eauto. Qed.

Lemma take_min_length {A} (k : nat) (l : list A) :
  take k l = take (Nat.min k (length l)) l.
Proof.
  destruct (Nat.le_ge_cases k (length l)) as [H|H].
  - now rewrite Nat.min_l by exact H.
  - rewrite Nat.min_r by exact H. now rewrite firstn_all, take_ge by exact H.
Qed.

(** A slice [l[:n]] is the first [k] elements, [k] being its length. *)
Lemma slice_to_first {A} (n : Z) (l : list A) :
  slice_to n l
  = take (Z.to_nat (if 0 <=? n then Z.min n (Z.of_nat (length l))
                    else Z.max 0 (Z.of_nat (length l) + n))) l.
Proof.
  unfold slice_to. destruct (0 <=? n) eqn:E.
  - apply Z.leb_le in E. rewrite take_min_length. f_equal. lia.
  - apply Z.leb_gt in E. f_equal. lia.
Qed.

(** X4.  [get_python_questions] returns the first [k] of its three
    questions, in their order: the questions with the identifiers "1",
    "2", "3" on variables, comments and compiled languages, up to the
    [k]-th.  Here [k] is [question_count], at most 3, and for a negative
    count 3 plus the count, at least 0, as a Python slice counts from the
    end.  The [total_count] of the metadata is the minimum of
    [question_count] and 3, which is not the number of questions returned
    when the count is negative; every question carries the requested
    difficulty. *)
Theorem python_questions_count (content : string) (n : Z) (types : list string)
    (d : string) :
  let r := get_python_questions content n types d in
  let k := Z.to_nat (if 0 <=? n then Z.min n 3 else Z.max 0 (3 + n)) in
  Z.of_nat (length (questions r))
    = (if 0 <=? n then Z.min n 3 else Z.max 0 (3 + n)) /\
  metadata r !! "total_count" = Some (VInt (Z.min n 3)) /\
  Forall (fun q => q !! "difficulty" = Some (VStr d)) (questions r) /\
  List.map (fun q => q !! "id") (questions r)
    = take k [ Some (VStr "1"); Some (VStr "2"); Some (VStr "3") ] /\
  List.map (fun q => q !! "question") (questions r)
    = take k [ Some (VStr "What is a variable in Python?");
               Some (VStr "Which symbol is used for comments in Python?");
               Some (VStr "True or False: Python is a compiled programming language.") ] /\
  List.map (fun q => q !! "correctAnswer") (questions r)
    = take k [ Some (VStr "A container for storing data"); Some (VStr "#");
               Some (VStr "False") ] /\
  (0 <= n <= 3 -> length (questions r) = Z.to_nat n).
Proof.
  intros r k.
  assert (Hq : questions r = take k (python_questions d)).
  { subst r k. simpl questions. now rewrite slice_to_first. }
  split; [|split; [|split; [|split; [|split; [|split]]]]].
  - subst r. simpl. rewrite slice_to_length. reflexivity.
  - reflexivity.
  - rewrite Hq. apply Forall_take. repeat constructor.
  - rewrite Hq, <- firstn_map. reflexivity.
  - rewrite Hq, <- firstn_map. reflexivity.
  - rewrite Hq, <- firstn_map. reflexivity.
  - intros Hn. rewrite Hq, length_take. subst k. simpl length.
    assert ((0 <=? n) = true) as -> by (apply Z.leb_le; lia). lia.
Qed.

Lemma python_questions_count_example :
  let r := get_python_questions "Variables hold values." 2 ["Multiple Choice"] "Easy" in
  0 <= 2 <= 3 /\
  length (questions r) = 2%nat /\
  List.map (fun q => q !! "id") (questions r) = [ Some (VStr "1"); Some (VStr "2") ].
Proof.
  intros r. assert (H : 0 <= 2 <= 3) by lia.
  split; [exact H|].
  destruct (python_questions_count "Variables hold values." 2 ["Multiple Choice"] "Easy")
    as (_ & _ & _ & Hid & _ & _ & Hlen).
  split; [exact (Hlen H) | exact Hid].
Defined.

Lemma format_python_question (d : string) :
  Forall (fun q => format_question q = Ok (with_options q)) (python_questions d).
Proof. repeat constructor. Qed.

Lemma format_loop_spec (qs acc : list dict) :
  Forall (fun q => format_question q = Ok (with_options q)) qs ->
  format_loop qs acc = Ok (acc ++ List.map with_options qs).
Proof.
  intros H. revert acc. induction H as [|q qs Hq _ IH]; intros acc; simpl.
  - now rewrite app_nil_r.
  - rewrite Hq. simpl. rewrite IH, <- app_assoc. reflexivity.
Qed.

Lemma fallback_questions_spec (request : QuestionRequest) :
  fallback_questions request
  = Ok {| questions :=
            List.map with_options
              (slice_to (questionCount request) (python_questions (difficulty request)));
          metadata :=
            metadata (get_python_questions (content request) (questionCount request)
                        (questionTypes request) (difficulty request)) |}.
Proof.
  unfold fallback_questions. simpl questions.
  rewrite format_loop_spec; [reflexivity|].
  destruct (slice_to_take (questionCount request) (python_questions (difficulty request)))
    as [k ->].
  apply Forall_take, format_python_question.
Qed.

(** X5.  When the fallback question system is the one that answers,
    [generate_questions] responds, never with status 500, with at most
    three questions: the fallback questions in their order, each with the
    requested difficulty and an explicit list of options (an empty one for
    the true/false question); the metadata echo the requested question
    types. *)
Theorem fallback_questions_served
    (question_agent : option (QuestionRequest -> result QuestionResponse))
    (request : QuestionRequest) :
  uses_question_fallback question_agent request ->
  exists body,
    generate_questions question_agent request = Response body /\
    questions body
      = List.map with_options
          (slice_to (questionCount request) (python_questions (difficulty request))) /\
    (length (questions body) <= 3)%nat /\
    Forall (fun q => q !! "difficulty" = Some (VStr (difficulty request)) /\
                     exists opts, q !! "options" = Some (VList opts))
           (questions body) /\
    metadata body !! "question_types" = Some (strs (questionTypes request)).
Proof.
  intros Hfb.
  assert (Hev : generate_questions question_agent request
                = match fallback_questions request with
                  | Ok r => Response r
                  | Raise e => HTTPException 500 ("Failed to generate questions: " +:+ exn_str e)
                  end).
  { unfold generate_questions. destruct question_agent as [agent|]; [|reflexivity].
    destruct Hfb as [e ->]. reflexivity. }
  rewrite Hev, fallback_questions_spec. eexists. split; [reflexivity|].
  simpl questions. split; [reflexivity|].
  destruct (slice_to_take (questionCount request) (python_questions (difficulty request)))
    as [k ->].
  split; [|split; [|reflexivity]].
  - rewrite length_map, length_take. simpl. lia.
  - apply Forall_map, Forall_take. repeat constructor; eexists; reflexivity.
Qed.

Lemma fallback_questions_served_example :
  uses_question_fallback None two_easy_questions /\
  exists body, generate_questions None two_easy_questions = Response body /\
               length (questions body) = 2%nat.
Proof.
  split; [exact I|].
  destruct (fallback_questions_served None two_easy_questions I)
    as (body & Hb & Hq & _).
  exists body. split; [exact Hb|]. rewrite Hq. reflexivity.
Defined.

Lemma count_correct_own (qs pre : list dict) (acc : Z) :
  Forall (fun q => is_Some (Spec.text_of q "correctAnswer")) qs ->
  count_correct qs (pre ++ own_answers qs) (length pre) acc
  = Ok (acc + Z.of_nat (length qs)).
Proof.
  intros H. revert pre acc. induction H as [|q qs Hq _ IH]; intros pre acc.
  - simpl. f_equal. lia.
  - simpl count_correct. unfold list_index.
    rewrite lookup_app_r by lia. rewrite Nat.sub_diag. simpl lookup. simpl rbind.
    destruct Hq as [s Hs]. unfold Spec.text_of in Hs.
    unfold dict_get at 1. rewrite lookup_singleton_eq.
    destruct (dict_get q "correctAnswer" (VStr EmptyString)) as [| | | |s'| | | |];
      try discriminate.
    unfold answer_matches. simpl. rewrite String.eqb_refl.
    specialize (IH (pre ++ [ ({[ "answer" := VStr s' ]} : dict) ]) (acc + 1)).
    rewrite length_app, Nat.add_1_r in IH. rewrite <- app_assoc in IH. simpl app in IH.
    rewrite IH. f_equal. simpl length. lia.
Qed.

Lemma python_questions_have_answers (d : string) :
  Forall (fun q => is_Some (Spec.text_of (with_options q) "correctAnswer"))
         (python_questions d).
Proof. repeat constructor; eexists; reflexivity. Qed.

Lemma full_marks : Forall (fun n => compute_score n n = Ok 100) [1; 2; 3].
Proof. repeat constructor. Qed.

(** X6.  The two fallback systems agree: a quiz made of the questions
    served by the fallback question system (at least one), each answered
    with its own correct answer, gets the score 100 from the fallback
    feedback system. *)
Theorem own_answers_score_100 (request : QuestionRequest) (body : QuestionResponse)
    (t : string) :
  fallback_questions request = Ok body ->
  questions body <> [] ->
  exists r,
    fallback_feedback {| Api.questions := questions body;
                         answers := own_answers (questions body);
                         topic := t |} = Ok r /\
    score r = 100.
Proof.
  rewrite fallback_questions_spec. intros H Hne. inversion H as [Hb]. clear H.
  subst body. simpl questions in *.
  destruct (slice_to_take (questionCount request) (python_questions (difficulty request)))
    as [k Hk].
  rewrite Hk in *. clear Hk.
  set (qs := List.map with_options (take k (python_questions (difficulty request)))) in *.
  assert (Hall : Forall (fun q => is_Some (Spec.text_of q "correctAnswer")) qs).
  { apply Forall_map, Forall_take, python_questions_have_answers. }
  assert (Hlen : In (Z.of_nat (length qs)) [1; 2; 3]).
  { unfold qs. rewrite length_map, length_take. simpl length.
    destruct k as [|[|[|k]]]; simpl; [now contradiction Hne | tauto | tauto |].
    right. right. left. lia. }
  assert (Hscore : compute_score (Z.of_nat (length qs)) (Z.of_nat (length qs)) = Ok 100).
  { pose proof full_marks as Hf. rewrite Forall_forall in Hf.
    apply Hf. now apply list_elem_of_In. }
  unfold fallback_feedback. simpl Api.questions. simpl answers.
  pose proof (count_correct_own qs [] 0 Hall) as Hc. simpl in Hc. rewrite Hc.
  simpl rbind. rewrite !Z.add_0_l, Hscore. simpl rbind. eexists. split; reflexivity.
Qed.

Lemma own_answers_score_100_example :
  fallback_questions two_easy_questions = Ok two_easy_response /\
  questions two_easy_response <> [] /\
  exists r,
    fallback_feedback {| Api.questions := questions two_easy_response;
                         answers := own_answers (questions two_easy_response);
                         topic := "python" |} = Ok r /\
    score r = 100.
Proof.
  assert (Hb : fallback_questions two_easy_questions = Ok two_easy_response)
    by apply fallback_questions_spec.
  assert (Hne : questions two_easy_response <> []) by discriminate.
  split; [exact Hb|]. split; [exact Hne|].
  apply (own_answers_score_100 two_easy_questions two_easy_response "python" Hb Hne).
Defined.

Lemma concepts_loop_cons (l : string) (lines acc : list string) :
  concepts_loop (l :: lines) acc = concepts_loop lines (acc ++ line_concepts l).
Proof.
  cbn [concepts_loop]. unfold line_concepts. f_equal.
  destruct (startswith "##" (strip l) && (3 <? len (strip l))).
  - destruct (negb _ && _); [reflexivity | now rewrite app_nil_r].
  - destruct (startswith "*" (strip l) && contains "**" (strip l));
      [reflexivity | now rewrite app_nil_r].
Qed.

Lemma concepts_loop_app (lines acc : list string) :
  concepts_loop lines acc = acc ++ concepts_loop lines [].
Proof.
  revert acc. induction lines as [|l lines IH]; intros acc.
  - simpl. now rewrite app_nil_r.
  - rewrite !concepts_loop_cons, IH. symmetry. rewrite IH.
    now rewrite app_nil_l, app_assoc.
Qed.

Lemma concepts_loop_app_lines (l1 l2 acc : list string) :
  concepts_loop (l1 ++ l2) acc = concepts_loop l2 (concepts_loop l1 acc).
Proof.
  revert acc. induction l1 as [|l l1 IH]; intros acc; [reflexivity|].
  rewrite <- app_comm_cons, !concepts_loop_cons. apply IH.
Qed.

Lemma split_nonempty (sep : ascii) (s : string) : split sep s <> [].
Proof.
  destruct s as [|c r]; simpl; [discriminate|].
  destruct (Ascii.eqb c sep); [discriminate|]. destruct (split sep r); discriminate.
Qed.

Lemma split_append (a b : string) :
  split nl (a +:+ newline +:+ b) = split nl a ++ split nl b.
Proof.
  induction a as [|c a IH].
  - rewrite append_nil. unfold newline. rewrite append_cons, append_nil.
    reflexivity.
  - rewrite append_cons. simpl. rewrite IH.
    destruct (Ascii.eqb c nl); [reflexivity|].
    pose proof (split_nonempty nl a) as Hne.
    destruct (split nl a) as [|l ls]; [congruence|]. reflexivity.
Qed.

(** The loop gathers the concepts of the lines, line by line. *)
Lemma concepts_loop_lines (lines acc : list string) :
  concepts_loop lines acc = acc ++ concat (List.map line_concepts lines).
Proof.
  revert acc. induction lines as [|l lines IH]; intros acc.
  - simpl. now rewrite app_nil_r.
  - rewrite concepts_loop_cons, IH. simpl. now rewrite app_assoc.
Qed.

Lemma remove_char_free (c : ascii) (s : string) :
  contains (String c EmptyString) s = false -> remove_char c s = s.
Proof.
  induction s as [|a r IH]; [reflexivity|].
  rewrite contains_unfold. intros H. apply orb_false_iff in H as [H1 H2].
  simpl in H1. simpl.
  destruct (Ascii.eqb_spec c a) as [->|Hne]; [discriminate|].
  assert (Ascii.eqb a c = false) as -> by (apply Ascii.eqb_neq; congruence).
  now rewrite IH.
Qed.

Lemma line_concepts_heading (line name : string) :
  strip line = "## " +:+ name -> heading_name name -> line_concepts line = [name].
Proof.
  intros Hs (Hne & Hstrip & Hh & Hst & Hlen). unfold line_concepts. rewrite Hs.
  change ("## " +:+ name) with (String "#" (String "#" (String " " name))).
  set (l := String "#" (String "#" (String " " name))).
  assert (H1 : startswith "##" l = true) by reflexivity.
  assert (H2 : (3 <? len l) = true).
  { apply Z.ltb_lt. unfold len, l. destruct name; [congruence|].
    simpl String.length. lia. }
  assert (H3 : remove_char star (remove_char "#" l) = String " " name).
  { unfold l. simpl. rewrite (remove_char_free "#" name Hh).
    now rewrite (remove_char_free star name Hst). }
  assert (H4 : strip (String " " name) = name) by exact Hstrip.
  rewrite H1, H2, H3, H4. cbn [andb].
  assert (String.eqb name EmptyString = false) as ->
    by (destruct name; [congruence | reflexivity]).
  assert ((len name <? 100) = true) as -> by now apply Z.ltb_lt.
  reflexivity.
Qed.

Lemma findall_bold_step (open : option string) (a b : ascii) (r : string) :
  findall_bold open (String a (String b r))
  = match open with
    | None =>
        if Ascii.eqb a star && Ascii.eqb b star
        then findall_bold (Some EmptyString) r
        else findall_bold None (String b r)
    | Some acc =>
        if Ascii.eqb a star && Ascii.eqb b star
        then acc :: findall_bold None r
        else if Ascii.eqb a nl then findall_bold None (String b r)
        else findall_bold (Some (acc +:+ String a EmptyString)) (String b r)
    end.
Proof. reflexivity. Qed.

Lemma findall_bold_plain (s : string) :
  contains "*" s = false -> findall_bold None s = [].
Proof.
  induction s as [|a r IH]; [reflexivity|].
  rewrite contains_unfold. intros H. apply orb_false_iff in H as [H1 H2].
  destruct r as [|b r']; [reflexivity|].
  rewrite findall_bold_step.
  assert (Ascii.eqb a star = false) as ->.
  { simpl in H1. destruct (Ascii.eqb_spec star a) as [<-|Hne].
    - discriminate.
    - apply Ascii.eqb_neq. congruence. }
  cbn [andb]. exact (IH H2).
Qed.

Lemma findall_bold_close (a acc rest : string) :
  contains "*" a = false -> contains newline a = false ->
  findall_bold (Some acc) (a +:+ "**" +:+ rest)
  = (acc +:+ a) :: findall_bold None rest.
Proof.
  revert acc. induction a as [|c a IH]; intros acc Hs Hn.
  - rewrite append_nil, append_empty_r. reflexivity.
  - rewrite contains_unfold in Hs. apply orb_false_iff in Hs as [Hs1 Hs2].
    rewrite has_newline_cons in Hn. apply orb_false_iff in Hn as [Hn1 Hn2].
    assert (Hc1 : Ascii.eqb c star = false).
    { simpl in Hs1. destruct (Ascii.eqb_spec star c) as [<-|Hne].
      - discriminate.
      - apply Ascii.eqb_neq. congruence. }
    assert (Hc2 : Ascii.eqb c nl = false) by now rewrite Ascii.eqb_sym.
    pose proof (IH (acc +:+ String c EmptyString) Hs2 Hn2) as IHa.
    assert (E : exists b r', a +:+ "**" +:+ rest = String b r').
    { destruct a as [|d a']; [now exists star, (String star rest)|].
      exists d, (a' +:+ "**" +:+ rest). now rewrite append_cons. }
    destruct E as (b & r' & E). rewrite append_cons. rewrite E in IHa |- *.
    rewrite findall_bold_step, Hc1, Hc2. cbn [andb]. rewrite IHa.
    f_equal. now rewrite append_assoc.
Qed.

Lemma line_concepts_bold (line a rest : string) :
  strip line = "* **" +:+ a +:+ "**" +:+ rest ->
  plain a -> contains "*" rest = false ->
  line_concepts line = [a].
Proof.
  intros Hs [Ha Hn] Hr. unfold line_concepts. rewrite Hs.
  set (tail := a +:+ "**" +:+ rest).
  change ("* **" +:+ tail) with (String "*" (String " " (String "*" (String "*" tail)))).
  set (l := String "*" (String " " (String "*" (String "*" tail)))).
  assert (H1 : startswith "##" l = false) by reflexivity.
  assert (H2 : startswith "*" l = true) by reflexivity.
  assert (H3 : contains "**" l = true) by reflexivity.
  assert (H4 : findall_bold None l = findall_bold (Some EmptyString) tail) by reflexivity.
  rewrite H1, H2, H3, H4. cbn [andb]. unfold tail.
  rewrite (findall_bold_close a EmptyString rest Ha Hn), append_nil.
  now rewrite (findall_bold_plain rest Hr).
Qed.

(** X7.  [extract_key_concepts_from_content] returns the concepts of
    the lines of the content, in the order of the lines, cut to ten; when
    no line yields a concept it returns the five default concepts.  A
    line yields concepts as follows: a heading line ["## name"] yields
    the name; a bullet line ["* **term** ..."] yields the term in bold;
    a line that starts neither with "##" nor with "*" yields nothing.  So
    the result has between one and ten concepts, and appending further
    lines to a content that yields concepts leaves the concepts it
    returned at the head of the result. *)
Theorem key_concepts_bounds (content : string) :
  let found := concat (List.map line_concepts (split nl content)) in
  (1 <= length (extract_key_concepts_from_content content) <= 10)%nat /\
  (found = [] ->
   extract_key_concepts_from_content content
   = [ "Core Principles"; "Key Components"; "Fundamental Concepts";
       "Main Applications"; "Important Methods" ]) /\
  (found <> [] -> extract_key_concepts_from_content content = take 10 found) /\
  (forall line name,
     strip line = "## " +:+ name -> heading_name name -> line_concepts line = [name]) /\
  (forall line a rest,
     strip line = "* **" +:+ a +:+ "**" +:+ rest ->
     plain a -> contains "*" rest = false -> line_concepts line = [a]) /\
  (forall line,
     startswith "##" (strip line) = false -> startswith "*" (strip line) = false ->
     line_concepts line = []) /\
  (found <> [] ->
   forall more,
     take (length (extract_key_concepts_from_content content))
          (extract_key_concepts_from_content (content +:+ newline +:+ more))
     = extract_key_concepts_from_content content).
Proof.
  intros found.
  assert (Hf : concepts_loop (split nl content) [] = found).
  { now rewrite concepts_loop_lines. }
  unfold extract_key_concepts_from_content. rewrite Hf.
  split; [|split; [|split; [|split; [|split; [|split]]]]].
  - destruct found as [|c cs]; [simpl; lia|].
    rewrite length_take. simpl length. lia.
  - intros ->. reflexivity.
  - intros Hne. destruct found; [congruence | reflexivity].
  - exact line_concepts_heading.
  - exact line_concepts_bold.
  - intros line H1 H2. unfold line_concepts. now rewrite H1, H2.
  - intros Hne more. rewrite split_append, concepts_loop_app_lines.
    rewrite (concepts_loop_app (split nl more)). rewrite Hf.
    set (c2 := concepts_loop (split nl more) []).
    destruct found as [|c cs] eqn:E1; [congruence|].
    change ((c :: cs) ++ c2) with (c :: (cs ++ c2)). cbv iota beta.
    rewrite <- E1. change (c :: cs ++ c2) with ((c :: cs) ++ c2). rewrite <- E1.
    rewrite length_take, take_take.
    replace (Nat.min (Nat.min 10 (length found)) 10) with (Nat.min 10 (length found)) by lia.
    rewrite take_app_le by lia.
    destruct (Nat.le_ge_cases 10 (length found)) as [H|H].
    + now rewrite Nat.min_l by exact H.
    + rewrite Nat.min_r by exact H. now rewrite firstn_all, take_ge by lia.
Qed.

Lemma key_concepts_bounds_example :
  strip "  ## Variables " = "## " +:+ "Variables" /\
  heading_name "Variables" /\
  line_concepts "  ## Variables " = ["Variables"] /\
  concat (List.map line_concepts (split nl three_lines)) <> [] /\
  extract_key_concepts_from_content three_lines = ["Variables"; "Loops"].
Proof.
  assert (H1 : strip "  ## Variables " = "## " +:+ "Variables") by reflexivity.
  assert (H2 : heading_name "Variables").
  { unfold heading_name. repeat split; try reflexivity. discriminate. }
  assert (H3 : concat (List.map line_concepts (split nl three_lines)) <> [])
    by (vm_compute; discriminate).
  destruct (key_concepts_bounds three_lines) as (_ & _ & Ht & _).
  destruct (key_concepts_bounds EmptyString) as (_ & _ & _ & Hh & _).
  split; [exact H1|]. split; [exact H2|]. split; [exact (Hh _ _ H1 H2)|].
  split; [exact H3|]. rewrite (Ht H3). vm_compute. reflexivity.
Defined.

End QuestionFacts.

(** ** Retrieval, context and study materials *)

Section PipelineFacts.
Import PyStr ContentGeneratorAgent ContentPipeline PipelineSpec Float64 FloatRange.

Lemma assess_quality_range (l : list source) :
  Z.of_nat (length l) < 2 ^ 63 ->
  exists q, _assess_source_quality l = Ok q /\
            leb zero q = true /\ leb q one = true.
Proof.
  intros Hlen. destruct l as [|s rest].
  - exists zero. repeat split; reflexivity.
  - assert (Hne : s :: rest <> []) by discriminate.
    pose proof (average_score_nonneg (s :: rest) Hne Hlen) as Havg.
    unfold _assess_source_quality. rewrite quality_loop_spec. simpl rbind.
    eexists. split; [reflexivity|]. split.
    + apply leb_zero_nonneg. apply (py_min_nonneg _ one); [exact Havg | reflexivity].
    + now apply py_min_one_le.
Qed.

(** X8.  For every retrieval system (its result lists shorter than
    2^62), [_retrieve_reliable_sources] keeps at most three academic and
    three educational sources and reports a quality score between 0 and 1;
    when either search raises, it returns no sources and the score 0.5. *)
Theorem retrieved_sources_bounded
    (search : string -> string -> result (list source)) (topic subject : string) :
  (forall q c l, search q c = Ok l -> Z.of_nat (length l) < 2 ^ 62) ->
  let r := _retrieve_reliable_sources search topic subject in
  (length (academic r) <= 3)%nat /\
  (length (educational r) <= 3)%nat /\
  leb zero (quality_score r) = true /\
  leb (quality_score r) one = true /\
  ((exists e, search (topic +:+ " " +:+ subject +:+ " academic textbook") "Academic"
              = Raise e) \/
   (exists e, search (topic +:+ " " +:+ subject +:+ " educational") "Educational"
              = Raise e) ->
   r = {| academic := []; educational := []; quality_score := half |}).
Proof.
  intros Hsize. unfold _retrieve_reliable_sources.
  destruct (search (topic +:+ " " +:+ subject +:+ " academic textbook") "Academic")
    as [a|e1] eqn:Ea; simpl.
  2:{ repeat split; try reflexivity; try (simpl; lia). }
  destruct (search (topic +:+ " " +:+ subject +:+ " educational") "Educational")
    as [w|e2] eqn:Ew; simpl.
  2:{ repeat split; try reflexivity; try (simpl; lia). }
  destruct (assess_quality_range (a ++ w)) as (q & -> & H0 & H1).
  { rewrite length_app, Nat2Z.inj_add.
    pose proof (Hsize _ _ _ Ea). pose proof (Hsize _ _ _ Ew).
    change (2 ^ 63) with (2 ^ 62 + 2 ^ 62). lia. }
  simpl. split; [rewrite length_take; lia|]. split; [rewrite length_take; lia|].
  split; [exact H0|]. split; [exact H1|].
  intros [[e He]|[e He]]; discriminate.
Qed.

Lemma retrieved_sources_bounded_example :
  (forall q c l, search_finds q c = Ok l -> Z.of_nat (length l) < 2 ^ 62) /\
  leb (quality_score (_retrieve_reliable_sources search_finds "Mitosis" "Biology")) one
  = true.
Proof.
  assert (H : forall q c l, search_finds q c = Ok l -> Z.of_nat (length l) < 2 ^ 62).
  { intros q c l Hl. inversion Hl. vm_compute. reflexivity. }
  split; [exact H|].
  apply (retrieved_sources_bounded search_finds "Mitosis" "Biology" H).
Defined.

Lemma contains_trans (a b c : string) :
  contains a b = true -> contains b c = true -> contains a c = true.
Proof.
  intros Hab Hbc. apply contains_spec in Hab as (x & y & ->).
  apply contains_spec in Hbc as (u & v & ->).
  apply contains_spec. exists (u +:+ x), (y +:+ v).
  now rewrite !append_assoc.
Qed.

Lemma contains_refl (a : string) : contains a a = true.
Proof.
  apply contains_spec. exists EmptyString, EmptyString.
  now rewrite append_nil, append_empty_r.
Qed.

Lemma contains_append_l (n h b : string) :
  contains n h = true -> contains n (h +:+ b) = true.
Proof.
  intros H. apply contains_spec in H as (x & y & ->).
  apply contains_spec. exists x, (y +:+ b). now rewrite !append_assoc.
Qed.

Lemma join_contains (sep p : string) (parts : list string) :
  In p parts -> contains p (join sep parts) = true.
Proof.
  induction parts as [|x parts IH]; [intros []|].
  intros [->|Hin].
  - destruct parts as [|y parts]; [apply contains_refl|].
    change (join sep (p :: y :: parts)) with (p +:+ sep +:+ join sep (y :: parts)).
    apply contains_append_l, contains_refl.
  - destruct parts as [|y parts]; [destruct Hin|].
    change (join sep (x :: y :: parts)) with (x +:+ sep +:+ join sep (y :: parts)).
    apply contains_append_r, contains_append_r. now apply IH.
Qed.

Lemma source_block_contains (kind : string) (s : source) :
  contains (get_or_empty (content s)) (source_block kind s) = true /\
  contains (get_or (title s) "Unknown") (source_block kind s) = true /\
  startswith (kind +:+ " Source: ") (source_block kind s) = true.
Proof.
  unfold source_block. split; [|split].
  - do 4 apply contains_append_r. apply contains_refl.
  - do 2 apply contains_append_r. apply contains_append_l, contains_refl.
  - rewrite <- append_assoc. apply startswith_append.
Qed.

(** X9.  The context built by [_gather_enhanced_context] contains the
    content and the title (the word Unknown for a missing title) of every
    academic and educational source, and is empty exactly when there is no
    source. *)
Theorem enhanced_context_holds_sources (topic subject : string) (srcs : sources) :
  let context := _gather_enhanced_context topic subject srcs in
  Forall (fun s => contains (get_or_empty (content s)) context = true /\
                   contains (get_or (title s) "Unknown") context = true)
         (academic srcs ++ educational srcs) /\
  (academic srcs ++ educational srcs = [] <-> context = EmptyString).
Proof.
  intros context. subst context. unfold _gather_enhanced_context. simpl app.
  split.
  - apply Forall_forall. intros s Hs. apply list_elem_of_In in Hs.
    destruct (source_block_contains "Academic" s) as (Hc1 & Ht1 & _).
    destruct (source_block_contains "Educational" s) as (Hc2 & Ht2 & _).
    apply in_app_or in Hs as [Hs|Hs].
    + assert (Hin : In (source_block "Academic" s)
                      (List.map (source_block "Academic") (academic srcs)
                       ++ List.map (source_block "Educational") (educational srcs))).
      { apply in_or_app. left. now apply in_map. }
      pose proof (join_contains (newline +:+ newline) _ _ Hin) as Hj.
      split; [exact (contains_trans _ _ _ Hc1 Hj) | exact (contains_trans _ _ _ Ht1 Hj)].
    + assert (Hin : In (source_block "Educational" s)
                      (List.map (source_block "Academic") (academic srcs)
                       ++ List.map (source_block "Educational") (educational srcs))).
      { apply in_or_app. right. now apply in_map. }
      pose proof (join_contains (newline +:+ newline) _ _ Hin) as Hj.
      split; [exact (contains_trans _ _ _ Hc2 Hj) | exact (contains_trans _ _ _ Ht2 Hj)].
  - split.
    + intros H. apply app_eq_nil in H as [-> ->]. reflexivity.
    + intros H. destruct (academic srcs) as [|a l1].
      * destruct (educational srcs) as [|b l2]; [reflexivity|].
        exfalso. simpl in H. destruct (List.map _ l2); discriminate.
      * exfalso. simpl in H.
        destruct (List.map _ l1 ++ List.map _ (educational srcs)); discriminate.
Qed.

Lemma str_take_length (n : nat) (s : string) : (String.length (str_take n s) <= n)%nat.
Proof.
  revert s. induction n as [|n IH]; intros s; [simpl; lia|].
  destruct s as [|c r]; simpl; [lia|]. specialize (IH r). lia.
Qed.

Lemma context_loop_spec (rs : list source) (acc parts : list string) :
  context_loop rs acc = Ok parts ->
  exists new, parts = acc ++ new /\ length new = length rs /\
              Forall (fun p => (String.length p <= 500)%nat) new.
Proof.
  revert acc. induction rs as [|r rs IH]; intros acc H; simpl in H.
  - inversion H. exists []. rewrite app_nil_r. repeat split. constructor.
  - destruct (content r) as [c|]; [|discriminate].
    apply IH in H as (new & -> & Hl & Hf).
    exists (str_take 500 c :: new). rewrite <- app_assoc. split; [reflexivity|].
    split; [simpl; lia|]. constructor; [apply str_take_length | assumption].
Qed.

Lemma join_length (sep : string) (B : nat) (parts : list string) :
  Forall (fun p => (String.length p <= B)%nat) parts ->
  (String.length (join sep parts) + String.length sep
   <= length parts * (B + String.length sep) + String.length sep)%nat /\
  (parts <> [] ->
   String.length (join sep parts) + String.length sep
   <= length parts * (B + String.length sep))%nat.
Proof.
  induction 1 as [|p parts Hp _ IH].
  - simpl. split; [lia | congruence].
  - destruct parts as [|q parts].
    + simpl. split; [lia|]. intros _. lia.
    + change (join sep (p :: q :: parts)) with (p +:+ sep +:+ join sep (q :: parts)).
      rewrite !length_append.
      destruct IH as [_ IH]. specialize (IH ltac:(discriminate)).
      simpl length in *. split; [lia|]. intros _. lia.
Qed.

Lemma context_loop_texts (rs : list source) (texts acc : list string) :
  List.map content rs = List.map Some texts ->
  context_loop rs acc = Ok (acc ++ List.map (str_take 500) texts).
Proof.
  revert texts acc. induction rs as [|r rs IH]; intros texts acc H.
  - destruct texts; [|discriminate]. simpl. now rewrite app_nil_r.
  - destruct texts as [|t texts]; [discriminate|]. simpl in H.
    injection H as Hr Hrs. simpl. rewrite Hr, (IH texts) by exact Hrs.
    now rewrite <- app_assoc.
Qed.

Lemma context_loop_raises (rs : list source) (acc : list string) :
  Exists (fun r => content r = None) rs -> exists e, context_loop rs acc = Raise e.
Proof.
  intros H. revert acc. induction H as [r rs Hr | r rs _ IH]; intros acc; simpl.
  - rewrite Hr. eauto.
  - destruct (content r); [apply IH | eauto].
Qed.

(** X10.  The context built by [_gather_context] is at most 1502
    characters long (three results of 500 characters and two spaces),
    whatever the retrieval system returns.  It is empty whenever the
    search raises, whenever it finds nothing, and whenever one of the
    first three results has no content; otherwise it is the first 500
    characters of the contents of the first three results, joined by
    spaces. *)
Theorem gather_context_short
    (search : string -> string -> result (list source)) (topic subject : string) :
  let found := search (topic +:+ " " +:+ subject) "General" in
  let context := _gather_context search topic subject in
  (String.length context <= 1502)%nat /\
  ((exists e, found = Raise e) -> context = EmptyString) /\
  (found = Ok [] -> context = EmptyString) /\
  (forall results,
     found = Ok results -> Exists (fun r => content r = None) (take 3 results) ->
     context = EmptyString) /\
  (forall results texts,
     found = Ok results -> results <> [] ->
     List.map content (take 3 results) = List.map Some texts ->
     context = join " " (List.map (str_take 500) texts)).
Proof.
  intros found context. subst found context.
  split; [|split; [|split; [|split]]].
  - unfold _gather_context.
    destruct (search (topic +:+ " " +:+ subject) "General") as [rs|e]; simpl; [|lia].
    destruct rs as [|r rs]; [simpl; lia|].
    destruct (context_loop (take 3 (r :: rs)) []) as [parts|e] eqn:E; simpl; [|lia].
    apply context_loop_spec in E as (new & -> & Hl & Hf). simpl app.
    destruct (join_length " " 500 new Hf) as [_ Hj].
    assert (Hne : new <> []).
    { intros ->. rewrite length_take in Hl. simpl in Hl. lia. }
    specialize (Hj Hne). rewrite length_take in Hl. simpl String.length in Hj.
    assert (length new <= 3)%nat by lia. nia.
  - intros [e He]. unfold _gather_context. rewrite He. reflexivity.
  - intros He. unfold _gather_context. rewrite He. reflexivity.
  - intros results He Hex. unfold _gather_context. rewrite He. simpl rbind.
    destruct results as [|r rs]; [reflexivity|].
    destruct (context_loop_raises _ [] Hex) as [e ->]. reflexivity.
  - intros results texts He Hne Hc. unfold _gather_context. rewrite He. simpl rbind.
    destruct results as [|r rs]; [congruence|].
    rewrite (context_loop_texts _ texts [] Hc). reflexivity.
Qed.

Lemma gather_context_short_example :
  (exists e, search_fails ("Mitosis" +:+ " " +:+ "Biology") "General" = Raise e) /\
  _gather_context search_fails "Mitosis" "Biology" = EmptyString /\
  search_finds ("Mitosis" +:+ " " +:+ "Biology") "General" = Ok two_sources /\
  two_sources <> [] /\
  _gather_context search_finds "Mitosis" "Biology"
  = "A peer-reviewed university course. Cells divide.".
Proof.
  assert (H1 : exists e, search_fails ("Mitosis" +:+ " " +:+ "Biology") "General" = Raise e)
    by (eexists; reflexivity).
  assert (H2 : search_finds ("Mitosis" +:+ " " +:+ "Biology") "General" = Ok two_sources)
    by reflexivity.
  assert (H3 : two_sources <> []) by discriminate.
  destruct (gather_context_short search_fails "Mitosis" "Biology") as (_ & Hf & _).
  destruct (gather_context_short search_finds "Mitosis" "Biology") as (_ & _ & _ & _ & Hs).
  split; [exact H1|]. split; [exact (Hf H1)|]. split; [exact H2|]. split; [exact H3|].
  exact (Hs two_sources
           ["A peer-reviewed university course."; "Cells divide."] H2 H3 eq_refl).
Defined.

Lemma entity_texts_length (es : list entity) (ts : list string) :
  entity_texts es = Ok ts -> length ts = length es.
Proof.
  revert ts. induction es as [|e es IH]; intros ts H; simpl in H.
  - now inversion H.
  - destruct (entity_text e) as [t|]; [|discriminate]. simpl in H.
    destruct (entity_texts es) as [ts'|]; [|discriminate]. simpl in H.
    inversion H. simpl. f_equal. now apply IH.
Qed.

Lemma entity_texts_take (n : nat) (es : list entity) (ts : list string) :
  entity_texts es = Ok ts -> entity_texts (take n es) = Ok (take n ts).
Proof.
  revert es ts. induction n as [|n IH]; intros es ts H; [now rewrite !take_0|].
  destruct es as [|e es]; simpl in H.
  - inversion H. reflexivity.
  - destruct (entity_text e) as [t|] eqn:Et; [|discriminate]. simpl in H.
    destruct (entity_texts es) as [ts'|] eqn:E; [|discriminate]. simpl in H.
    inversion H. simpl. rewrite Et. simpl. rewrite (IH es ts' E). reflexivity.
Qed.

Lemma flashcard_loop_spec (topic : string) (es : list entity) (acc fs : list flashcard) :
  flashcard_loop topic es acc = Ok fs ->
  exists ts, entity_texts es = Ok ts /\
             List.map term fs = List.map term acc ++ ts.
Proof.
  revert acc. induction es as [|e es IH]; intros acc H; simpl in H.
  - inversion H. exists []. now rewrite app_nil_r.
  - simpl. destruct (entity_text e) as [t|]; [|discriminate]. simpl in H. simpl.
    apply IH in H as (ts & -> & Hm). exists (t :: ts). split; [reflexivity|].
    rewrite Hm, map_app, <- app_assoc. reflexivity.
Qed.

Lemma entity_texts_of (es : list entity) (texts : list string) :
  List.map text es = List.map Some texts -> entity_texts es = Ok texts.
Proof.
  revert texts. induction es as [|e es IH]; intros texts H.
  - destruct texts; [reflexivity | discriminate].
  - destruct texts as [|t texts]; [discriminate|]. simpl in H.
    injection H as He Hes. simpl. unfold entity_text. rewrite He. simpl.
    now rewrite (IH texts Hes).
Qed.

Lemma entity_texts_raises (es : list entity) :
  Exists (fun e => text e = None) es -> exists x, entity_texts es = Raise x.
Proof.
  induction 1 as [e es He | e es _ [x IH]]; simpl; unfold entity_text.
  - rewrite He. simpl. eauto.
  - destruct (text e); simpl; [|eauto]. rewrite IH. simpl. eauto.
Qed.

Lemma flashcard_loop_cards (topic : string) (es : list entity) (texts : list string)
    (acc : list flashcard) :
  List.map text es = List.map Some texts ->
  flashcard_loop topic es acc = Ok (acc ++ zip_with (card topic) es texts).
Proof.
  revert texts acc. induction es as [|e es IH]; intros texts acc H.
  - destruct texts; [|discriminate]. simpl. now rewrite app_nil_r.
  - destruct texts as [|t texts]; [discriminate|]. simpl in H.
    injection H as He Hes. simpl. unfold entity_text. rewrite He. simpl.
    rewrite (IH texts _ Hes), <- app_assoc. reflexivity.
Qed.

(** X11.  [_create_study_materials] returns at most 10 flashcards, 15
    key concepts and 3 diagram suggestions, and the terms of the
    flashcards are the first ten key concepts.  When the language
    processor returns entities and key terms and each of the first 15
    entities has a text, the materials are built from the entities: their
    texts as key concepts, a flashcard for each of the first ten (with
    the label of the entity, or CONCEPT, as its category), the four
    learning objectives on the topic, the bullet notes of the content and
    the diagram suggestions for the topic.  When the language processor
    raises, or one of the first 15 entities has no text, the materials
    are empty. *)
Theorem study_materials_caps
    (extract_entities : string -> result (list entity))
    (extract_key_terms : string -> result (list string))
    (bullet content topic : string) :
  let m := _create_study_materials extract_entities extract_key_terms bullet
             content topic in
  let empty :=
    {| flashcards := []; key_concepts := []; learning_objectives := [];
       study_notes := EmptyString; diagram_suggestions := [] |} in
  (length (flashcards m) <= 10)%nat /\
  (length (key_concepts m) <= 15)%nat /\
  (length (diagram_suggestions m) <= 3)%nat /\
  List.map term (flashcards m) = take 10 (key_concepts m) /\
  (forall entities key_terms texts,
     extract_entities content = Ok entities ->
     extract_key_terms content = Ok key_terms ->
     List.map text (take 15 entities) = List.map Some texts ->
     m = {| flashcards := zip_with (card topic) (take 10 entities) (take 10 texts);
            key_concepts := texts;
            learning_objectives :=
              [ "Define and explain " +:+ topic;
                "Identify key components of " +:+ topic;
                "Apply " +:+ topic +:+ " concepts to real-world scenarios";
                "Analyze relationships within " +:+ topic ];
            study_notes := _create_bullet_notes bullet content;
            diagram_suggestions := _suggest_diagrams topic entities |}) /\
  ((exists e, extract_entities content = Raise e) -> m = empty) /\
  ((exists e, extract_key_terms content = Raise e) -> m = empty) /\
  (forall entities,
     extract_entities content = Ok entities ->
     Exists (fun e => text e = None) (take 15 entities) -> m = empty).
Proof.
  intros m empty. subst m empty.
  split; [|split; [|split; [|split; [|split; [|split; [|split]]]]]].
  5:{ intros entities key_terms texts He Hk Ht. unfold _create_study_materials.
      rewrite He, Hk. simpl rbind.
      assert (H10 : List.map text (take 10 entities) = List.map Some (take 10 texts)).
      { apply (f_equal (take 10)) in Ht. rewrite <- !firstn_map.
        rewrite !firstn_map, take_take in Ht. rewrite <- !firstn_map in Ht. exact Ht. }
      rewrite (flashcard_loop_cards topic _ _ [] H10). simpl rbind.
      rewrite (entity_texts_of _ _ Ht). reflexivity. }
  5:{ intros [e He]. unfold _create_study_materials. rewrite He. reflexivity. }
  5:{ intros [e He]. unfold _create_study_materials. rewrite He.
      destruct (extract_entities content); reflexivity. }
  5:{ intros entities He Hex. unfold _create_study_materials. rewrite He. simpl rbind.
      destruct (entity_texts_raises _ Hex) as [x Hx].
      destruct (extract_key_terms content); [|reflexivity]. simpl rbind.
      destruct (flashcard_loop topic (take 10 entities) []); [|reflexivity].
      simpl rbind. rewrite Hx. reflexivity. }
  all: unfold _create_study_materials.
  all: destruct (extract_entities content) as [es|e]; simpl; try lia; try reflexivity.
  all: destruct (extract_key_terms content) as [kt|e]; simpl; try lia; try reflexivity.
  all: destruct (flashcard_loop topic (take 10 es) []) as [fs|e] eqn:Ef; simpl;
    try lia; try reflexivity.
  all: destruct (entity_texts (take 15 es)) as [cs|e] eqn:Ec; simpl;
    try lia; try reflexivity.
  all: apply flashcard_loop_spec in Ef as (ts & Hts & Hm); simpl in Hm.
  all: pose proof (entity_texts_take 10 _ _ Ec) as H10.
  all: rewrite take_take in H10; simpl Nat.min in H10.
  all: assert (Hcs : ts = take 10 cs) by congruence.
  all: rewrite Hcs in Hm; clear Hcs.
  all: pose proof (entity_texts_length _ _ Ec) as Hlc; rewrite length_take in Hlc.
  - rewrite <- (length_map term), Hm, length_take. lia.
  - lia.
  - unfold _suggest_diagrams. rewrite length_take. lia.
  - exact Hm.
Qed.

Lemma study_materials_caps_example :
  let m := _create_study_materials entities_found terms_found "- "
             "Cells divide by mitosis." "Mitosis" in
  entities_found "Cells divide by mitosis." = Ok two_entities /\
  terms_found "Cells divide by mitosis." = Ok ["mitosis"; "cell"] /\
  List.map text (take 15 two_entities) = List.map Some ["mitosis"; "cell"] /\
  key_concepts m = ["mitosis"; "cell"] /\
  flashcards m
  = [ {| term := "mitosis"; definition := "Key concept in Mitosis";
         category := "PROCESS" |};
      {| term := "cell"; definition := "Key concept in Mitosis";
         category := "CONCEPT" |} ] /\
  length (learning_objectives m) = 4%nat.
Proof.
  intros m.
  assert (H1 : entities_found "Cells divide by mitosis." = Ok two_entities) by reflexivity.
  assert (H2 : terms_found "Cells divide by mitosis." = Ok ["mitosis"; "cell"])
    by reflexivity.
  assert (H3 : List.map text (take 15 two_entities) = List.map Some ["mitosis"; "cell"])
    by reflexivity.
  destruct (study_materials_caps entities_found terms_found "- "
              "Cells divide by mitosis." "Mitosis") as (_ & _ & _ & _ & Hb & _).
  specialize (Hb _ _ _ H1 H2 H3). fold m in Hb.
  split; [exact H1|]. split; [exact H2|]. split; [exact H3|].
  rewrite Hb. repeat split.
Defined.

End PipelineFacts.

(** ** The store: errors before the store, and identifiers *)

Section StoreFacts.
Import Mongo Driver Models MongoDBService PersistenceSpec StoreSpec.

Lemma served_nil (w : world) : faults w = [] -> served w = w.
Proof. destruct w. simpl. intros ->. reflexivity. Qed.

Lemma driver_call_served {A} (body : M A) (w : world) :
  answering w -> driver_call body w = body (served w).
Proof.
  unfold answering, driver_call. intros Hf.
  destruct (faults w) as [|[] fs] eqn:Ef.
  - now rewrite served_nil.
  - exfalso. now apply Hf.
  - unfold served. now rewrite Ef.
Qed.

Lemma try_except_raise {A} (body : M A) (handler : exn -> M A) (w w1 : world) (e : exn) :
  body w = (Raise e, w1) -> try_except body handler w = handler e w1.
Proof. intros H. unfold try_except. now rewrite H. Qed.

Lemma bind_raise {A B} (m : M A) (f : A -> M B) (w w1 : world) (e : exn) :
  m w = (Raise e, w1) -> bind m f w = (Raise e, w1).
Proof. intros H. unfold bind. now rewrite H. Qed.

Lemma on_error_runs (message : string) (s : retval) (e : exn) (w : world) :
  on_error message s e w = (Ok s, set_stdout (stdout w ++ [message +:+ exn_str e]) w).
Proof. reflexivity. Qed.

(** *** Malformed identifiers *)

Lemma ObjectId_length (s : string) (o : N) :
  Bson.ObjectId s = Ok o -> String.length s = 24%nat.
Proof.
  unfold Bson.ObjectId. destruct (String.length s =? 24)%nat eqn:E; [|discriminate].
  intros _. now apply Nat.eqb_eq.
Qed.

(** X13.  A call with a string that is no object identifier (as
    [get_user], [update_content_views], [update_user_preferences],
    [update_question_stats] and [end_study_session] take one) returns
    [None] without reaching the store: the world is unchanged apart from
    one printed line, the fault schedule included. *)
Theorem malformed_id_stops_before_store (c : call) (s : string) (e : exn) (w : world) :
  id_argument c = Some s ->
  Bson.ObjectId s = Raise e ->
  exists line,
    run c w = (Ok RNone, set_stdout (stdout w ++ [line]) w).
Proof.
  intros Hc He.
  destruct c; simpl in Hc; try discriminate; inversion Hc; subst; simpl run.
  - unfold update_content_views. eexists.
    erewrite try_except_raise; [apply on_error_runs|].
    apply bind_raise. unfold lift. now rewrite He.
  - unfold update_question_stats. eexists.
    erewrite try_except_raise; [apply on_error_runs|].
    apply bind_raise. unfold lift. now rewrite He.
  - unfold get_user. eexists.
    erewrite try_except_raise; [apply on_error_runs|].
    apply bind_raise. unfold lift. now rewrite He.
  - unfold update_user_preferences. eexists.
    erewrite try_except_raise; [apply on_error_runs|].
    apply bind_raise. unfold lift. now rewrite He.
  - unfold end_study_session. eexists.
    erewrite try_except_raise; [apply on_error_runs|].
    erewrite bind_ok; [|reflexivity].
    apply bind_raise. unfold lift. now rewrite He.
Qed.

Lemma malformed_id_stops_before_store_example :
  id_argument (GetUser "demo_user_123") = Some "demo_user_123" /\
  Bson.ObjectId "demo_user_123" = Raise InvalidId /\
  exists line,
    run (GetUser "demo_user_123") demo_world
    = (Ok RNone, set_stdout (stdout demo_world ++ [line]) demo_world).
Proof.
  split; [reflexivity|]. split; [reflexivity|].
  apply (malformed_id_stops_before_store (GetUser "demo_user_123") "demo_user_123"
           InvalidId demo_world); reflexivity.
Defined.

(** *** Keyword arguments *)

Lemma bind_kwargs_unknown (params : list (string * option value)) (kw : dict) (k : string) :
  is_Some (kw !! k) -> ~ In k params.*1 -> bind_kwargs params kw = Raise TypeError.
Proof.
  intros [v Hv] Hk. unfold bind_kwargs.
  destruct (forallb _ _) eqn:E; [|reflexivity]. exfalso.
  rewrite forallb_forall in E.
  assert (Hin : In k (map_to_list kw).*1).
  { apply list_elem_of_In, list_elem_of_fmap. exists (k, v). split; [reflexivity|].
    now apply elem_of_map_to_list. }
  apply E in Hin. apply existsb_exists in Hin as (k' & Hk' & Heq).
  apply String.eqb_eq in Heq. subst k'. contradiction.
Qed.

Lemma bind_loop_missing (params : list (string * option value)) (kw : dict) (k : string) :
  In (k, None) params -> kw !! k = None ->
  exists e,
    foldr (fun p acc =>
             rbind acc (fun args =>
               match kw !! p.1, p.2 with
               | Some v, _ => Ok (<[p.1 := v]> args)
               | None, Some default => Ok (<[p.1 := default]> args)
               | None, None => Raise TypeError
               end))
          (Ok (∅ : dict)) params = Raise e.
Proof.
  intros Hin Hk. induction params as [|p params IH]; [destruct Hin|].
  simpl. destruct Hin as [->|Hin].
  - simpl. rewrite Hk. destruct (foldr _ _ params); simpl; eauto.
  - destruct (IH Hin) as [e ->]. simpl. eauto.
Qed.

Lemma bind_kwargs_ill_formed (params : list (string * option value)) (kw : dict) :
  ill_formed params kw -> exists e, bind_kwargs params kw = Raise e.
Proof.
  intros [(k & Hin & Hk)|(k & Hs & Hk)].
  - unfold bind_kwargs. destruct (forallb _ _); [|eauto].
    now apply (bind_loop_missing params kw k).
  - exists TypeError. now apply (bind_kwargs_unknown params kw k).
Qed.

Lemma bind_kwargs_bound (params : list (string * option value)) (kw args : dict)
    (k : string) :
  bind_kwargs params kw = Ok args -> args !! k = bound params kw k.
Proof.
  unfold bind_kwargs. destruct (forallb _ _); [|discriminate].
  revert args. induction params as [|p params IH]; intros args H; simpl in H.
  - inversion H. reflexivity.
  - destruct (foldr _ _ params) as [args0|e]; [|discriminate]. simpl in H.
    specialize (IH args0 eq_refl). simpl.
    destruct (String.eqb p.1 k) eqn:E.
    + apply String.eqb_eq in E. subst k.
      destruct (kw !! p.1) as [v|]; [|destruct p.2 as [v|]]; inversion H;
        now rewrite lookup_insert_eq.
    + apply String.eqb_neq in E.
      destruct (kw !! p.1) as [v|]; [|destruct p.2 as [v|]]; inversion H;
        now rewrite lookup_insert_ne.
Qed.

(** X14.  An inserting call whose data miss a required field of the
    document constructor, or have a key the constructor does not know,
    returns [None] and stores nothing: the world is unchanged apart from
    one printed line. *)
Theorem ill_formed_data_stores_nothing (c : call)
    (params : list (string * option value)) (data : dict) (w : world) :
  constructor_call c = Some (params, data) ->
  ill_formed params data ->
  exists line,
    run c w = (Ok RNone, set_stdout (stdout w ++ [line]) w).
Proof.
  intros Hc Hill.
  destruct c; simpl in Hc; try discriminate; inversion Hc; subst; clear Hc;
    destruct (bind_kwargs_ill_formed _ _ Hill) as [e He]; simpl run.
  - unfold add_content. eexists.
    erewrite try_except_raise; [apply on_error_runs|].
    apply bind_raise. unfold ContentModel.create_content.
    apply bind_raise. unfold lift. now rewrite He.
  - unfold save_user_progress. eexists.
    erewrite try_except_raise; [apply on_error_runs|].
    apply bind_raise. unfold UserProgressModel.create_progress.
    apply bind_raise. unfold lift. now rewrite He.
  - unfold add_question. eexists.
    erewrite try_except_raise; [apply on_error_runs|].
    apply bind_raise. unfold QuestionModel.create_question.
    apply bind_raise. unfold lift. now rewrite He.
  - unfold create_user. eexists.
    erewrite try_except_raise; [apply on_error_runs|].
    apply bind_raise. unfold UserModel.create_user.
    apply bind_raise. unfold lift. now rewrite He.
  - unfold start_study_session. eexists.
    erewrite try_except_raise; [apply on_error_runs|].
    apply bind_raise. unfold StudySessionModel.create_session.
    apply bind_raise. unfold lift. now rewrite He.
Qed.

(** *** Identifiers *)

Lemma coll_set_coll (name name' : string) (c : gmap N dict) (w : world) :
  coll name' (set_coll name c w) = if decide (name' = name) then c else coll name' w.
Proof.
  unfold coll, set_coll. simpl. destruct (decide (name' = name)) as [->|Hne].
  - now rewrite lookup_insert_eq.
  - now rewrite lookup_insert_ne by congruence.
Qed.

Lemma keys_ret {A} (a : A) : keeps_keys (ret a).
Proof. intros w Hw. exact Hw. Qed.

Lemma keys_lift {A} (r : result A) : keeps_keys (lift r).
Proof. intros w Hw. exact Hw. Qed.

Lemma keys_utcnow : keeps_keys utcnow.
Proof. intros w Hw. exact Hw. Qed.

Lemma keys_print (line : string) : keeps_keys (print line).
Proof. intros w Hw. exact Hw. Qed.

Lemma keys_bind {A B} (m : M A) (f : A -> M B) :
  keeps_keys m -> (forall a, keeps_keys (f a)) -> keeps_keys (bind m f).
Proof.
  intros Hm Hf w Hw. unfold bind. specialize (Hm w Hw).
  destruct (m w) as [[a|e] w1]; simpl in *; [now apply Hf | assumption].
Qed.

Lemma keys_bind_returns {A B} (m : M A) (f : A -> M B) (Q : A -> Prop) :
  keeps_keys m -> returns m Q -> (forall a, Q a -> keeps_keys (f a)) ->
  keeps_keys (bind m f).
Proof.
  intros Hm Hr Hf w Hw. unfold bind. specialize (Hm w Hw). specialize (Hr w).
  destruct (m w) as [[a|e] w1]; simpl in *; [|assumption].
  apply Hf; [|assumption]. now apply (Hr a w1).
Qed.

Lemma keys_try_except {A} (body : M A) (handler : exn -> M A) :
  keeps_keys body -> (forall e, keeps_keys (handler e)) ->
  keeps_keys (try_except body handler).
Proof.
  intros Hb Hh w Hw. unfold try_except. specialize (Hb w Hw).
  destruct (body w) as [[a|e] w1]; simpl in *; [assumption | now apply Hh].
Qed.

Lemma keys_on_error message s e : keeps_keys (on_error message s e).
Proof. intros w Hw. exact Hw. Qed.

Lemma keys_driver_call {A} (body : M A) :
  keeps_keys body -> keeps_keys (driver_call body).
Proof.
  intros Hb w Hw. unfold driver_call.
  destruct (faults w) as [|[] fs]; [now apply Hb | exact Hw |].
  apply Hb. exact Hw.
Qed.

Lemma keys_find name filter sort limit : keeps_keys (find name filter sort limit).
Proof. apply keys_driver_call. intros w Hw. exact Hw. Qed.

Lemma keys_find_one name filter : keeps_keys (find_one name filter).
Proof. apply keys_driver_call. intros w Hw. exact Hw. Qed.

Lemma keys_aggregate name pipeline : keeps_keys (aggregate name pipeline).
Proof. apply keys_driver_call. intros w Hw. exact Hw. Qed.

Lemma keys_create_index name keys : keeps_keys (create_index name keys).
Proof. apply keys_driver_call. intros w Hw. exact Hw. Qed.

Lemma keys_insert_one name doc : keeps_keys (insert_one name doc).
Proof.
  apply keys_driver_call. intros w Hw name' k d. simpl.
  change (coll name' (set_next_id (next_id w + 1)
            (set_coll name (<[next_id w := <["_id" := VOid (next_id w)]> doc]> (coll name w)) w)))
    with (coll name' (set_coll name (<[next_id w := <["_id" := VOid (next_id w)]> doc]> (coll name w)) w)).
  rewrite coll_set_coll. destruct (decide (name' = name)) as [->|Hne].
  - destruct (decide (k = next_id w)) as [->|Hk].
    + rewrite lookup_insert_eq. intros H. inversion H.
      split; [lia|]. now rewrite lookup_insert_eq.
    + rewrite lookup_insert_ne by congruence. intros H.
      destruct (Hw _ _ _ H). split; [lia | assumption].
  - intros H. destruct (Hw _ _ _ H). split; [lia | assumption].
Qed.

Lemma keys_update_one name filter update :
  spares_id update -> keeps_keys (update_one name filter update).
Proof.
  intros Hu. apply keys_driver_call. intros w Hw. unfold update_one.
  destruct (select w name filter) as [|[o d] rest] eqn:Es; [exact Hw|].
  destruct (apply_update update d) as [d'|e] eqn:Eu; [|exact Hw].
  assert (Hod : coll name w !! o = Some d).
  { apply (select_lookup w name filter). rewrite Es. now left. }
  intros name' k dk. simpl. rewrite coll_set_coll.
  destruct (decide (name' = name)) as [->|Hne]; [|apply Hw].
  destruct (decide (k = o)) as [->|Hk].
  - rewrite lookup_insert_eq. intros H. inversion H; subst dk.
    destruct (Hw _ _ _ Hod) as [Hlt Hid]. split; [exact Hlt|].
    rewrite (Hu d d' Eu). exact Hid.
  - rewrite lookup_insert_ne by congruence. apply Hw.
Qed.

Lemma keys_delete_many name filter : keeps_keys (delete_many name filter).
Proof.
  apply keys_driver_call. intros w Hw name' k d. simpl. rewrite coll_set_coll.
  destruct (decide (name' = name)) as [->|Hne]; [|apply Hw].
  intros H. apply lookup_foldr_delete in H. exact (Hw _ _ _ H).
Qed.

Lemma apply_set_other (fields : list (string * value)) (d : dict) (k : string) :
  ~ In k fields.*1 -> apply_set fields d !! k = d !! k.
Proof.
  unfold apply_set. revert d. induction fields as [|[k' v] fields IH]; intros d Hk.
  - reflexivity.
  - simpl. rewrite IH by (intros H; apply Hk; now right).
    apply lookup_insert_ne. intros ->. apply Hk. now left.
Qed.

Lemma apply_inc_other (fields : list (string * value)) (d d' : dict) (k : string) :
  ~ In k fields.*1 -> apply_inc fields d = Ok d' -> d' !! k = d !! k.
Proof.
  revert d. induction fields as [|[k' v] fields IH]; intros d Hk H.
  - inversion H. reflexivity.
  - assert (Hne : k' <> k) by (intros ->; apply Hk; now left).
    assert (Hk' : ~ In k fields.*1) by (intros Hin; apply Hk; now right).
    simpl in H. destruct (inc_value (d !! k') v) as [v'|e]; [|discriminate].
    rewrite (IH _ Hk' H). now apply lookup_insert_ne.
Qed.

Lemma spares_id_set (fields : list (string * value)) :
  ~ In "_id" fields.*1 -> spares_id {[ "$set" := VDict fields ]}.
Proof.
  intros Hk d d'. unfold apply_update. rewrite lookup_singleton_eq.
  rewrite lookup_singleton_ne by discriminate. simpl. intros H. inversion H.
  now apply apply_set_other.
Qed.

Lemma spares_id_inc (fields : list (string * value)) :
  ~ In "_id" fields.*1 -> spares_id {[ "$inc" := VDict fields ]}.
Proof.
  intros Hk d d'. unfold apply_update. rewrite lookup_singleton_eq.
  rewrite lookup_singleton_ne by discriminate. simpl. intros H.
  now apply (apply_inc_other fields).
Qed.

Ltac no_id := simpl; intuition discriminate.

Ltac keys_step :=
  first
    [ apply keys_ret | apply keys_lift | apply keys_utcnow | apply keys_print
    | apply keys_on_error | apply keys_find | apply keys_find_one
    | apply keys_aggregate | apply keys_create_index | apply keys_delete_many
    | apply keys_insert_one
    | apply keys_update_one; first [apply spares_id_set | apply spares_id_inc]; no_id
    | apply keys_try_except; [|intros ?]
    | apply keys_bind; [|intros ?]
    | match goal with
      | |- keeps_keys (match ?x with _ => _ end) => destruct x
      | |- keeps_keys (if ?b then _ else _) => destruct b
      end ].

Lemma keys_end_study_session sid final_score duration :
  keeps_keys (end_study_session sid final_score duration).
Proof.
  unfold end_study_session. apply keys_try_except; [|intros; apply keys_on_error].
  apply (keys_bind_returns _ _ (fun u => exists t, u = end_update t final_score duration));
    [intros w Hw; exact Hw | apply end_session_returns |].
  intros update [t ->]. apply keys_bind; [apply keys_lift|].
  intros o. apply keys_bind; [|intros; apply keys_ret].
  apply keys_update_one. unfold end_update. apply spares_id_set. no_id.
Qed.

Lemma keys_update_question_stats qid is_correct time_taken :
  keeps_keys (update_question_stats qid is_correct time_taken).
Proof.
  unfold update_question_stats. cbv zeta. destruct is_correct; simpl app;
    repeat keys_step.
Qed.

Lemma keys_run (c : call) : keeps_keys (run c).
Proof.
  destruct c; simpl run;
    try apply keys_end_study_session; try apply keys_update_question_stats;
    match goal with
    | |- keeps_keys (?op _ _ _ _) => unfold op
    | |- keeps_keys (?op _ _ _) => unfold op
    | |- keeps_keys (?op _ _) => unfold op
    | |- keeps_keys (?op _) => unfold op
    | |- keeps_keys ?op => unfold op
    | _ => idtac
    end;
    unfold ContentModel.create_content, UserProgressModel.create_progress,
      QuestionModel.create_question, UserModel.create_user,
      StudySessionModel.create_session, lower_v;
    repeat keys_step.
Qed.

(** X12.  In every world the service can reach, every document of
    every collection is stored under its own [_id], and that identifier
    lies below the next one to be handed out; every call keeps it so. *)
Theorem identifiers_are_kept (w : world) :
  reachable w ->
  well_keyed w /\ forall c, well_keyed (run c w).2.
Proof.
  intros Hr.
  assert (Hw : well_keyed w).
  { induction Hr as [w Hempty | w t fs _ IH | w c _ IH].
    - intros name k d. unfold coll. rewrite Hempty, lookup_empty, lookup_empty.
      discriminate.
    - exact IH.
    - apply (keys_run c w IH). }
  split; [exact Hw|]. intros c. now apply keys_run.
Qed.

End StoreFacts.

(** ** Identifier strings *)

Section IdentifierStrings.
Import Bson.

Lemma hex_digit_char (d : N) : (d < 16)%N -> hex_digit (hex_char d) = Some d.
Proof.
  intros Hd.
  assert (H : forallb (fun n => match hex_digit (hex_char (N.of_nat n)) with
                                | Some d' => (d' =? N.of_nat n)%N
                                | None => false
                                end) (seq 0 16) = true) by (vm_compute; reflexivity).
  rewrite forallb_forall in H. specialize (H (N.to_nat d)).
  rewrite N2Nat.id in H.
  assert (Hin : In (N.to_nat d) (seq 0 16)) by (apply in_seq; lia).
  specialize (H Hin). destruct (hex_digit (hex_char d)); [|discriminate].
  apply N.eqb_eq in H. now subst.
Qed.

Lemma hex_digits_length (n : nat) (o : N) (acc : string) :
  String.length (hex_digits n o acc) = (n + String.length acc)%nat.
Proof.
  revert o acc. induction n as [|n IH]; intros o acc; simpl; [reflexivity|].
  rewrite IH. simpl. lia.
Qed.

Lemma hex_value_digits (n : nat) (o a : N) (acc : string) :
  hex_value (hex_digits n o acc) a
  = hex_value acc (a * 16 ^ N.of_nat n + o mod 16 ^ N.of_nat n)%N.
Proof.
  revert o a acc. induction n as [|n IH]; intros o a acc.
  - simpl. f_equal. rewrite N.mod_1_r. lia.
  - simpl hex_digits. rewrite IH. simpl hex_value.
    rewrite hex_digit_char by (apply N.mod_lt; lia). f_equal.
    rewrite Nat2N.inj_succ, N.pow_succ_r by lia.
    rewrite (N.Div0.mod_mul_r o 16 (16 ^ N.of_nat n)). lia.
Qed.

Lemma ObjectId_oid_str (o : N) : (o < 2 ^ 96)%N -> ObjectId (oid_str o) = Ok o.
Proof.
  intros Ho. unfold ObjectId, oid_str. rewrite hex_digits_length. simpl Nat.eqb.
  rewrite hex_value_digits. simpl hex_value.
  change (16 ^ N.of_nat 24)%N with (2 ^ 96)%N.
  rewrite N.mod_small by exact Ho. reflexivity.
Qed.

End IdentifierStrings.

(** ** Writing and reading back *)

Section RoundTrips.
Import PyStr Mongo Driver Models MongoDBService PersistenceSpec StoreSpec.

Lemma select_by_id (w : world) (name : string) (o : N) (d : dict) :
  well_keyed w -> coll name w !! o = Some d ->
  exists rest, select w name (id_filter o) = (o, d) :: rest.
Proof.
  intros Hw Hod.
  assert (Hin : In (o, d) (select w name (id_filter o))).
  { unfold select. apply filter_In. split.
    - apply list_elem_of_In, elem_of_map_to_list. exact Hod.
    - simpl. rewrite matches_id_filter. destruct (Hw name o d Hod) as (_ & Hid).
      unfold dict_get. rewrite Hid. simpl. apply N.eqb_refl. }
  destruct (select w name (id_filter o)) as [|[k d'] rest] eqn:Es; [contradiction|].
  exists rest. f_equal.
  assert (Hk : In (k, d') (select w name (id_filter o))) by (rewrite Es; now left).
  apply select_lookup in Hk as [Hkd Hm].
  rewrite matches_id_filter in Hm. destruct (Hw name k d' Hkd) as (_ & Hid).
  unfold dict_get in Hm. rewrite Hid in Hm. simpl in Hm. apply N.eqb_eq in Hm.
  subst k. congruence.
Qed.

Lemma select_by_id_none (w : world) (name : string) (o : N) :
  well_keyed w -> coll name w !! o = None -> select w name (id_filter o) = [].
Proof.
  intros Hw Hnone.
  destruct (select w name (id_filter o)) as [|[k d] rest] eqn:Es; [reflexivity|].
  exfalso.
  assert (Hk : In (k, d) (select w name (id_filter o))) by (rewrite Es; now left).
  apply select_lookup in Hk as [Hkd Hm].
  rewrite matches_id_filter in Hm. destruct (Hw name k d Hkd) as (_ & Hid).
  unfold dict_get in Hm. rewrite Hid in Hm. simpl in Hm. apply N.eqb_eq in Hm.
  subst k. congruence.
Qed.

Lemma well_keyed_served (w : world) : well_keyed w -> well_keyed (served w).
Proof. intros Hw. exact Hw. Qed.

Lemma coll_served_ne (name name' : string) (c : gmap N dict) (w : world) :
  name' <> name -> coll name' (set_coll name c (served w)) = coll name' w.
Proof.
  intros Hne. rewrite coll_set_coll. destruct (decide (name' = name)); [congruence|].
  reflexivity.
Qed.

Lemma coll_served_eq (name : string) (c : gmap N dict) (w : world) :
  coll name (set_coll name c (served w)) = c.
Proof. rewrite coll_set_coll. destruct (decide (name = name)); congruence. Qed.

(** What an insertion leaves behind. *)
Lemma insert_one_returns (name : string) (doc : dict) (w w1 : world) (o : N) :
  insert_one name doc w = (Ok o, w1) ->
  o = next_id w /\
  w1 = set_next_id (next_id w + 1)
         (set_coll name (<[next_id w := <["_id" := VOid (next_id w)]> doc]> (coll name w))
            (served w)).
Proof.
  unfold insert_one, driver_call.
  destruct (faults w) as [|[] fs] eqn:Ef; intros H; inversion H; subst.
  - split; [reflexivity|]. now rewrite served_nil.
  - split; [reflexivity|]. unfold served. now rewrite Ef.
Qed.

Lemma coll_after_insert (name name' : string) (n : N) (c : gmap N dict) (w : world) :
  coll name' (set_next_id n (set_coll name c (served w)))
  = if decide (name' = name) then c else coll name' w.
Proof.
  change (coll name' (set_next_id n (set_coll name c (served w))))
    with (coll name' (set_coll name c (served w))).
  rewrite coll_set_coll. reflexivity.
Qed.

(** A service method of the shape "build the document, insert it, return
    the identifier as a string". *)
Lemma insert_method_returns (build : M dict) (name message : string)
    (w w1 : world) (id : string) :
  (forall w0, (build w0).2 = w0) ->
  try_except
    (bind build (fun doc =>
       bind (insert_one name doc) (fun inserted_id =>
         ret (RStr (Bson.oid_str inserted_id)))))
    (on_error message RNone) w = (Ok (RStr id), w1) ->
  exists doc,
    build w = (Ok doc, w) /\
    id = Bson.oid_str (next_id w) /\
    w1 = set_next_id (next_id w + 1)
           (set_coll name (<[next_id w := <["_id" := VOid (next_id w)]> doc]> (coll name w))
              (served w)).
Proof.
  intros Hb. unfold try_except, bind at 1. specialize (Hb w).
  destruct (build w) as [[doc|e] w0] eqn:Eb; simpl in Hb; subst w0.
  - unfold bind. destruct (insert_one name doc w) as [[o|e] w2] eqn:Ei.
    + apply insert_one_returns in Ei as [-> ->]. unfold ret. intros H. inversion H.
      exists doc. auto.
    + rewrite on_error_runs. intros H. inversion H.
  - rewrite on_error_runs. intros H. inversion H.
Qed.

(** *** Sessions: from the returned identifier to the completed session *)

(** X18.  The identifier string returned by [start_study_session]
    names the session it created: it parses back to the identifier under
    which the session is stored, and [end_study_session] called with it
    (the store answering) completes that session with the given score and
    duration. *)
Theorem session_id_round_trip (data : dict) (w w1 : world) (id : string)
    (final_score duration : value) :
  good w -> (next_id w < 2 ^ 96)%N ->
  start_study_session data w = (Ok (RStr id), w1) ->
  answering w1 ->
  Bson.ObjectId id = Ok (next_id w) /\
  exists d',
    sessions (end_study_session id final_score duration w1).2 !! next_id w = Some d' /\
    d' !! "status" = Some (VStr "completed") /\
    d' !! "end_time" = Some (VDate (clock w1)) /\
    d' !! "duration" = Some duration /\
    d' !! "score" = Some final_score.
Proof.
  intros Hg Hn Hs Ha.
  destruct (start_study_session_creates data w id w1 Hs) as (d & -> & Hd & _).
  assert (Ho : Bson.ObjectId (Bson.oid_str (next_id w)) = Ok (next_id w))
    by now apply ObjectId_oid_str.
  split; [exact Ho|].
  assert (Hg1 : good w1).
  { pose proof (keeps_run (StartStudySession data) w Hg) as Hf.
    simpl run in Hf. rewrite Hs in Hf. exact (proj1 Hf). }
  exact (end_study_session_completes _ final_score duration w1 _ d Hg1 Ho Hd Ha).
Qed.

(** *** Users: creating and reading back *)

Lemma create_user_world kw (w : world) : (UserModel.create_user kw w).2 = w.
Proof.
  unfold UserModel.create_user, bind, lift, utcnow, ret.
  destruct (bind_kwargs _ kw) as [args|e]; reflexivity.
Qed.

Lemma create_user_doc kw (w : world) (doc : dict) :
  UserModel.create_user kw w = (Ok doc, w) ->
  doc !! "username" = kw !! "username" /\
  doc !! "email" = kw !! "email" /\
  doc !! "learning_preferences"
    = Some (py_or (dict_get kw "learning_preferences" VNone)
                  UserModel.default_preferences) /\
  doc !! "total_study_time" = Some (VInt 0).
Proof.
  unfold UserModel.create_user, bind, lift, utcnow, ret.
  destruct (bind_kwargs _ kw) as [args|e] eqn:Eb; [|discriminate].
  intros H. inversion H as [Hd]. clear H Hd.
  pose proof (bind_kwargs_bound _ _ _ "username" Eb) as H1.
  pose proof (bind_kwargs_bound _ _ _ "email" Eb) as H2.
  pose proof (bind_kwargs_bound _ _ _ "learning_preferences" Eb) as H3.
  simpl in H1, H2, H3.
  assert (Hreq : forall k, In (k, None) [("username", None : option value); ("email", None)] ->
                           is_Some (kw !! k)).
  { intros k Hk. destruct (kw !! k) eqn:E; [eauto|]. exfalso.
    destruct (bind_kwargs_ill_formed
                [ ("username", None); ("email", None);
                  ("learning_preferences", Some VNone);
                  ("subjects_of_interest", Some VNone) ] kw) as [e He].
    - left. exists k. split; [|exact E]. simpl in Hk. simpl. tauto.
    - congruence. }
  destruct (Hreq "username") as [u Hu]; [now left|].
  destruct (Hreq "email") as [m Hm]; [right; now left|].
  rewrite Hu in H1. rewrite Hm in H2.
  split; [|split; [|split; [|reflexivity]]].
  - change (Some (arg args "username") = kw !! "username").
    unfold arg, dict_get. now rewrite H1, Hu.
  - change (Some (arg args "email") = kw !! "email").
    unfold arg, dict_get. now rewrite H2, Hm.
  - change (Some (py_or (arg args "learning_preferences") UserModel.default_preferences)
            = Some (py_or (dict_get kw "learning_preferences" VNone)
                          UserModel.default_preferences)).
    unfold arg, dict_get. rewrite H3.
    destruct (kw !! "learning_preferences"); reflexivity.
Qed.

Lemma find_one_by_id (name : string) (o : N) (d : dict) (w : world) :
  well_keyed w -> coll name w !! o = Some d -> answering w ->
  find_one name (id_filter o) w = (Ok (Some d), served w).
Proof.
  intros Hw Hod Ha. unfold find_one. rewrite driver_call_served by exact Ha.
  destruct (select_by_id (served w) name o d Hw Hod) as [rest ->]. reflexivity.
Qed.

(** X19.  A user created by [create_user] is read back by
    [get_user] with the identifier string returned (the store answering):
    the document has the user name and the e-mail address given, the
    learning preferences given or else the default ones, and no study
    time. *)
Theorem user_round_trip (data : dict) (w w1 : world) (id : string) :
  well_keyed w -> (next_id w < 2 ^ 96)%N ->
  create_user data w = (Ok (RStr id), w1) ->
  answering w1 ->
  exists d,
    get_user id w1 = (Ok (RDoc d), served w1) /\
    d !! "_id" = Some (VOid (next_id w)) /\
    d !! "username" = data !! "username" /\
    d !! "email" = data !! "email" /\
    d !! "learning_preferences"
      = Some (py_or (dict_get data "learning_preferences" VNone)
                    UserModel.default_preferences) /\
    d !! "total_study_time" = Some (VInt 0).
Proof.
  intros Hw Hn Hc Ha.
  assert (Hw1 : well_keyed w1).
  { pose proof (keys_run (CreateUser data) w Hw) as H. simpl run in H.
    now rewrite Hc in H. }
  unfold create_user in Hc.
  apply insert_method_returns in Hc as (doc & Hdoc & -> & Hw1eq);
    [|apply create_user_world].
  destruct (create_user_doc data w doc Hdoc) as (Hu & He & Hp & Ht).
  set (o := next_id w) in *. set (d := <["_id" := VOid o]> doc).
  assert (Hod : coll users_collection w1 !! o = Some d).
  { rewrite Hw1eq, coll_after_insert. simpl. now rewrite lookup_insert_eq. }
  exists d. split.
  - unfold get_user. apply try_except_ok.
    rewrite (bind_ok _ _ w1 w1 o)
      by (unfold lift; now rewrite ObjectId_oid_str).
    rewrite (bind_ok _ _ w1 (served w1) (Some d)) by now apply find_one_by_id.
    reflexivity.
  - subst d. rewrite lookup_insert_eq.
    rewrite !lookup_insert_ne by discriminate. auto.
Qed.

(** *** Content: views *)

(** X21.  When the store answers, [update_content_views] with the
    identifier of a stored content document adds one to its [views]: an
    integer count [v] becomes [v + 1], a double [f] becomes [f + 1.0], a
    missing count becomes 1; only a document whose [views] is not a
    number is left alone.  With an identifier that is not stored it
    changes nothing; no other document and no other collection
    changes. *)
Theorem content_views_counted (sid : string) (o : N) (w : world) :
  well_keyed w -> Bson.ObjectId sid = Ok o -> answering w ->
  let w1 := (update_content_views sid w).2 in
  (forall name, name <> content_collection -> coll name w1 = coll name w) /\
  (forall k, k <> o -> coll content_collection w1 !! k = coll content_collection w !! k) /\
  match coll content_collection w !! o with
  | None => coll content_collection w1 !! o = None
  | Some d =>
      match d !! "views" with
      | Some (VInt v) =>
          coll content_collection w1 !! o = Some (<["views" := VInt (v + 1)]> d)
      | Some (VFloat f) =>
          coll content_collection w1 !! o
          = Some (<["views" := VFloat (Float64.add f (Float64.of_Z 1))]> d)
      | None =>
          coll content_collection w1 !! o = Some (<["views" := VInt 1]> d)
      | Some _ => coll content_collection w1 !! o = Some d
      end
  end.
Proof.
  intros Hw Ho Ha w1. subst w1. unfold update_content_views.
  assert (Hrun : forall r w2,
    update_one content_collection (id_filter o)
      {[ "$inc" := VDict [("views", VInt 1)] ]} w = (r, w2) ->
    (try_except
       (bind (lift (Bson.ObjectId sid)) (fun o0 =>
          bind (update_one content_collection (id_filter o0)
                  {[ "$inc" := VDict [("views", VInt 1)] ]})
               (fun _ => ret RNone)))
       (on_error "Error updating views: " RNone) w).2
    = match r with
      | Ok _ => w2
      | Raise e => set_stdout (stdout w2 ++ ["Error updating views: " +:+ exn_str e]) w2
      end).
  { intros r w2 Hu. unfold try_except.
    rewrite (bind_ok _ _ w w o) by (unfold lift; now rewrite Ho).
    unfold bind. rewrite Hu. destruct r; reflexivity. }
  destruct (update_one content_collection (id_filter o)
              {[ "$inc" := VDict [("views", VInt 1)] ]} w) as [r w2] eqn:Eu.
  rewrite (Hrun r w2 eq_refl). clear Hrun.
  unfold update_one in Eu. rewrite driver_call_served in Eu by exact Ha.
  destruct (coll content_collection w !! o) as [d|] eqn:Ed.
  - destruct (select_by_id (served w) content_collection o d Hw Ed) as [rest Hs].
    rewrite Hs in Eu. unfold apply_update in Eu.
    rewrite lookup_singleton_ne in Eu by discriminate.
    rewrite lookup_singleton_eq in Eu. simpl in Eu.
    destruct (d !! "views") as [[]|] eqn:Ev; simpl in Eu; inversion Eu; subst;
      simpl; (split; [|split]);
      try (intros name Hne; rewrite ?coll_served_ne by exact Hne; reflexivity);
      try (intros k Hk; rewrite ?coll_served_eq;
           rewrite ?lookup_insert_ne by congruence; reflexivity);
      try (rewrite coll_served_eq; now rewrite lookup_insert_eq);
      try exact Ed.
  - rewrite (select_by_id_none (served w) content_collection o Hw Ed) in Eu.
    inversion Eu; subst. simpl. auto.
Qed.

(** *** Queries *)

Lemma In_insert_by {A} (le : A -> A -> bool) (x y : A) (l : list A) :
  In x (insert_by le y l) <-> x = y \/ In x l.
Proof.
  induction l as [|z l IH]; simpl; [intuition|].
  destruct (le y z); simpl; [intuition|]. rewrite IH. intuition.
Qed.

Lemma In_sort_by {A} (le : A -> A -> bool) (x : A) (l : list A) :
  In x (sort_by le l) <-> In x l.
Proof.
  unfold sort_by. induction l as [|y l IH]; simpl; [tauto|].
  rewrite In_insert_by, IH. intuition.
Qed.

Lemma length_insert_by {A} (le : A -> A -> bool) (y : A) (l : list A) :
  length (insert_by le y l) = S (length l).
Proof.
  induction l as [|z l IH]; simpl; [reflexivity|].
  destruct (le y z); simpl; [reflexivity|]. now rewrite IH.
Qed.

Lemma length_sort_by {A} (le : A -> A -> bool) (l : list A) :
  length (sort_by le l) = length l.
Proof.
  unfold sort_by. induction l as [|y l IH]; simpl; [reflexivity|].
  now rewrite length_insert_by, IH.
Qed.

Lemma In_sort_docs (w : world) (filter : dict) (spec : string * value)
    (docs : list dict) (d : dict) :
  In d (sort_docs w filter spec docs) <-> In d docs.
Proof.
  unfold sort_docs. destruct spec.2 as [| |[|[]|]| | | | | |]; apply In_sort_by.
Qed.

Lemma length_sort_docs (w : world) (filter : dict) (spec : string * value)
    (docs : list dict) :
  length (sort_docs w filter spec docs) = length docs.
Proof.
  unfold sort_docs. destruct spec.2 as [| |[|[]|]| | | | | |]; apply length_sort_by.
Qed.

Lemma length_list_filter {A} (f : A -> bool) (l : list A) :
  (length (List.filter f l) <= length l)%nat.
Proof. induction l as [|x l IH]; simpl; [lia|]. destruct (f x); simpl; lia. Qed.

Lemma length_select (w : world) (name : string) (filter : dict) :
  (length (select w name filter) <= size (coll name w))%nat.
Proof.
  unfold select. rewrite <- length_map_to_list. apply length_list_filter.
Qed.

Lemma apply_limit_all (limit : Z) (docs : list dict) :
  limit = 0 \/ Z.of_nat (length docs) <= Z.abs limit ->
  apply_limit limit docs = docs.
Proof.
  unfold apply_limit. intros [->|H]; [reflexivity|].
  destruct (limit =? 0); [reflexivity|]. apply take_ge. lia.
Qed.

Lemma In_apply_limit (limit : Z) (docs : list dict) (d : dict) :
  In d (apply_limit limit docs) -> In d docs.
Proof.
  unfold apply_limit. destruct (limit =? 0); [auto|].
  intros H. rewrite <- (take_drop (Z.to_nat (Z.abs limit)) docs).
  apply in_or_app. now left.
Qed.

Lemma length_apply_limit (limit : Z) (docs : list dict) :
  limit <> 0 -> Z.of_nat (length (apply_limit limit docs)) <= Z.abs limit.
Proof.
  intros Hl. unfold apply_limit. destruct (limit =? 0) eqn:E; [apply Z.eqb_eq in E; lia|].
  rewrite length_take. lia.
Qed.

Lemma find_served (name : string) (filter : dict) (sort : option (string * value))
    (limit : Z) (w : world) :
  answering w ->
  find name filter sort limit w
  = (Ok (apply_limit limit
           (match sort with
            | Some spec => sort_docs w filter spec (select w name filter).*2
            | None => (select w name filter).*2
            end)), served w).
Proof. intros Ha. unfold find. now rewrite driver_call_served. Qed.

Lemma matches_one_field (w : world) (k : string) (v : string) (d : dict) :
  String.eqb k "$text" = false ->
  matches w {[ k := VStr v ]} d = value_eqb (dict_get d k VNone) (VStr v).
Proof.
  intros Hk. unfold matches. rewrite map_to_list_singleton. simpl.
  unfold cond_holds. simpl. rewrite Hk. now rewrite andb_true_r.
Qed.

Lemma value_eqb_str (v : value) (s : string) :
  value_eqb v (VStr s) = true <-> v = VStr s.
Proof.
  destruct v; simpl; try (split; [discriminate | discriminate]).
  rewrite String.eqb_eq. split; congruence.
Qed.

(** *** Content: writing and reading back by subject *)

Lemma create_content_world kw (w : world) : (ContentModel.create_content kw w).2 = w.
Proof.
  unfold ContentModel.create_content, bind, lift, lower_v, utcnow, ret.
  destruct (bind_kwargs _ kw) as [args|e]; [|reflexivity].
  destruct (py_lower (arg args "subject")) as [s1|e]; simpl; [|reflexivity].
  destruct (py_lower (arg args "topic")) as [s2|e]; simpl; [|reflexivity].
  destruct (py_lower (arg args "difficulty")) as [s3|e]; simpl; reflexivity.
Qed.

Lemma create_content_doc kw (w : world) (doc : dict) (s : string) :
  ContentModel.create_content kw w = (Ok doc, w) ->
  kw !! "subject" = Some (VStr s) ->
  doc !! "title" = kw !! "title" /\
  doc !! "content" = kw !! "content" /\
  doc !! "subject" = Some (VStr (lower s)) /\
  doc !! "tags" = Some (py_or (dict_get kw "tags" VNone) (VList [])) /\
  doc !! "views" = Some (VInt 0) /\
  doc !! "created_at" = Some (VDate (clock w)).
Proof.
  unfold ContentModel.create_content, bind, lift, lower_v, utcnow, ret.
  destruct (bind_kwargs _ kw) as [args|e] eqn:Eb; [|discriminate].
  intros H Hs.
  pose proof (bind_kwargs_bound _ _ _ "title" Eb) as H1.
  pose proof (bind_kwargs_bound _ _ _ "content" Eb) as H2.
  pose proof (bind_kwargs_bound _ _ _ "subject" Eb) as H3.
  pose proof (bind_kwargs_bound _ _ _ "tags" Eb) as H4.
  simpl in H1, H2, H3, H4. rewrite Hs in H3.
  assert (Hsub : arg args "subject" = VStr s) by (unfold arg, dict_get; now rewrite H3).
  rewrite Hsub in H. simpl in H.
  destruct (py_lower (arg args "topic")) as [s2|e]; simpl in H; [|discriminate].
  destruct (py_lower (arg args "difficulty")) as [s3|e]; simpl in H; [|discriminate].
  inversion H as [Hd]. clear H Hd.
  assert (Hreq : forall k, In k ["title"; "content"] -> is_Some (kw !! k)).
  { intros k Hk. destruct (kw !! k) eqn:E; [eauto|]. exfalso.
    destruct (bind_kwargs_ill_formed
                [ ("title", None); ("content", None); ("subject", None);
                  ("topic", None); ("content_type", Some (VStr "lesson"));
                  ("difficulty", Some (VStr "intermediate"));
                  ("learning_objectives", Some VNone);
                  ("key_concepts", Some VNone); ("tags", Some VNone) ] kw) as [e He].
    - left. exists k. split; [|exact E]. simpl in Hk. simpl.
      destruct Hk as [<-|[<-|[]]]; tauto.
    - congruence. }
  destruct (Hreq "title") as [t Ht]; [now left|].
  destruct (Hreq "content") as [c Hc]; [right; now left|].
  rewrite Ht in H1. rewrite Hc in H2.
  split; [|split; [|split; [|split; [|split]]]]; try reflexivity.
  - change (Some (arg args "title") = kw !! "title").
    unfold arg, dict_get. now rewrite H1, Ht.
  - change (Some (arg args "content") = kw !! "content").
    unfold arg, dict_get. now rewrite H2, Hc.
  - change (Some (py_or (arg args "tags") (VList []))
            = Some (py_or (dict_get kw "tags" VNone) (VList []))).
    unfold arg, dict_get. rewrite H4. destruct (kw !! "tags"); reflexivity.
Qed.

(** X15.  Content written by [add_content] is read back by
    [get_content_by_subject]: after a successful [add_content], a query
    for the same subject up to letter case (the store answering, and the
    limit being 0 or at least the size of the collection) returns a list
    that contains the new document, with the identifier returned, the
    title and content given, the subject in lower case, the tags given (or
    the empty list) and no views. *)
Theorem content_round_trip (data : dict) (s s' : string) (limit : Z)
    (w w1 : world) (id : string) :
  add_content data w = (Ok (RStr id), w1) ->
  data !! "subject" = Some (VStr s) ->
  lower s' = lower s ->
  answering w1 ->
  limit = 0 \/ Z.of_nat (size (coll content_collection w1)) <= Z.abs limit ->
  exists docs d,
    get_content_by_subject s' limit w1 = (Ok (RList docs), served w1) /\
    In d docs /\
    id = Bson.oid_str (next_id w) /\
    d !! "_id" = Some (VOid (next_id w)) /\
    d !! "title" = data !! "title" /\
    d !! "content" = data !! "content" /\
    d !! "subject" = Some (VStr (lower s)) /\
    d !! "tags" = Some (py_or (dict_get data "tags" VNone) (VList [])) /\
    d !! "views" = Some (VInt 0).
Proof.
  intros Hadd Hs Hlow Ha Hlim.
  unfold add_content in Hadd.
  apply insert_method_returns in Hadd as (doc & Hdoc & -> & Hw1);
    [|apply create_content_world].
  destruct (create_content_doc data w doc s Hdoc Hs) as (Ht & Hc & Hsub & Htags & Hv & _).
  set (o := next_id w) in *. set (d := <["_id" := VOid o]> doc).
  assert (Hod : coll content_collection w1 !! o = Some d).
  { rewrite Hw1, coll_after_insert. simpl. now rewrite lookup_insert_eq. }
  assert (Hdsub : d !! "subject" = Some (VStr (lower s))).
  { subst d. now rewrite lookup_insert_ne by discriminate. }
  assert (Hsel : In d (select w1 content_collection {[ "subject" := VStr (lower s') ]}).*2).
  { apply (in_map snd _ (o, d)). unfold select. apply filter_In. split.
    - apply list_elem_of_In, elem_of_map_to_list. exact Hod.
    - simpl. rewrite matches_one_field by reflexivity.
      apply value_eqb_str. unfold dict_get. rewrite Hdsub. now rewrite Hlow. }
  eexists _, d. split.
  - unfold get_content_by_subject. apply try_except_ok.
    erewrite bind_ok; [|now apply find_served]. reflexivity.
  - split.
    + rewrite apply_limit_all.
      * apply In_sort_docs. exact Hsel.
      * destruct Hlim as [Hl|Hl]; [now left|]. right.
        rewrite length_sort_docs, length_fmap.
        pose proof (length_select w1 content_collection
                      {[ "subject" := VStr (lower s') ]}). lia.
    + subst d. rewrite lookup_insert_eq.
      rewrite !lookup_insert_ne by discriminate. auto 10.
Qed.

(** *** Sessions: the query of a user's sessions *)

Lemma ordered_insert_by {A} (le : A -> A -> bool) (x : A) (l : list A) :
  (forall a b, le a b = true \/ le b a = true) ->
  ordered le l -> ordered le (insert_by le x l).
Proof.
  intros Htot. induction l as [|y l IH]; intros Ho; [simpl; auto|].
  simpl insert_by. destruct (le x y) eqn:E.
  - split; [exact E | exact Ho].
  - destruct Ho as [Hy Hl]. specialize (IH Hl).
    split; [|exact IH].
    destruct l as [|z l]; simpl.
    + destruct (Htot x y); congruence.
    + destruct (le x z); [destruct (Htot x y); congruence | exact Hy].
Qed.

Lemma ordered_sort_by {A} (le : A -> A -> bool) (l : list A) :
  (forall a b, le a b = true \/ le b a = true) -> ordered le (sort_by le l).
Proof.
  intros Htot. unfold sort_by. induction l as [|y l IH]; simpl; [auto|].
  now apply ordered_insert_by.
Qed.

Lemma ordered_take {A} (le : A -> A -> bool) (n : nat) (l : list A) :
  ordered le l -> ordered le (take n l).
Proof.
  revert l. induction n as [|n IH]; intros l Ho; [now rewrite take_0|].
  destruct l as [|x l]; [exact I|]. destruct Ho as [Hx Hl].
  simpl. split; [|now apply IH].
  destruct l as [|y l]; [now rewrite take_nil|].
  destruct n; simpl; [auto | exact Hx].
Qed.

Lemma rank_leb_total (a b : option Z) : rank_leb a b = true \/ rank_leb b a = true.
Proof. destruct a, b; simpl; auto. lia. Qed.

(** X20.  When the store answers, [get_user_sessions] returns only
    stored sessions of the given user, newest first by start time, at
    most as many as the limit says; with the limit 0 it returns every
    session of that user. *)
Theorem user_sessions_query (u : string) (limit : Z) (w : world) :
  answering w ->
  exists docs,
    get_user_sessions u limit w = (Ok (RList docs), served w) /\
    Forall (fun d => d !! "user_id" = Some (VStr u) /\
                     exists k, sessions w !! k = Some d) docs /\
    (limit <> 0 -> Z.of_nat (length docs) <= Z.abs limit) /\
    (limit = 0 ->
     forall k d, sessions w !! k = Some d -> d !! "user_id" = Some (VStr u) ->
                 In d docs) /\
    newest_first "start_time" docs.
Proof.
  intros Ha. eexists. split.
  { unfold get_user_sessions. apply try_except_ok.
    erewrite bind_ok; [|now apply find_served]. reflexivity. }
  set (sel := select w sessions_collection {[ "user_id" := VStr u ]}).
  assert (Hsel : forall d, In d sel.*2 <->
            exists k, sessions w !! k = Some d /\ d !! "user_id" = Some (VStr u)).
  { intros d. split.
    - intros H. apply in_map_iff in H as ([k d'] & <- & H).
      apply select_lookup in H as [Hk Hm]. exists k. split; [exact Hk|].
      rewrite matches_one_field in Hm by reflexivity.
      apply value_eqb_str in Hm. unfold dict_get in Hm. simpl in *.
      destruct (d' !! "user_id"); congruence.
    - intros (k & Hk & Hu). apply (in_map snd _ (k, d)). unfold sel, select.
      apply filter_In. split.
      + apply list_elem_of_In, elem_of_map_to_list. exact Hk.
      + simpl. rewrite matches_one_field by reflexivity.
        apply value_eqb_str. unfold dict_get. now rewrite Hu. }
  split; [|split; [|split]].
  - apply Forall_forall. intros d Hd. apply list_elem_of_In in Hd.
    apply In_apply_limit, In_sort_docs, Hsel in Hd as (k & Hk & Hu). eauto.
  - apply length_apply_limit.
  - intros -> k d Hk Hu. unfold apply_limit. simpl.
    apply In_sort_docs, Hsel. eauto.
  - unfold newest_first, apply_limit. destruct (limit =? 0).
    + apply ordered_sort_by. intros a b. apply rank_leb_total.
    + apply ordered_take. apply ordered_sort_by. intros a b. apply rank_leb_total.
Qed.

(** *** Sessions: cleaning up *)

Lemma lookup_foldr_delete_in (keys : list N) (m : gmap N dict) (k : N) :
  In k keys -> foldr delete m keys !! k = None.
Proof.
  induction keys as [|x keys IH]; [intros []|].
  intros Hin. simpl. destruct (decide (x = k)) as [->|Hne].
  - apply lookup_delete_eq.
  - rewrite lookup_delete_ne by exact Hne. apply IH.
    destruct Hin; [congruence | assumption].
Qed.

Lemma lookup_foldr_delete_out (keys : list N) (m : gmap N dict) (k : N) :
  ~ In k keys -> foldr delete m keys !! k = m !! k.
Proof.
  induction keys as [|x keys IH]; [reflexivity|].
  intros Hin. simpl. rewrite lookup_delete_ne by (intros ->; apply Hin; now left).
  apply IH. intros H. apply Hin. now right.
Qed.

Lemma matches_cleanup_filter (w : world) (cutoff : Z) (d : dict) :
  matches w (<["status" := VStr "completed"]>
               {[ "end_time" := VDict [("$lt", VDate cutoff)] ]}) d
  = expired cutoff d.
Proof.
  unfold matches, expired.
  change (map_to_list (<["status" := VStr "completed"]>
                         ({[ "end_time" := VDict [("$lt", VDate cutoff)] ]} : dict)))
    with [("status", VStr "completed"); ("end_time", VDict [("$lt", VDate cutoff)])].
  simpl. unfold cond_holds. simpl.
  destruct (d !! "end_time") as [[]|]; simpl; rewrite ?andb_true_r, ?andb_false_r;
    reflexivity.
Qed.

Lemma cleanup_out_of_range (days_old : Z) (w : world) :
  ~ cutoff_in_range days_old w ->
  exists line,
    cleanup_old_sessions days_old w = (Ok RNone, set_stdout (stdout w ++ [line]) w).
Proof.
  intros Hout. unfold cleanup_old_sessions.
  assert (Hr : exists e,
    (bind utcnow (fun now =>
       bind (lift (timedelta days_old)) (fun delta =>
         bind (lift (datetime_sub now delta)) (fun cutoff_date =>
           bind (delete_many sessions_collection
                   (<["status" := VStr "completed"]>
                      {[ "end_time" := VDict [("$lt", VDate cutoff_date)] ]}))
                (fun deleted_count =>
                   bind (print ("Cleaned up " +:+ pretty deleted_count +:+ " old sessions"))
                        (fun _ => ret RNone)))))) w = (Raise e, w)).
  { rewrite (bind_ok _ _ w w (clock w)) by reflexivity.
    unfold timedelta. destruct (Z.abs days_old <=? 999999999) eqn:E1.
    - rewrite (bind_ok _ _ w w (days_delta days_old)) by reflexivity.
      unfold datetime_sub.
      destruct ((0 <=? clock w - days_delta days_old)
                && (clock w - days_delta days_old <=? datetime_max)) eqn:E2.
      + exfalso. apply Hout. apply andb_true_iff in E2 as [E2 E3].
        apply Z.leb_le in E1, E2, E3. split; [exact E1 | split; assumption].
      + eexists. apply bind_raise. reflexivity.
    - destruct ((- 2 ^ 31 <=? days_old) && (days_old <? 2 ^ 31));
        eexists; apply bind_raise; reflexivity. }
  destruct Hr as [e He].
  rewrite (try_except_raise _ _ w w e) by exact He.
  rewrite on_error_runs. eauto.
Qed.

Lemma cleanup_in_range (days_old : Z) (w : world) :
  answering w -> cutoff_in_range days_old w ->
  let filter : dict := <["status" := VStr "completed"]>
       {[ "end_time" := VDict [("$lt", VDate (clock w - days_delta days_old))] ]} in
  let gone := (select (served w) sessions_collection filter).*1 in
  (cleanup_old_sessions days_old w).2
  = set_stdout
      (stdout w ++ ["Cleaned up " +:+ pretty (Z.of_nat (length gone)) +:+ " old sessions"])
      (set_coll sessions_collection
         (foldr delete (coll sessions_collection (served w)) gone) (served w)).
Proof.
  intros Ha (H1 & H2 & H3) filter gone.
  unfold cleanup_old_sessions, try_except.
  rewrite (bind_ok _ _ w w (clock w)) by reflexivity.
  rewrite (bind_ok _ _ w w (days_delta days_old)).
  2:{ unfold lift, timedelta. apply Z.leb_le in H1. now rewrite H1. }
  rewrite (bind_ok _ _ w w (clock w - days_delta days_old)).
  2:{ unfold lift, datetime_sub. apply Z.leb_le in H2, H3. now rewrite H2, H3. }
  unfold delete_many. unfold bind at 1. rewrite driver_call_served by exact Ha.
  reflexivity.
Qed.

(** X16.  When the store answers and the cutoff (now minus the given
    number of days) is a date, [cleanup_old_sessions] deletes exactly the
    sessions that are completed with an end time before the cutoff and
    keeps every other session as it is.  When the cutoff is no date (more
    than 999999999 days, or a difference outside the years 1 to 9999) the
    subtraction raises, the store is not called and no session is
    deleted.  In both cases every active session and every other
    collection stay as they are. *)
Theorem cleanup_removes_expired_only (days_old : Z) (w : world) :
  answering w ->
  let w1 := (cleanup_old_sessions days_old w).2 in
  let cutoff := clock w - days_delta days_old in
  (cutoff_in_range days_old w ->
   forall k, sessions w1 !! k
             = match sessions w !! k with
               | Some d => if expired cutoff d then None else Some d
               | None => None
               end) /\
  (~ cutoff_in_range days_old w ->
   collections w1 = collections w /\ faults w1 = faults w) /\
  (forall k d, sessions w !! k = Some d -> is_active d -> sessions w1 !! k = Some d) /\
  (forall name, name <> sessions_collection -> coll name w1 = coll name w).
Proof.
  intros Ha w1 cutoff.
  assert (Hout : ~ cutoff_in_range days_old w ->
                 collections w1 = collections w /\ faults w1 = faults w).
  { intros Hn. destruct (cleanup_out_of_range days_old w Hn) as [line Hl].
    subst w1. rewrite Hl. split; reflexivity. }
  assert (Hin : cutoff_in_range days_old w ->
    forall k, sessions w1 !! k
              = match sessions w !! k with
                | Some d => if expired cutoff d then None else Some d
                | None => None
                end).
  { intros Hr.
    pose proof (cleanup_in_range days_old w Ha Hr) as Hw1. cbv zeta in Hw1.
    fold cutoff in Hw1. fold w1 in Hw1.
    set (filter := (<["status" := VStr "completed"]>
                      {[ "end_time" := VDict [("$lt", VDate cutoff)] ]} : dict)) in *.
    set (gone := (select (served w) sessions_collection filter).*1) in *.
    assert (Hs : sessions w1 = foldr delete (sessions w) gone).
    { rewrite Hw1. unfold sessions.
      change (coll sessions_collection (set_stdout _ ?x)) with (coll sessions_collection x).
      apply coll_served_eq. }
    assert (Hgone : forall k, In k gone <->
              exists d, sessions w !! k = Some d /\ expired cutoff d = true).
    { intros k. unfold gone. split.
      - intros H. apply in_map_iff in H as ([k' d] & <- & H).
        apply select_lookup in H as [Hk Hm]. exists d. split; [exact Hk|].
        now rewrite <- (matches_cleanup_filter (served w)).
      - intros (d & Hk & He). apply (in_map fst _ (k, d)). unfold select.
        apply filter_In. split.
        + apply list_elem_of_In, elem_of_map_to_list. exact Hk.
        + simpl. unfold filter. now rewrite matches_cleanup_filter. }
    intros k. rewrite Hs. destruct (sessions w !! k) as [d|] eqn:Ek.
    - destruct (expired cutoff d) eqn:Ee.
      + apply lookup_foldr_delete_in, Hgone. eauto.
      + rewrite lookup_foldr_delete_out; [exact Ek|].
        intros Hin. apply Hgone in Hin as (d' & Hd' & He'). congruence.
    - rewrite lookup_foldr_delete_out; [exact Ek|].
      intros Hin. apply Hgone in Hin as (d' & Hd' & _). congruence. }
  assert (Hdec : cutoff_in_range days_old w \/ ~ cutoff_in_range days_old w).
  { unfold cutoff_in_range. lia. }
  split; [exact Hin|]. split; [exact Hout|]. split.
  - intros k d Hk [Hst _]. destruct Hdec as [Hr|Hn].
    + rewrite (Hin Hr), Hk. unfold expired, dict_get. rewrite Hst. reflexivity.
    + unfold sessions, coll in *. rewrite (proj1 (Hout Hn)). exact Hk.
  - intros name Hne. destruct Hdec as [Hr|Hn].
    + pose proof (cleanup_in_range days_old w Ha Hr) as Hw1. cbv zeta in Hw1.
      fold w1 in Hw1. rewrite Hw1.
      change (coll name (set_stdout _ ?x)) with (coll name x).
      now apply coll_served_ne.
    + unfold coll. now rewrite (proj1 (Hout Hn)).
Qed.

End RoundTrips.

(** ** Performance levels *)

Section LevelFacts.
Import Models UserProgressModel StoreSpec LevelSpec Float64.

Lemma leb_trans_from_positive (m : positive) (e : Z) (y z : float) :
  leb (S754_finite false m e) y = true -> leb y z = true ->
  leb (S754_finite false m e) z = true.
Proof.
  unfold leb, SFleb, SFcompare.
  destruct y as [sy|[]| |[] my ey], z as [sz|[]| |[] mz ez];
    try discriminate; try reflexivity.
  destruct (Z.compare_spec e ey), (Z.compare_spec ey ez), (Z.compare_spec e ez);
    try discriminate; try reflexivity; try lia; subst.
  change (Pos.compare_cont Eq ?a ?b) with (Pos.compare a b).
  destruct (Pos.compare_spec m my), (Pos.compare_spec my mz), (Pos.compare_spec m mz);
    try discriminate; try reflexivity; try lia.
Qed.

Lemma of_Z_threshold (n : Z) :
  In n [90; 80; 70; 60] -> exists m e, of_Z n = S754_finite false m e.
Proof. intros [<-|[<-|[<-|[<-|[]]]]]; vm_compute; eauto. Qed.

Lemma py_ge_mono (s1 s2 : value) (n : Z) :
  score_le s1 s2 -> In n [90; 80; 70; 60] ->
  exists b1 b2, py_ge s1 n = Ok b1 /\ py_ge s2 n = Ok b2 /\ (b1 = true -> b2 = true).
Proof.
  intros Hle Hn. destruct s1, s2; simpl in Hle; try contradiction; simpl.
  - eexists _, _. split; [reflexivity|]. split; [reflexivity|].
    intros H. apply Z.leb_le in H. apply Z.leb_le. lia.
  - eexists _, _. split; [reflexivity|]. split; [reflexivity|].
    destruct (of_Z_threshold n Hn) as (m & e & ->).
    intros H. now apply (leb_trans_from_positive m e f).
Qed.

(** X22.  The performance level never decreases with the score: for
    two integer scores, or two float scores, the first at most the second,
    [_calculate_performance_level] returns for both, and the level of the
    second is at least that of the first in the order
    requires_attention, needs_improvement, satisfactory, good,
    excellent. *)
Theorem performance_level_monotone (s1 s2 : value) :
  score_le s1 s2 ->
  exists l1 l2,
    _calculate_performance_level s1 = Ok l1 /\
    _calculate_performance_level s2 = Ok l2 /\
    level_rank l1 <= level_rank l2.
Proof.
  intros Hle. unfold _calculate_performance_level.
  destruct (py_ge_mono s1 s2 90 Hle) as (a1 & a2 & -> & -> & Ha); [simpl; tauto|].
  destruct (py_ge_mono s1 s2 80 Hle) as (b1 & b2 & -> & -> & Hb); [simpl; tauto|].
  destruct (py_ge_mono s1 s2 70 Hle) as (c1 & c2 & -> & -> & Hc); [simpl; tauto|].
  destruct (py_ge_mono s1 s2 60 Hle) as (d1 & d2 & -> & -> & Hd); [simpl; tauto|].
  simpl.
  destruct a1, a2, b1, b2, c1, c2, d1, d2;
    try (specialize (Ha eq_refl); discriminate);
    try (specialize (Hb eq_refl); discriminate);
    try (specialize (Hc eq_refl); discriminate);
    try (specialize (Hd eq_refl); discriminate);
    (eexists _, _; split; [reflexivity|]; split; [reflexivity|]; vm_compute; discriminate).
Qed.

Lemma performance_level_monotone_example :
  score_le (VInt 65) (VInt 85) /\
  exists l1 l2,
    _calculate_performance_level (VInt 65) = Ok l1 /\
    _calculate_performance_level (VInt 85) = Ok l2 /\
    level_rank l1 <= level_rank l2.
Proof.
  assert (H : score_le (VInt 65) (VInt 85)) by (simpl; lia).
  split; [exact H|]. apply (performance_level_monotone (VInt 65) (VInt 85) H).
Defined.

End LevelFacts.

(** ** Question statistics *)

Section QuestionStats.
Import PyStr Mongo Driver Models MongoDBService PersistenceSpec StoreSpec FloatBound.

Lemma int_truediv_fraction (a b : Z) :
  0 <= a <= b -> 0 < b ->
  exists q, Float64.int_truediv a b = Ok q /\ below 1 0 q.
Proof.
  intros Ha Hb. destruct b as [|b|b]; try lia.
  pose proof (div_raw_below a b Ha) as Hq.
  unfold Float64.int_truediv. simpl (Zpos b =? 0).
  destruct (Float64.div (Float64.raw a) (Float64.raw (Zpos b))) eqn:E;
    simpl in Hq; try contradiction; eauto.
Qed.

Lemma apply_inc_step (k : string) (m n : Z) (rest : list (string * value)) (d : dict) :
  int_field d k = Some n ->
  apply_inc ((k, VInt m) :: rest) d = apply_inc rest (<[k := VInt (n + m)]> d).
Proof.
  unfold int_field. simpl. destruct (d !! k) as [[]|]; try discriminate;
    intros H; inversion H; reflexivity.
Qed.

Lemma int_field_insert_ne (d : dict) (k k' : string) (v : value) :
  k' <> k -> int_field (<[k' := v]> d) k = int_field d k.
Proof. intros H. unfold int_field. now rewrite lookup_insert_ne. Qed.

Lemma int_field_insert (d : dict) (k : string) (n : Z) :
  int_field (<[k := VInt n]> d) k = Some n.
Proof. unfold int_field. now rewrite lookup_insert_eq. Qed.

Lemma update_one_by_id (name : string) (o : N) (d d' : dict) (update : dict) (w : world) :
  well_keyed w -> coll name w !! o = Some d -> answering w ->
  apply_update update d = Ok d' ->
  update_one name (id_filter o) update w
  = (Ok tt, set_coll name (<[o := d']> (coll name w)) (served w)).
Proof.
  intros Hw Hod Ha Hu. unfold update_one. rewrite driver_call_served by exact Ha.
  destruct (select_by_id (served w) name o d Hw Hod) as [rest ->].
  rewrite Hu. reflexivity.
Qed.

Lemma answering_thrice_split (w : world) :
  answering_thrice w ->
  answering w /\ answering (served w) /\ answering (served (served w)).
Proof.
  unfold answering_thrice, answering, served. simpl.
  destruct (faults w) as [|b1 [|b2 [|b3 fs]]]; simpl; intros H;
    repeat split; intros E; inversion E; subst; apply H; tauto.
Qed.

Lemma update_question_stats_effect (qid : string) (o : N) (is_correct : bool)
    (time_taken : Z) (w : world) (d : dict) (u c t : Z) :
  well_keyed w -> Bson.ObjectId qid = Ok o ->
  coll questions_collection w !! o = Some d ->
  d !! "usage_count" = Some (VInt u) ->
  int_field d "correct_count" = Some c ->
  int_field d "total_time" = Some t ->
  0 <= c <= u ->
  answering_thrice w ->
  let c' := c + (if is_correct then 1 else 0) in
  exists d' q,
    coll questions_collection (update_question_stats qid is_correct time_taken w).2 !! o
      = Some d' /\
    d' !! "usage_count" = Some (VInt (u + 1)) /\
    int_field d' "correct_count" = Some c' /\
    int_field d' "total_time" = Some (t + time_taken) /\
    Float64.int_truediv c' (u + 1) = Ok q /\
    d' !! "success_rate" = Some (VFloat q) /\
    0 <= c' <= u + 1 /\
    (forall k, k <> "usage_count" -> k <> "total_time" -> k <> "correct_count" ->
               k <> "success_rate" -> d' !! k = d !! k).
Proof.
  intros Hw Ho Hod Hu Hc Ht Hcu Hans c'.
  destruct (answering_thrice_split w Hans) as (A1 & A2 & A3).
  assert (Hc' : 0 <= c' <= u + 1) by (subst c'; destruct is_correct; lia).
  destruct (int_truediv_fraction c' (u + 1) Hc') as (q & Hq & _); [lia|].
  set (inc := if is_correct
              then [("usage_count", VInt 1); ("total_time", VInt time_taken)]
                   ++ [("correct_count", VInt 1)]
              else [("usage_count", VInt 1); ("total_time", VInt time_taken)]).
  (* the document after the increments *)
  assert (Hd1 : exists d1,
    apply_update {[ "$inc" := VDict inc ]} d = Ok d1 /\
    d1 !! "usage_count" = Some (VInt (u + 1)) /\
    int_field d1 "correct_count" = Some c' /\
    int_field d1 "total_time" = Some (t + time_taken) /\
    (forall k, k <> "usage_count" -> k <> "total_time" -> k <> "correct_count" ->
               d1 !! k = d !! k)).
  { unfold apply_update. rewrite lookup_singleton_ne by discriminate.
    rewrite lookup_singleton_eq. simpl rbind.
    assert (Hu' : int_field d "usage_count" = Some u) by (unfold int_field; now rewrite Hu).
    subst inc c'. destruct is_correct; simpl app.
    - rewrite (apply_inc_step _ _ u) by exact Hu'.
      rewrite (apply_inc_step _ _ t)
        by (rewrite int_field_insert_ne by discriminate; exact Ht).
      rewrite (apply_inc_step _ _ c)
        by (rewrite !int_field_insert_ne by discriminate; exact Hc).
      eexists. split; [reflexivity|].
      split; [now rewrite !lookup_insert_ne, lookup_insert_eq by discriminate|].
      split; [apply int_field_insert|].
      split; [rewrite int_field_insert_ne by discriminate; apply int_field_insert|].
      intros k K1 K2 K3. now rewrite !lookup_insert_ne by congruence.
    - rewrite (apply_inc_step _ _ u) by exact Hu'.
      rewrite (apply_inc_step _ _ t)
        by (rewrite int_field_insert_ne by discriminate; exact Ht).
      eexists. split; [reflexivity|].
      split; [now rewrite !lookup_insert_ne, lookup_insert_eq by discriminate|].
      split; [rewrite !int_field_insert_ne by discriminate; rewrite Hc; f_equal; lia|].
      split; [apply int_field_insert|].
      intros k K1 K2 K3. now rewrite !lookup_insert_ne by congruence. }
  destruct Hd1 as (d1 & Hup1 & Hu1 & Hc1 & Ht1 & Hrest1).
  set (w1 := set_coll questions_collection
               (<[o := d1]> (coll questions_collection w)) (served w)).
  assert (Hstep1 : update_one questions_collection (id_filter o)
                     {[ "$inc" := VDict inc ]} w = (Ok tt, w1))
    by now apply (update_one_by_id _ _ d).
  assert (Hw1 : well_keyed w1).
  { pose proof (keys_update_one questions_collection (id_filter o)
                  {[ "$inc" := VDict inc ]}) as Hk.
    assert (Hsp : spares_id {[ "$inc" := VDict inc ]}).
    { apply spares_id_inc. subst inc. destruct is_correct; simpl; intuition discriminate. }
    specialize (Hk Hsp w Hw). now rewrite Hstep1 in Hk. }
  assert (Hod1 : coll questions_collection w1 !! o = Some d1).
  { unfold w1. rewrite coll_served_eq. apply lookup_insert_eq. }
  assert (Hstep2 : find_one questions_collection (id_filter o) w1
                   = (Ok (Some d1), served w1))
    by (apply find_one_by_id; assumption).
  set (d2 := <["success_rate" := VFloat q]> d1).
  set (w3 := set_coll questions_collection
               (<[o := d2]> (coll questions_collection (served w1))) (served (served w1))).
  assert (Hstep3 : update_one questions_collection (id_filter o)
                     {[ "$set" := VDict [("success_rate", VFloat q)] ]} (served w1)
                   = (Ok tt, w3)).
  { apply (update_one_by_id _ _ d1); [exact Hw1 | exact Hod1 | exact A3 |].
    unfold apply_update. rewrite lookup_singleton_eq.
    rewrite lookup_singleton_ne by discriminate. reflexivity. }
  assert (Hcc : dict_get d1 "correct_count" (VInt 0) = VInt c').
  { unfold int_field in Hc1. unfold dict_get.
    destruct (d1 !! "correct_count") as [[]|]; try discriminate; congruence. }
  assert (Hrun : update_question_stats qid is_correct time_taken w = (Ok RNone, w3)).
  { unfold update_question_stats. apply try_except_ok. fold inc.
    rewrite (bind_ok _ _ w w o) by (unfold lift; now rewrite Ho).
    rewrite (bind_ok _ _ w w1 tt) by exact Hstep1.
    rewrite (bind_ok _ _ w1 w1 o) by (unfold lift; now rewrite Ho).
    rewrite (bind_ok _ _ w1 (served w1) (Some d1)) by exact Hstep2.
    rewrite (bind_ok _ _ (served w1) (served w1) true).
    2:{ unfold lift, dict_get. rewrite Hu1. simpl. do 2 f_equal. apply Z.ltb_lt. lia. }
    rewrite (bind_ok _ _ (served w1) (served w1) (VInt (u + 1)))
      by (unfold lift; now rewrite Hu1).
    rewrite (bind_ok _ _ (served w1) (served w1) (VFloat q)).
    2:{ unfold lift. rewrite Hcc. simpl. now rewrite Hq. }
    rewrite (bind_ok _ _ (served w1) (served w1) o) by (unfold lift; now rewrite Ho).
    rewrite (bind_ok _ _ (served w1) w3 tt) by exact Hstep3.
    reflexivity. }
  exists d2, q. rewrite Hrun. simpl.
  split; [unfold w3; rewrite coll_served_eq; apply lookup_insert_eq|].
  subst d2.
  split; [now rewrite lookup_insert_ne by discriminate|].
  split; [now rewrite int_field_insert_ne by discriminate|].
  split; [now rewrite int_field_insert_ne by discriminate|].
  split; [exact Hq|].
  split; [apply lookup_insert_eq|].
  split; [exact Hc'|].
  intros k K1 K2 K3 K4. rewrite lookup_insert_ne by congruence. now apply Hrest1.
Qed.

(** X17.  [update_question_stats] on a stored question (the store
    answering its three calls) adds one to [usage_count], the time taken
    to [total_time] and, for a correct answer, one to [correct_count]
    (missing counters count as 0); it sets [success_rate] to the quotient
    of the new [correct_count] by the new [usage_count], the correct count
    staying at most the usage count; every other field is unchanged. *)
Theorem question_stats_recorded (qid : string) (o : N) (is_correct : bool)
    (time_taken : Z) (w : world) (d : dict) (u c t : Z) :
  well_keyed w -> Bson.ObjectId qid = Ok o ->
  coll questions_collection w !! o = Some d ->
  d !! "usage_count" = Some (VInt u) ->
  int_field d "correct_count" = Some c ->
  int_field d "total_time" = Some t ->
  0 <= c <= u ->
  answering_thrice w ->
  let c' := c + (if is_correct then 1 else 0) in
  exists d' q,
    coll questions_collection (update_question_stats qid is_correct time_taken w).2 !! o
      = Some d' /\
    d' !! "usage_count" = Some (VInt (u + 1)) /\
    int_field d' "correct_count" = Some c' /\
    int_field d' "total_time" = Some (t + time_taken) /\
    Float64.int_truediv c' (u + 1) = Ok q /\
    d' !! "success_rate" = Some (VFloat q) /\
    0 <= c' <= u + 1 /\
    (forall k, k <> "usage_count" -> k <> "total_time" -> k <> "correct_count" ->
               k <> "success_rate" -> d' !! k = d !! k).
Proof. apply update_question_stats_effect. Qed.

Lemma create_question_world kw (w : world) : (QuestionModel.create_question kw w).2 = w.
Proof.
  unfold QuestionModel.create_question, bind, lift, lower_v, utcnow, ret.
  destruct (bind_kwargs _ kw) as [args|e]; [|reflexivity].
  destruct (py_lower (arg args "question_type")) as [s1|e]; simpl; [|reflexivity].
  destruct (py_lower (arg args "subject")) as [s2|e]; simpl; [|reflexivity].
  destruct (py_lower (arg args "topic")) as [s3|e]; simpl; [|reflexivity].
  destruct (py_lower (arg args "difficulty")) as [s4|e]; simpl; [|reflexivity].
  destruct (py_lower (arg args "bloom_level")) as [s5|e]; simpl; reflexivity.
Qed.

Lemma create_question_doc kw (w : world) (doc : dict) :
  QuestionModel.create_question kw w = (Ok doc, w) ->
  doc !! "question" = kw !! "question" /\
  doc !! "correct_answer" = kw !! "correct_answer" /\
  doc !! "usage_count" = Some (VInt 0) /\
  doc !! "average_time" = Some (VInt 0) /\
  doc !! "correct_count" = None /\
  doc !! "total_time" = None.
Proof.
  unfold QuestionModel.create_question, bind, lift, lower_v, utcnow, ret.
  destruct (bind_kwargs _ kw) as [args|e] eqn:Eb; [|discriminate].
  destruct (py_lower (arg args "question_type")) as [s1|e]; simpl; [|discriminate].
  destruct (py_lower (arg args "subject")) as [s2|e]; simpl; [|discriminate].
  destruct (py_lower (arg args "topic")) as [s3|e]; simpl; [|discriminate].
  destruct (py_lower (arg args "difficulty")) as [s4|e]; simpl; [|discriminate].
  destruct (py_lower (arg args "bloom_level")) as [s5|e]; simpl; [|discriminate].
  intros H. inversion H as [Hd]. clear H Hd.
  pose proof (bind_kwargs_bound _ _ _ "question" Eb) as H1.
  pose proof (bind_kwargs_bound _ _ _ "correct_answer" Eb) as H2.
  simpl in H1, H2.
  assert (Hreq : forall k, In k ["question"; "correct_answer"] -> is_Some (kw !! k)).
  { intros k Hk. destruct (kw !! k) eqn:E; [eauto|]. exfalso.
    destruct (bind_kwargs_ill_formed
                [ ("question", None); ("question_type", None); ("subject", None);
                  ("topic", None); ("difficulty", None); ("bloom_level", None);
                  ("correct_answer", None); ("options", Some VNone);
                  ("explanation", Some VNone); ("key_points", Some VNone);
                  ("tags", Some VNone) ] kw) as [e He].
    - left. exists k. split; [|exact E]. simpl in Hk. simpl.
      destruct Hk as [<-|[<-|[]]]; tauto.
    - congruence. }
  destruct (Hreq "question") as [t Ht]; [now left|].
  destruct (Hreq "correct_answer") as [c Hc]; [right; now left|].
  rewrite Ht in H1. rewrite Hc in H2.
  split; [|split; [|repeat split]].
  - change (Some (arg args "question") = kw !! "question").
    unfold arg, dict_get. now rewrite H1, Ht.
  - change (Some (arg args "correct_answer") = kw !! "correct_answer").
    unfold arg, dict_get. now rewrite H2, Hc.
Qed.

(** X23.  The first attempt at a question added by [add_question],
    recorded with the identifier string returned (the store answering):
    the usage count is 1, the success rate is 1.0 for a correct answer and
    0.0 otherwise, the total time is the time taken, while
    [average_time] stays 0; question and correct answer are those
    given. *)
Theorem first_attempt_recorded (data : dict) (w w1 : world) (id : string)
    (is_correct : bool) (time_taken : Z) :
  well_keyed w -> (next_id w < 2 ^ 96)%N ->
  add_question data w = (Ok (RStr id), w1) ->
  answering_thrice w1 ->
  exists d',
    coll questions_collection (update_question_stats id is_correct time_taken w1).2
      !! next_id w = Some d' /\
    d' !! "usage_count" = Some (VInt 1) /\
    d' !! "success_rate"
      = Some (VFloat (if is_correct then Float64.one else Float64.zero)) /\
    int_field d' "total_time" = Some time_taken /\
    d' !! "average_time" = Some (VInt 0) /\
    d' !! "question" = data !! "question" /\
    d' !! "correct_answer" = data !! "correct_answer".
Proof.
  intros Hw Hn Hadd Hans.
  assert (Hw1 : well_keyed w1).
  { pose proof (keys_run (AddQuestion data) w Hw) as H. simpl run in H.
    now rewrite Hadd in H. }
  unfold add_question in Hadd.
  apply insert_method_returns in Hadd as (doc & Hdoc & -> & Hw1eq);
    [|apply create_question_world].
  destruct (create_question_doc data w doc Hdoc) as (Hq & Hca & Hu & Hav & Hcc & Htt).
  set (o := next_id w) in *. set (d := <["_id" := VOid o]> doc).
  assert (Hod : coll questions_collection w1 !! o = Some d).
  { rewrite Hw1eq, coll_after_insert. simpl. now rewrite lookup_insert_eq. }
  destruct (update_question_stats_effect (Bson.oid_str o) o is_correct time_taken
              w1 d 0 0 0) as (d' & q & Hd' & Hu' & _ & Ht' & Hdiv & Hsr & _ & Hrest);
    try assumption.
  - now apply ObjectId_oid_str.
  - subst d. now rewrite lookup_insert_ne by discriminate.
  - subst d. unfold int_field. rewrite lookup_insert_ne by discriminate. now rewrite Hcc.
  - subst d. unfold int_field. rewrite lookup_insert_ne by discriminate. now rewrite Htt.
  - lia.
  - exists d'. split; [exact Hd'|]. split; [exact Hu'|].
    split.
    { rewrite Hsr. do 2 f_equal.
      destruct is_correct; vm_compute in Hdiv; inversion Hdiv; reflexivity. }
    split; [exact Ht'|].
    rewrite (Hrest "average_time"), (Hrest "question"), (Hrest "correct_answer")
      by discriminate.
    subst d. rewrite !lookup_insert_ne by discriminate. auto.
Qed.

End QuestionStats.

(** ** Progress records *)

Section ProgressFacts.
Import PyStr Mongo Driver Models MongoDBService PersistenceSpec StoreSpec.

Lemma create_progress_world kw (w : world) :
  (UserProgressModel.create_progress kw w).2 = w.
Proof.
  unfold UserProgressModel.create_progress, bind, lift, lower_v, utcnow, ret.
  destruct (bind_kwargs _ kw) as [args|e]; [|reflexivity].
  destruct (py_lower (arg args "subject")) as [s1|e]; simpl; [|reflexivity].
  destruct (py_lower (arg args "topic")) as [s2|e]; simpl; [|reflexivity].
  destruct (py_lower (arg args "difficulty")) as [s3|e]; simpl; [|reflexivity].
  destruct (UserProgressModel._calculate_performance_level (arg args "score"));
    reflexivity.
Qed.

Lemma create_progress_doc kw (w : world) :
  match UserProgressModel.create_progress kw w with
  | (Ok doc, _) =>
      exists level,
        UserProgressModel._calculate_performance_level (dict_get kw "score" VNone)
          = Ok level /\
        doc !! "performance_level" = Some (VStr level) /\
        doc !! "score" = kw !! "score" /\
        doc !! "timestamp" = Some (VDate (clock w))
  | (Raise _, _) => True
  end.
Proof.
  unfold UserProgressModel.create_progress, bind, lift, lower_v, utcnow, ret.
  destruct (bind_kwargs _ kw) as [args|e] eqn:Eb; [|exact I].
  destruct (py_lower (arg args "subject")) as [s1|e]; simpl; [|exact I].
  destruct (py_lower (arg args "topic")) as [s2|e]; simpl; [|exact I].
  destruct (py_lower (arg args "difficulty")) as [s3|e]; simpl; [|exact I].
  pose proof (bind_kwargs_bound _ _ _ "score" Eb) as H1. simpl in H1.
  assert (Hs : is_Some (kw !! "score")).
  { destruct (kw !! "score") eqn:E; [eauto|]. exfalso.
    destruct (bind_kwargs_ill_formed
                [ ("user_id", None); ("subject", None); ("topic", None);
                  ("score", None); ("total_questions", None);
                  ("correct_answers", None); ("time_spent", Some (VInt 0));
                  ("difficulty", Some (VStr "medium")) ] kw) as [e He].
    - left. exists "score". split; [simpl; tauto | exact E].
    - congruence. }
  destruct Hs as [sc Hsc]. rewrite Hsc in H1.
  assert (Ha : arg args "score" = dict_get kw "score" VNone).
  { unfold arg, dict_get. now rewrite H1, Hsc. }
  rewrite Ha.
  destruct (UserProgressModel._calculate_performance_level (dict_get kw "score" VNone))
    as [level|e]; simpl; [|exact I].
  exists level. split; [reflexivity|]. split; [reflexivity|]. split; [|reflexivity].
  change (Some (dict_get kw "score" VNone) = kw !! "score").
  unfold dict_get. now rewrite Hsc.
Qed.

Lemma level_needs_number (score : value) (level : string) :
  UserProgressModel._calculate_performance_level score = Ok level ->
  match score with
  | VInt _ | VFloat _ | VBool _ => True
  | _ => False
  end.
Proof. destruct score; simpl; auto; discriminate. Qed.

(** X24.  When [save_user_progress] returns an identifier, the
    document stored under it has the score given, which is a number, and
    as its performance level the one [_calculate_performance_level]
    computes for that score. *)
Theorem progress_level_stored (data : dict) (w w1 : world) (id : string) :
  save_user_progress data w = (Ok (RStr id), w1) ->
  exists d level,
    coll progress_collection w1 !! next_id w = Some d /\
    id = Bson.oid_str (next_id w) /\
    UserProgressModel._calculate_performance_level (dict_get data "score" VNone)
      = Ok level /\
    d !! "performance_level" = Some (VStr level) /\
    d !! "score" = data !! "score" /\
    match dict_get data "score" VNone with
    | VInt _ | VFloat _ | VBool _ => True
    | _ => False
    end.
Proof.
  intros Hs. unfold save_user_progress in Hs.
  apply insert_method_returns in Hs as (doc & Hdoc & -> & Hw1);
    [|apply create_progress_world].
  pose proof (create_progress_doc data w) as Hd. rewrite Hdoc in Hd.
  destruct Hd as (level & Hl & Hp & Hsc & _).
  exists (<["_id" := VOid (next_id w)]> doc), level.
  split; [rewrite Hw1, coll_after_insert; simpl; now rewrite lookup_insert_eq|].
  split; [reflexivity|]. split; [exact Hl|].
  rewrite !lookup_insert_ne by discriminate.
  split; [exact Hp|]. split; [exact Hsc|].
  exact (level_needs_number _ _ Hl).
Qed.

End ProgressFacts.

(** ** Queries with optional filters, and preferences *)

Section OptionalFilters.
Import PyStr Mongo Driver Models MongoDBService PersistenceSpec StoreSpec.

Lemma matches_progress_filter (w : world) (u : string) (subject : option string)
    (d : dict) :
  matches w (with_lowered "subject" subject {[ "user_id" := VStr u ]}) d
  = value_eqb (dict_get d "user_id" VNone) (VStr u) && field_is "subject" subject d.
Proof.
  assert (H1 : matches w {[ "user_id" := VStr u ]} d
               = value_eqb (dict_get d "user_id" VNone) (VStr u) && true).
  { rewrite andb_true_r. now apply matches_one_field. }
  unfold with_lowered, field_is.
  destruct subject as [s|]; [destruct (String.eqb s EmptyString)|];
    cbn [orb]; [exact H1 | | exact H1].
  clear H1. unfold matches.
  change (map_to_list (<["subject" := VStr (lower s)]> ({[ "user_id" := VStr u ]} : dict)))
    with [("subject", VStr (lower s)); ("user_id", VStr u)].
  simpl forallb. unfold cond_holds. simpl. rewrite andb_true_r. apply andb_comm.
Qed.

Lemma matches_questions_filter (w : world) (s t : string) (difficulty : option string)
    (d : dict) :
  matches w (with_lowered "difficulty" difficulty
               (<["subject" := VStr (lower s)]> {[ "topic" := VStr (lower t) ]})) d
  = value_eqb (dict_get d "subject" VNone) (VStr (lower s))
    && value_eqb (dict_get d "topic" VNone) (VStr (lower t))
    && field_is "difficulty" difficulty d.
Proof.
  assert (H2 : matches w (<["subject" := VStr (lower s)]> {[ "topic" := VStr (lower t) ]}) d
               = value_eqb (dict_get d "subject" VNone) (VStr (lower s))
                 && value_eqb (dict_get d "topic" VNone) (VStr (lower t))).
  { unfold matches.
    change (map_to_list (<["subject" := VStr (lower s)]> ({[ "topic" := VStr (lower t) ]} : dict)))
      with [("subject", VStr (lower s)); ("topic", VStr (lower t))].
    simpl forallb. unfold cond_holds. simpl. now rewrite andb_true_r. }
  unfold with_lowered, field_is.
  destruct difficulty as [x|]; [destruct (String.eqb x EmptyString)|];
    cbn [orb]; [rewrite andb_true_r; exact H2 | | rewrite andb_true_r; exact H2].
  clear H2. unfold matches.
  change (map_to_list (<["difficulty" := VStr (lower x)]>
                         (<["subject" := VStr (lower s)]>
                            ({[ "topic" := VStr (lower t) ]} : dict))))
    with [("subject", VStr (lower s)); ("topic", VStr (lower t));
          ("difficulty", VStr (lower x))].
  simpl forallb. unfold cond_holds. simpl. now rewrite andb_true_r, andb_assoc.
Qed.

(** X27.  When the store answers, [get_user_progress] returns
    exactly the stored progress records of the given user, restricted to
    the subject (compared in lower case) when a non-empty one is given,
    newest first by timestamp; the empty subject filters nothing. *)
Theorem user_progress_query (u : string) (subject : option string) (w : world) :
  answering w ->
  exists docs,
    get_user_progress u subject w = (Ok (RList docs), served w) /\
    (forall d, In d docs <->
       exists k, coll progress_collection w !! k = Some d /\
                 d !! "user_id" = Some (VStr u) /\
                 field_is "subject" subject d = true) /\
    newest_first "timestamp" docs /\
    get_user_progress u (Some EmptyString) w = get_user_progress u None w.
Proof.
  intros Ha. eexists. split.
  { unfold get_user_progress. apply try_except_ok.
    erewrite bind_ok; [|now apply find_served]. reflexivity. }
  split; [|split; [|reflexivity]].
  - intros d. unfold apply_limit. simpl. rewrite In_sort_docs. split.
    + intros H. apply in_map_iff in H as ([k d'] & <- & H).
      apply select_lookup in H as [Hk Hm]. exists k. split; [exact Hk|].
      rewrite matches_progress_filter in Hm. apply andb_true_iff in Hm as [Hu Hs].
      split; [|exact Hs]. apply value_eqb_str in Hu. unfold dict_get in Hu. simpl in *.
      destruct (d' !! "user_id"); congruence.
    + intros (k & Hk & Hu & Hs). apply (in_map snd _ (k, d)). unfold select.
      apply filter_In. split.
      * apply list_elem_of_In, elem_of_map_to_list. exact Hk.
      * simpl. rewrite matches_progress_filter, Hs, andb_true_r.
        apply value_eqb_str. unfold dict_get. now rewrite Hu.
  - unfold newest_first, apply_limit. simpl.
    apply ordered_sort_by. intros a b. apply rank_leb_total.
Qed.

Lemma create_question_keys kw (w : world) (doc : dict) (s t x : string) :
  QuestionModel.create_question kw w = (Ok doc, w) ->
  kw !! "subject" = Some (VStr s) ->
  kw !! "topic" = Some (VStr t) ->
  kw !! "difficulty" = Some (VStr x) ->
  doc !! "subject" = Some (VStr (lower s)) /\
  doc !! "topic" = Some (VStr (lower t)) /\
  doc !! "difficulty" = Some (VStr (lower x)).
Proof.
  unfold QuestionModel.create_question, bind, lift, lower_v, utcnow, ret.
  destruct (bind_kwargs _ kw) as [args|e] eqn:Eb; [|discriminate].
  intros H Hs Ht Hx.
  pose proof (bind_kwargs_bound _ _ _ "subject" Eb) as H1.
  pose proof (bind_kwargs_bound _ _ _ "topic" Eb) as H2.
  pose proof (bind_kwargs_bound _ _ _ "difficulty" Eb) as H3.
  simpl in H1, H2, H3. rewrite Hs in H1. rewrite Ht in H2. rewrite Hx in H3.
  assert (A1 : arg args "subject" = VStr s) by (unfold arg, dict_get; now rewrite H1).
  assert (A2 : arg args "topic" = VStr t) by (unfold arg, dict_get; now rewrite H2).
  assert (A3 : arg args "difficulty" = VStr x) by (unfold arg, dict_get; now rewrite H3).
  rewrite A1, A2, A3 in H.
  destruct (py_lower (arg args "question_type")) as [s1|e]; simpl in H; [|discriminate].
  destruct (py_lower (arg args "bloom_level")) as [s5|e]; simpl in H; [|discriminate].
  inversion H. repeat split.
Qed.

(** X25.  A question written by [add_question] is read back by
    [get_questions_by_topic]: a query for the same subject and topic up
    to letter case, with no difficulty, the empty difficulty or the same
    difficulty up to letter case (the store answering, and the limit
    being 0 or at least the size of the collection), returns a list that
    contains the new document, with the identifier returned, the question
    and correct answer given and a usage count of 0. *)
Theorem question_round_trip (data : dict) (s t x s' t' : string)
    (difficulty : option string) (limit : Z) (w w1 : world) (id : string) :
  add_question data w = (Ok (RStr id), w1) ->
  data !! "subject" = Some (VStr s) ->
  data !! "topic" = Some (VStr t) ->
  data !! "difficulty" = Some (VStr x) ->
  lower s' = lower s -> lower t' = lower t ->
  match difficulty with
  | Some x' => x' = EmptyString \/ lower x' = lower x
  | None => True
  end ->
  answering w1 ->
  limit = 0 \/ Z.of_nat (size (coll questions_collection w1)) <= Z.abs limit ->
  exists docs d,
    get_questions_by_topic s' t' difficulty limit w1 = (Ok (RList docs), served w1) /\
    In d docs /\
    id = Bson.oid_str (next_id w) /\
    d !! "_id" = Some (VOid (next_id w)) /\
    d !! "question" = data !! "question" /\
    d !! "correct_answer" = data !! "correct_answer" /\
    d !! "usage_count" = Some (VInt 0).
Proof.
  intros Hadd Hs Ht Hx Hls Hlt Hd Ha Hlim.
  unfold add_question in Hadd.
  apply insert_method_returns in Hadd as (doc & Hdoc & -> & Hw1);
    [|apply create_question_world].
  destruct (create_question_doc data w doc Hdoc) as (Hq & Hca & Hu & _).
  destruct (create_question_keys data w doc s t x Hdoc Hs Ht Hx) as (Ks & Kt & Kx).
  set (o := next_id w) in *. set (d := <["_id" := VOid o]> doc).
  assert (Hod : coll questions_collection w1 !! o = Some d).
  { rewrite Hw1, coll_after_insert. simpl. now rewrite lookup_insert_eq. }
  assert (Hm : matches w1
                 (with_lowered "difficulty" difficulty
                    (<["subject" := VStr (lower s')]> {[ "topic" := VStr (lower t') ]})) d
               = true).
  { rewrite matches_questions_filter.
    assert (F1 : value_eqb (dict_get d "subject" VNone) (VStr (lower s')) = true).
    { apply value_eqb_str. unfold dict_get. subst d.
      rewrite lookup_insert_ne by discriminate. now rewrite Ks, Hls. }
    assert (F2 : value_eqb (dict_get d "topic" VNone) (VStr (lower t')) = true).
    { apply value_eqb_str. unfold dict_get. subst d.
      rewrite lookup_insert_ne by discriminate. now rewrite Kt, Hlt. }
    rewrite F1, F2. cbn [andb]. unfold field_is.
    destruct difficulty as [x'|]; [|reflexivity].
    destruct Hd as [->|Hd]; [reflexivity|].
    apply orb_true_iff. right. apply value_eqb_str. unfold dict_get. subst d.
    rewrite lookup_insert_ne by discriminate. now rewrite Kx, Hd. }
  assert (Hsel : In d (select w1 questions_collection
                         (with_lowered "difficulty" difficulty
                            (<["subject" := VStr (lower s')]>
                               {[ "topic" := VStr (lower t') ]}))).*2).
  { apply (in_map snd _ (o, d)). unfold select. apply filter_In. split.
    - apply list_elem_of_In, elem_of_map_to_list. exact Hod.
    - exact Hm. }
  eexists _, d. split.
  - unfold get_questions_by_topic. apply try_except_ok.
    erewrite bind_ok; [|now apply find_served]. reflexivity.
  - split.
    + rewrite apply_limit_all; [exact Hsel|].
      destruct Hlim as [Hl|Hl]; [now left|]. right. rewrite length_fmap.
      pose proof (length_select w1 questions_collection
                    (with_lowered "difficulty" difficulty
                       (<["subject" := VStr (lower s')]>
                          {[ "topic" := VStr (lower t') ]}))). lia.
    + subst d. rewrite lookup_insert_eq.
      rewrite !lookup_insert_ne by discriminate. auto 10.
Qed.

(** X26.  When the store answers, [update_user_preferences] on a
    stored user replaces the learning preferences and nothing else: no
    other field, user or collection changes, and [get_user] then returns
    the user with the new preferences. *)
Theorem preferences_replaced (sid : string) (o : N) (preferences : value)
    (d : dict) (w : world) :
  well_keyed w -> Bson.ObjectId sid = Ok o ->
  coll users_collection w !! o = Some d ->
  answering w -> answering (served w) ->
  let w1 := (update_user_preferences sid preferences w).2 in
  let d' := <["learning_preferences" := preferences]> d in
  coll users_collection w1 !! o = Some d' /\
  (forall k, k <> o -> coll users_collection w1 !! k = coll users_collection w !! k) /\
  (forall name, name <> users_collection -> coll name w1 = coll name w) /\
  get_user sid w1 = (Ok (RDoc d'), served w1).
Proof.
  intros Hw Ho Hod A1 A2 w1 d'.
  assert (Hup : update_one users_collection (id_filter o)
                  {[ "$set" := VDict [("learning_preferences", preferences)] ]} w
                = (Ok tt, set_coll users_collection
                            (<[o := d']> (coll users_collection w)) (served w))).
  { apply (update_one_by_id _ _ d); try assumption.
    unfold apply_update. rewrite lookup_singleton_eq.
    rewrite lookup_singleton_ne by discriminate. reflexivity. }
  assert (Hrun : update_user_preferences sid preferences w
                 = (Ok RNone, set_coll users_collection
                                (<[o := d']> (coll users_collection w)) (served w))).
  { unfold update_user_preferences. apply try_except_ok.
    rewrite (bind_ok _ _ w w o) by (unfold lift; now rewrite Ho).
    erewrite bind_ok; [|exact Hup]. reflexivity. }
  assert (Hw1 : well_keyed w1).
  { pose proof (keys_run (UpdateUserPreferences sid preferences) w Hw) as H.
    exact H. }
  subst w1. rewrite Hrun in *. simpl snd in *.
  assert (Hod' : coll users_collection
                   (set_coll users_collection (<[o := d']> (coll users_collection w))
                      (served w)) !! o = Some d').
  { rewrite coll_served_eq. apply lookup_insert_eq. }
  split; [exact Hod'|]. split; [|split].
  - intros k Hk. rewrite coll_served_eq. now apply lookup_insert_ne.
  - intros name Hne. now apply coll_served_ne.
  - unfold get_user. apply try_except_ok.
    erewrite (bind_ok _ _ _ _ o); [|unfold lift; now rewrite Ho].
    erewrite bind_ok; [|apply (find_one_by_id _ _ d'); [exact Hw1 | exact Hod' | exact A2]].
    reflexivity.
Qed.

End OptionalFilters.

(** ** The service on the data of the integration example *)

Section StoreExamples.
Import PyStr Mongo Driver Models MongoDBService PersistenceSpec StoreSpec.

Lemma well_keyed_empty (w : world) : collections w = ∅ -> well_keyed w.
Proof.
  intros He name k d. unfold coll. rewrite He, lookup_empty, lookup_empty. discriminate.
Qed.

Lemma stored_is (name : string) (o : N) (w : world) :
  (match coll name w !! o with Some _ => true | None => false end) = true ->
  coll name w !! o = Some (stored name o w).
Proof. unfold stored. destruct (coll name w !! o); [reflexivity | discriminate]. Qed.

Lemma run_after (c : call) (w : world) (v : retval) :
  (run c w).1 = Ok v -> run c w = (Ok v, after c w).
Proof. intros H. rewrite (surjective_pairing (run c w)), H. reflexivity. Qed.

Lemma identifiers_are_kept_example :
  reachable (after (CreateUser demo_user) demo_world) /\
  well_keyed (after (CreateUser demo_user) demo_world).
Proof.
  assert (H : reachable (after (CreateUser demo_user) demo_world)).
  { apply reach_call. now apply reach_init. }
  split; [exact H|]. apply (identifiers_are_kept _ H).
Defined.

Lemma ill_formed_data_stores_nothing_example :
  let c := StartStudySession {[ "user_id" := VStr "demo_user_123" ]} in
  let params := [ ("user_id", None); ("subject", None); ("topic", None);
                  ("session_type", Some (VStr "practice")) ] in
  constructor_call c = Some (params, {[ "user_id" := VStr "demo_user_123" ]}) /\
  ill_formed params {[ "user_id" := VStr "demo_user_123" ]} /\
  exists line,
    run c demo_world = (Ok RNone, set_stdout (stdout demo_world ++ [line]) demo_world).
Proof.
  intros c params.
  assert (Hill : ill_formed params {[ "user_id" := VStr "demo_user_123" ]}).
  { left. exists "subject". split; [simpl; tauto | reflexivity]. }
  split; [reflexivity|]. split; [exact Hill|].
  apply (ill_formed_data_stores_nothing c params _ demo_world eq_refl Hill).
Defined.

Lemma content_round_trip_example :
  let w1 := after (AddContent demo_content) demo_world in
  add_content demo_content demo_world = (Ok (RStr first_id), w1) /\
  demo_content !! "subject" = Some (VStr "Computer_Science") /\
  lower "computer_science" = lower "Computer_Science" /\
  answering w1 /\
  (5 = 0 \/ Z.of_nat (size (coll content_collection w1)) <= Z.abs 5) /\
  exists docs d,
    get_content_by_subject "computer_science" 5 w1 = (Ok (RList docs), served w1) /\
    In d docs /\
    d !! "title" = Some (VStr "Machine Learning Basics").
Proof.
  intros w1.
  assert (H1 : add_content demo_content demo_world = (Ok (RStr first_id), w1))
    by (apply (run_after (AddContent demo_content)); reflexivity).
  assert (H2 : answering w1) by (unfold answering; vm_compute; discriminate).
  assert (H3 : 5 = 0 \/ Z.of_nat (size (coll content_collection w1)) <= Z.abs 5)
    by (right; vm_compute; discriminate).
  split; [exact H1|]. split; [reflexivity|]. split; [reflexivity|].
  split; [exact H2|]. split; [exact H3|].
  destruct (content_round_trip demo_content "Computer_Science" "computer_science" 5
              demo_world w1 first_id H1 eq_refl eq_refl H2 H3)
    as (docs & d & Hget & Hin & _ & _ & Ht & _).
  exists docs, d. auto.
Defined.

Lemma cleanup_removes_expired_only_example :
  let w := forty_days_later in
  let w1 := (cleanup_old_sessions 30 w).2 in
  answering w /\ cutoff_in_range 30 w /\
  session_status 1 w = Some (VStr "completed") /\
  session_status 2 w = Some (VStr "active") /\
  session_status 1 w1 = None /\
  session_status 2 w1 = Some (VStr "active").
Proof.
  intros w w1.
  assert (Ha : answering w) by (unfold answering; vm_compute; discriminate).
  assert (Hr : cutoff_in_range 30 w) by (vm_compute; intuition discriminate).
  split; [exact Ha|]. split; [exact Hr|].
  split; [vm_compute; reflexivity|]. split; [vm_compute; reflexivity|].
  pose proof (proj1 (cleanup_removes_expired_only 30 w Ha) Hr) as H.
  fold w1 in H. unfold session_status. rewrite !H.
  split; vm_compute; reflexivity.
Defined.

Lemma question_stats_recorded_example :
  let w := after (AddQuestion demo_question) demo_world in
  let d := stored questions_collection 1 w in
  well_keyed w /\
  Bson.ObjectId first_id = Ok 1%N /\
  coll questions_collection w !! 1%N = Some d /\
  d !! "usage_count" = Some (VInt 0) /\
  int_field d "correct_count" = Some 0 /\
  int_field d "total_time" = Some 0 /\
  0 <= 0 <= 0 /\
  answering_thrice w /\
  exists d',
    coll questions_collection (update_question_stats first_id true 45 w).2 !! 1%N
      = Some d' /\
    d' !! "usage_count" = Some (VInt 1) /\
    int_field d' "total_time" = Some 45.
Proof.
  intros w d.
  assert (Hw : well_keyed w).
  { apply (keys_run (AddQuestion demo_question)). now apply well_keyed_empty. }
  assert (Ho : Bson.ObjectId first_id = Ok 1%N) by (vm_compute; reflexivity).
  assert (Hd : coll questions_collection w !! 1%N = Some d)
    by (apply stored_is; vm_compute; reflexivity).
  assert (Hu : d !! "usage_count" = Some (VInt 0)) by (vm_compute; reflexivity).
  assert (Hc : int_field d "correct_count" = Some 0) by (vm_compute; reflexivity).
  assert (Ht : int_field d "total_time" = Some 0) by (vm_compute; reflexivity).
  assert (Hr : 0 <= 0 <= 0) by lia.
  assert (Ha : answering_thrice w) by (unfold answering_thrice; vm_compute; tauto).
  repeat (split; [assumption|]).
  destruct (question_stats_recorded first_id 1 true 45 w d 0 0 0 Hw Ho Hd Hu Hc Ht Hr Ha)
    as (d' & q & H1 & H2 & _ & H4 & _).
  exists d'. auto.
Defined.

Lemma first_attempt_recorded_example :
  let w1 := after (AddQuestion demo_question) demo_world in
  well_keyed demo_world /\
  (next_id demo_world < 2 ^ 96)%N /\
  add_question demo_question demo_world = (Ok (RStr first_id), w1) /\
  answering_thrice w1 /\
  exists d',
    coll questions_collection (update_question_stats first_id true 45 w1).2 !! 1%N
      = Some d' /\
    d' !! "success_rate" = Some (VFloat Float64.one) /\
    d' !! "average_time" = Some (VInt 0).
Proof.
  intros w1.
  assert (Hw : well_keyed demo_world) by now apply well_keyed_empty.
  assert (Hn : (next_id demo_world < 2 ^ 96)%N) by (vm_compute; reflexivity).
  assert (H1 : add_question demo_question demo_world = (Ok (RStr first_id), w1))
    by (apply (run_after (AddQuestion demo_question)); reflexivity).
  assert (Ha : answering_thrice w1) by (unfold answering_thrice; vm_compute; tauto).
  repeat (split; [assumption|]).
  destruct (first_attempt_recorded demo_question demo_world w1 first_id true 45
              Hw Hn H1 Ha) as (d' & Hd' & _ & Hsr & _ & Hav & _).
  exists d'. auto.
Defined.

Lemma session_id_round_trip_example :
  let w1 := after (StartStudySession demo_session) demo_world in
  good demo_world /\
  (next_id demo_world < 2 ^ 96)%N /\
  start_study_session demo_session demo_world = (Ok (RStr first_id), w1) /\
  answering w1 /\
  exists d',
    sessions (end_study_session first_id (VInt 78) (VInt 1800) w1).2 !! 1%N = Some d' /\
    d' !! "status" = Some (VStr "completed").
Proof.
  intros w1.
  assert (Hg : good demo_world) by (apply reachable_good; now apply reach_init).
  assert (Hn : (next_id demo_world < 2 ^ 96)%N) by (vm_compute; reflexivity).
  assert (H1 : start_study_session demo_session demo_world = (Ok (RStr first_id), w1))
    by (apply (run_after (StartStudySession demo_session)); reflexivity).
  assert (Ha : answering w1) by (unfold answering; vm_compute; discriminate).
  repeat (split; [assumption|]).
  destruct (session_id_round_trip demo_session demo_world w1 first_id (VInt 78) (VInt 1800)
              Hg Hn H1 Ha) as (_ & d' & Hd' & Hs & _).
  exists d'. auto.
Defined.

Lemma user_round_trip_example :
  let w1 := after (CreateUser demo_user) demo_world in
  well_keyed demo_world /\
  (next_id demo_world < 2 ^ 96)%N /\
  create_user demo_user demo_world = (Ok (RStr first_id), w1) /\
  answering w1 /\
  exists d,
    get_user first_id w1 = (Ok (RDoc d), served w1) /\
    d !! "username" = Some (VStr "student123") /\
    d !! "learning_preferences" = Some UserModel.default_preferences.
Proof.
  intros w1.
  assert (Hw : well_keyed demo_world) by now apply well_keyed_empty.
  assert (Hn : (next_id demo_world < 2 ^ 96)%N) by (vm_compute; reflexivity).
  assert (H1 : create_user demo_user demo_world = (Ok (RStr first_id), w1))
    by (apply (run_after (CreateUser demo_user)); reflexivity).
  assert (Ha : answering w1) by (unfold answering; vm_compute; discriminate).
  repeat (split; [assumption|]).
  destruct (user_round_trip demo_user demo_world w1 first_id Hw Hn H1 Ha)
    as (d & Hg & _ & Hu & _ & Hp & _).
  exists d. auto.
Defined.

Lemma user_sessions_query_example :
  let w := after (StartStudySession demo_session) demo_world in
  answering w /\
  exists docs,
    get_user_sessions "demo_user_123" 5 w = (Ok (RList docs), served w) /\
    newest_first "start_time" docs.
Proof.
  intros w.
  assert (Ha : answering w) by (unfold answering; vm_compute; discriminate).
  split; [exact Ha|].
  destruct (user_sessions_query "demo_user_123" 5 w Ha) as (docs & Hq & _ & _ & _ & Hn).
  exists docs. auto.
Defined.

Lemma content_views_counted_example :
  let w := after (AddContent demo_content) demo_world in
  let w1 := (update_content_views first_id w).2 in
  let d := stored content_collection 1 w in
  well_keyed w /\
  Bson.ObjectId first_id = Ok 1%N /\
  answering w /\
  d !! "views" = Some (VInt 0) /\
  coll content_collection w1 !! 1%N = Some (<["views" := VInt 1]> d) /\
  forall k, k <> 1%N ->
    coll content_collection w1 !! k = coll content_collection w !! k.
Proof.
  intros w w1 d.
  assert (Hw : well_keyed w).
  { apply (keys_run (AddContent demo_content)). now apply well_keyed_empty. }
  assert (Ho : Bson.ObjectId first_id = Ok 1%N) by (vm_compute; reflexivity).
  assert (Ha : answering w) by (unfold answering; vm_compute; discriminate).
  assert (Hd : coll content_collection w !! 1%N = Some d)
    by (apply stored_is; vm_compute; reflexivity).
  assert (Hv : d !! "views" = Some (VInt 0)) by (vm_compute; reflexivity).
  repeat (split; [assumption|]).
  destruct (content_views_counted first_id 1 w Hw Ho Ha) as (_ & H2 & H3).
  split; [|exact H2].
  rewrite Hd in H3. cbv beta iota in H3. rewrite Hv in H3. exact H3.
Defined.

Lemma progress_level_stored_example :
  let w1 := after (SaveUserProgress demo_progress) demo_world in
  save_user_progress demo_progress demo_world = (Ok (RStr first_id), w1) /\
  exists d,
    coll progress_collection w1 !! 1%N = Some d /\
    d !! "performance_level" = Some (VStr "good").
Proof.
  intros w1.
  assert (H1 : save_user_progress demo_progress demo_world = (Ok (RStr first_id), w1))
    by (apply (run_after (SaveUserProgress demo_progress)); reflexivity).
  split; [exact H1|].
  destruct (progress_level_stored demo_progress demo_world w1 first_id H1)
    as (d & level & Hd & _ & Hl & Hp & _).
  exists d. split; [exact Hd|]. rewrite Hp.
  vm_compute in Hl. inversion Hl. reflexivity.
Defined.

Lemma user_progress_query_example :
  let w := after (SaveUserProgress demo_progress) demo_world in
  answering w /\
  exists docs,
    get_user_progress "student123" (Some "Computer_Science") w
    = (Ok (RList docs), served w) /\
    newest_first "timestamp" docs.
Proof.
  intros w.
  assert (Ha : answering w) by (unfold answering; vm_compute; discriminate).
  split; [exact Ha|].
  destruct (user_progress_query "student123" (Some "Computer_Science") w Ha)
    as (docs & Hq & _ & Hn & _).
  exists docs. auto.
Defined.

Lemma question_round_trip_example :
  let w1 := after (AddQuestion demo_question) demo_world in
  add_question demo_question demo_world = (Ok (RStr first_id), w1) /\
  demo_question !! "subject" = Some (VStr "computer_science") /\
  demo_question !! "topic" = Some (VStr "algorithms") /\
  demo_question !! "difficulty" = Some (VStr "medium") /\
  lower "Computer_Science" = lower "computer_science" /\
  lower "Algorithms" = lower "algorithms" /\
  lower "MEDIUM" = lower "medium" /\
  answering w1 /\
  (10 = 0 \/ Z.of_nat (size (coll questions_collection w1)) <= Z.abs 10) /\
  exists docs d,
    get_questions_by_topic "Computer_Science" "Algorithms" (Some "MEDIUM") 10 w1
    = (Ok (RList docs), served w1) /\
    In d docs /\
    d !! "correct_answer" = Some (VStr "O(log n)").
Proof.
  intros w1.
  assert (H1 : add_question demo_question demo_world = (Ok (RStr first_id), w1))
    by (apply (run_after (AddQuestion demo_question)); reflexivity).
  assert (H2 : answering w1) by (unfold answering; vm_compute; discriminate).
  assert (H3 : 10 = 0 \/ Z.of_nat (size (coll questions_collection w1)) <= Z.abs 10)
    by (right; vm_compute; discriminate).
  split; [exact H1|]. do 6 (split; [reflexivity|]).
  split; [exact H2|]. split; [exact H3|].
  destruct (question_round_trip demo_question "computer_science" "algorithms" "medium"
              "Computer_Science" "Algorithms" (Some "MEDIUM") 10 demo_world w1 first_id
              H1 eq_refl eq_refl eq_refl eq_refl eq_refl (or_intror eq_refl) H2 H3)
    as (docs & d & Hget & Hin & _ & _ & _ & Hc & _).
  exists docs, d. auto.
Defined.

Lemma preferences_replaced_example :
  let w := after (CreateUser demo_user) demo_world in
  let d := stored users_collection 1 w in
  let preferences := VDict [("daily_goal", VInt 45)] in
  well_keyed w /\
  Bson.ObjectId first_id = Ok 1%N /\
  coll users_collection w !! 1%N = Some d /\
  answering w /\ answering (served w) /\
  get_user first_id (update_user_preferences first_id preferences w).2
  = (Ok (RDoc (<["learning_preferences" := preferences]> d)),
     served (update_user_preferences first_id preferences w).2).
Proof.
  intros w d preferences.
  assert (Hw : well_keyed w).
  { apply (keys_run (CreateUser demo_user)). now apply well_keyed_empty. }
  assert (Ho : Bson.ObjectId first_id = Ok 1%N) by (vm_compute; reflexivity).
  assert (Hd : coll users_collection w !! 1%N = Some d)
    by (apply stored_is; vm_compute; reflexivity).
  assert (A1 : answering w) by (unfold answering; vm_compute; discriminate).
  assert (A2 : answering (served w)) by (unfold answering; vm_compute; discriminate).
  repeat (split; [assumption|]).
  apply (preferences_replaced first_id 1 preferences d w Hw Ho Hd A1 A2).
Defined.

End StoreExamples.
